(** * Smart Energy Logger: usage aggregation and threshold alerting

    A shallow embedding of the Django application's models, signal
    receivers and views, and the properties its specification states
    about them.

    Conventions of the embedding.
    - A Python [Decimal] is a coefficient and a power-of-ten exponent;
      arithmetic is exact (all the quantities handled here stay far below
      the 28 significant digits of the default decimal context).
    - A Python [float] is a binary64 number (Rocq's primitive floats).
    - A [datetime] is a number of microseconds since the epoch, a [date]
      a proleptic Gregorian ordinal (what [date.toordinal()] returns).
    - Database tables are finite maps or lists inside one [DB] record
      that every operation threads explicitly.  Columns that play no
      part in the properties (addresses, device fields, request metadata,
      audit timestamps other than the summary's) are left out of the
      records.
    - A Decimal written to a [DecimalField] column of a reading or of a
      summary is cut to the column's decimal places by Django's own
      formatting of decimals ([django.db.backends.utils.format_number],
      round-half-even), as on the default SQLite backend and on every
      backend but PostgreSQL, which leaves the rounding to the server.
      Values are taken to fit the column's [max_digits].  The amount of
      a payment and the balance of a user are kept as given: an amount
      reaches the model with the two places its field quantized it to,
      and a balance is a sum of such amounts.
    - The receivers of [notifications/signals.py] are taken as connected,
      so each [save()] of a model runs them right after the row is
      written, inside the call to [save()]. *)

From Stdlib Require Import ZArith QArith Qpower Qabs Floats Lia Bool List Ascii String.
From stdpp Require Import gmap strings list fin_maps.

Local Open Scope Z_scope.

(* ===================================================================== *)
(** ** Python's [decimal.Decimal]                                         *)
(* ===================================================================== *)

Module Decimal.

(** [Dec c e] stands for the number [c * 10^e]; [Decimal('2.50')] is
    [Dec 250 (-2)]. *)
Record t := Dec { coef : Z; expo : Z }.

(** The coefficient once the number is rewritten with exponent [e]
    (used with [e <= expo d] only). *)
Definition align (e : Z) (d : t) : Z := coef d * 10 ^ (expo d - e).

(** [a + b]: the result takes the smaller exponent. *)
Definition add (a b : t) : t :=
  let e := Z.min (expo a) (expo b) in
  Dec (align e a + align e b) e.

(** [a * b]: coefficients multiply, exponents add. *)
Definition mul (a b : t) : t := Dec (coef a * coef b) (expo a + expo b).

Definition compare (a b : t) : comparison :=
  let e := Z.min (expo a) (expo b) in
  Z.compare (align e a) (align e b).

(** [a <= b], [a >= b], [a > b], [a == b] *)
Definition leb (a b : t) : bool :=
  match compare a b with Gt => false | _ => true end.
Definition geb (a b : t) : bool := leb b a.
Definition gtb (a b : t) : bool := negb (leb a b).
Definition eqb (a b : t) : bool :=
  match compare a b with Eq => true | _ => false end.

(** An [int] operand is converted with exponent 0. *)
Definition of_Z (z : Z) : t := Dec z 0.

(** Truth value: a Decimal is falsy exactly when it is zero. *)
Definition truthy (d : t) : bool := negb (coef d =? 0).

(** [d or 0] *)
Definition or_zero (d : t) : t := if truthy d then d else of_Z 0.

(** The rational number a Decimal denotes. *)
Definition val (d : t) : Q := (inject_Z (coef d) * Qpower 10 (expo d))%Q.

(** [sum(ds)] as SQL's [SUM] computes it over a non-empty column. *)
Definition sum (ds : list t) : t := fold_left add ds (of_Z 0).

(** The largest element, as SQL's [MAX]; [None] on an empty column. *)
Definition max_list (ds : list t) : option t :=
  match ds with
  | [] => None
  | d :: ds' => Some (fold_left (fun m x => if leb m x then x else m) ds' d)
  end.

End Decimal.

Abbreviation Decimal := Decimal.t.
Abbreviation Dec := Decimal.Dec.

(* ===================================================================== *)
(** ** Python's [float] (IEEE 754 binary64)                               *)
(* ===================================================================== *)

Module PyFloat.

(** The binary64 number nearest to [n / d] (ties to even), with sign
    [neg]; [0 <= n], [0 < d].  The quotient is computed with enough
    extra bits for the rounding position to be decided exactly. *)
Definition of_ratio (neg : bool) (n d : Z) : float :=
  if n =? 0 then (if neg then PrimFloat.neg_zero else PrimFloat.zero)
  else
    let s := 64 + Z.log2 d + 1 in
    let q := (n * 2 ^ s) / d in
    let r := (n * 2 ^ s) mod d in
    let loc := if r =? 0 then loc_Exact
               else loc_Inexact (Z.compare (2 * r) d) in
    SF2Prim (binary_round_aux prec emax neg q (- s) loc).

(** [float(d)] for a Decimal [d]: the nearest binary64 number. *)
Definition of_decimal (d : Decimal) : float :=
  let c := Decimal.coef d in
  let e := Decimal.expo d in
  if 0 <=? e then of_ratio (c <? 0) (Z.abs c * 10 ^ e) 1
  else of_ratio (c <? 0) (Z.abs c) (10 ^ (- e)).

(** [sum(xs)]: additions from the left, starting from the integer 0
    (CPython up to 3.11; later versions carry a compensation term, which
    can change the last bit of a sum of three or more floats). *)
Definition sum (xs : list float) : float :=
  fold_left PrimFloat.add xs PrimFloat.zero.

(** Nearest integer to [n / d], ties to even; [0 <= n], [0 < d]. *)
Definition div_half_even (n d : Z) : Z :=
  let q := n / d in
  let r := n mod d in
  match Z.compare (2 * r) d with
  | Lt => q
  | Gt => q + 1
  | Eq => if Z.even q then q else q + 1
  end.

(** [round(x, 2)]: the exact binary value of [x] is rounded to the
    nearest multiple of 1/100 (ties to even), and that decimal is
    converted back to the nearest binary64 number. *)
Definition round2 (x : float) : float :=
  match Prim2SF x with
  | S754_finite s m e =>
      if 0 <=? e then x
      else of_ratio s (div_half_even (Z.pos m * 100) (2 ^ (- e))) 100
  | _ => x
  end.

(** The rational number a finite float denotes (0 for the others). *)
Definition val (x : float) : Q :=
  match Prim2SF x with
  | S754_finite s m e =>
      ((if s then -1 else 1) * inject_Z (Z.pos m) * Qpower 2 e)%Q
  | _ => 0%Q
  end.

End PyFloat.

(* ===================================================================== *)
(** ** Decimals on their way to the database and to the response         *)
(* ===================================================================== *)

(** [value.quantize(Decimal(1).scaleb(-places))] in Python's default
    context, whose rounding is ROUND_HALF_EVEN: the number is rewritten
    with exponent [-places]; digits beyond are rounded away, a tie going
    to the even neighbour. *)
Definition quantize (places : Z) (d : Decimal) : Decimal :=
  let e := - places in
  if e <=? Decimal.expo d then Dec (Decimal.align e d) e
  else
    let k := 10 ^ (e - Decimal.expo d) in
    Dec (Z.sgn (Decimal.coef d) * PyFloat.div_half_even (Z.abs (Decimal.coef d)) k) e.

(** [django.db.backends.utils.format_number(value, max_digits,
    decimal_places)], which [DecimalField.get_db_prep_save] applies to
    the value of a column: the number that reaches the table.
    ([max_digits] only bounds the digits that can be written.) *)
Definition format_number (decimal_places : Z) (value : Decimal) : Decimal :=
  quantize decimal_places value.

(** The same for a number held as a rational (the average of a summary). *)
Definition quantize_Q (places : Z) (q : Q) : Q :=
  let n := Qnum q * 10 ^ places in
  Decimal.val
    (Dec (Z.sgn n * PyFloat.div_half_even (Z.abs n) (Z.pos (Qden q))) (- places)).


(* ===================================================================== *)
(** ** Python's [str]                                                     *)
(* ===================================================================== *)

(** A Python [str] is a sequence of code points; a string of this file
    stands for the [str] whose UTF-8 encoding it is. *)
Module Unicode.

Definition continuation (b : Z) : bool := (128 <=? b) && (b <=? 191).

(** The code points a sequence of bytes encodes.  A byte that starts no
    well-formed sequence is no character of a [str]; it is given as
    [-1], which is no code point. *)
Fixpoint decode (fuel : nat) (bs : list Z) : list Z :=
  match fuel with
  | O => []
  | S fuel' =>
      match bs with
      | [] => []
      | b0 :: r0 =>
          if b0 <? 128 then b0 :: decode fuel' r0
          else
            match r0 with
            | b1 :: r1 =>
                let c2 := (b0 - 192) * 64 + (b1 - 128) in
                if (194 <=? b0) && (b0 <=? 223) && continuation b1
                then c2 :: decode fuel' r1
                else
                  match r1 with
                  | b2 :: r2 =>
                      let c3 := (b0 - 224) * 4096 + (b1 - 128) * 64 + (b2 - 128) in
                      if (224 <=? b0) && (b0 <=? 239) && continuation b1
                         && continuation b2 && (2048 <=? c3)
                      then c3 :: decode fuel' r2
                      else
                        match r2 with
                        | b3 :: r3 =>
                            let c4 := (b0 - 240) * 262144 + (b1 - 128) * 4096
                                      + (b2 - 128) * 64 + (b3 - 128) in
                            if (240 <=? b0) && (b0 <=? 244) && continuation b1
                               && continuation b2 && continuation b3
                               && (65536 <=? c4) && (c4 <=? 1114111)
                            then c4 :: decode fuel' r3
                            else (-1) :: decode fuel' r0
                        | [] => (-1) :: decode fuel' r0
                        end
                  | [] => (-1) :: decode fuel' r0
                  end
            | [] => [-1]
            end
      end
  end.

Definition code_points (s : string) : list Z :=
  let bs := map (fun c => Z.of_nat (nat_of_ascii c)) (list_ascii_of_string s) in
  decode (length bs) bs.

(** The zeros of the decimal digits (general category Nd) of Unicode
    14.0, the version of CPython 3.11; each is followed by its digits 1
    to 9.  Later versions add scripts. *)
Definition decimal_zeros : list Z :=
  [48; 1632; 1776; 1984; 2406; 2534; 2662; 2790; 2918; 3046; 3174; 3302;
   3430; 3558; 3664; 3792; 3872; 4160; 4240; 6112; 6160; 6470; 6608; 6784;
   6800; 6992; 7088; 7232; 7248; 42528; 43216; 43264; 43472; 43504; 43600;
   44016; 65296; 66720; 68912; 69734; 69872; 69942; 70096; 70384; 70736;
   70864; 71248; 71360; 71472; 71904; 72016; 72784; 73040; 73120; 92768;
   92864; 93008; 120782; 120792; 120802; 120812; 120822; 123200; 123632;
   125264; 130032].

(** [unicodedata.decimal(c)], [None] when [c] is no decimal digit. *)
Definition decimal (c : Z) : option Z :=
  (fun z => c - z) <$> List.find (fun z => (z <=? c) && (c <=? z + 9)) decimal_zeros.

End Unicode.

(* ===================================================================== *)
(** ** Dates and times                                                    *)
(* ===================================================================== *)

Module Dates.

Definition us_per_hour : Z := 3600000000.
Definition us_per_day : Z := 86400000000.

(** [date(1970, 1, 1).toordinal()] *)
Definition epoch_ordinal : Z := 719163.

(** [dt.hour] and [dt.date()] of a datetime given in microseconds
    since the epoch. *)
Definition hour (t : Z) : Z := (t / us_per_hour) mod 24.
Definition date (t : Z) : Z := epoch_ordinal + t / us_per_day.

(** [timedelta(hours=n)] *)
Definition hours (n : Z) : Z := n * us_per_hour.

Definition is_leap (y : Z) : bool :=
  (y mod 4 =? 0) && (negb (y mod 100 =? 0) || (y mod 400 =? 0)).

Definition days_in_month (y m : Z) : Z :=
  if m =? 2 then (if is_leap y then 29 else 28)
  else if (m =? 4) || (m =? 6) || (m =? 9) || (m =? 11) then 30
  else 31.

Definition days_before_year (y : Z) : Z :=
  let y' := y - 1 in y' * 365 + y' / 4 - y' / 100 + y' / 400.

Definition days_before_month (y m : Z) : Z :=
  fold_left (fun acc k => acc + days_in_month y k)
            (map Z.of_nat (seq 1 (Z.to_nat (m - 1)))) 0.

(** [date(y, m, d).toordinal()], or [None] where the constructor
    raises [ValueError]. *)
Definition ymd2ord (y m d : Z) : option Z :=
  if (1 <=? y) && (y <=? 9999) && (1 <=? m) && (m <=? 12)
     && (1 <=? d) && (d <=? days_in_month y m)
  then Some (days_before_year y + days_before_month y m + d)
  else None.

(** [\d] of a regular expression on a [str], and the value [int()]
    gives the digit: any decimal digit of Unicode. *)
Definition is_digit (c : Z) : bool :=
  match Unicode.decimal c with Some _ => true | None => false end.

Definition digit (c : Z) : Z := default 0 (Unicode.decimal c).

(** A character class [[a-b]] of ASCII digits, and the value of one of
    its characters. *)
Definition in_class (a b : Z) (c : Z) : bool := (48 + a <=? c) && (c <=? 48 + b).
Definition ascii_digit (c : Z) : Z := c - 48.

Definition dash : Z := 45.
Definition space : Z := 32.

(** The ways the directive [%m] can match at the head of [s], in the
    order the regular expression [1[0-2]|0[1-9]|[1-9]] tries them:
    the value read and what is left of the input. *)
Definition match_m (s : list Z) : list (Z * list Z) :=
  (match s with
   | a :: b :: r =>
       if in_class 1 1 a && in_class 0 2 b
       then [(10 + ascii_digit b, r)] else []
   | _ => []
   end) ++
  (match s with
   | a :: b :: r =>
       if in_class 0 0 a && in_class 1 9 b
       then [(ascii_digit b, r)] else []
   | _ => []
   end) ++
  (match s with
   | a :: r => if in_class 1 9 a then [(ascii_digit a, r)] else []
   | _ => []
   end).

(** The same for [%d]: [3[0-1]|[1-2]\d|0[1-9]|[1-9]| [1-9]]. *)
Definition match_d (s : list Z) : list (Z * list Z) :=
  (match s with
   | a :: b :: r =>
       if in_class 3 3 a && in_class 0 1 b
       then [(30 + ascii_digit b, r)] else []
   | _ => []
   end) ++
  (match s with
   | a :: b :: r =>
       if in_class 1 2 a && is_digit b
       then [(10 * ascii_digit a + digit b, r)] else []
   | _ => []
   end) ++
  (match s with
   | a :: b :: r =>
       if in_class 0 0 a && in_class 1 9 b
       then [(ascii_digit b, r)] else []
   | _ => []
   end) ++
  (match s with
   | a :: r => if in_class 1 9 a then [(ascii_digit a, r)] else []
   | _ => []
   end) ++
  (match s with
   | a :: b :: r =>
       if (a =? space) && in_class 1 9 b
       then [(ascii_digit b, r)] else []
   | _ => []
   end).

(** The first match of the pattern for ['%Y-%m-%d'],
    [(\d\d\d\d)-(%m)-(%d)], at the start of the input, with backtracking
    over the alternatives of [%m]. *)
Definition match_ymd (s : list Z) : option (Z * Z * Z * list Z) :=
  match s with
  | y1 :: y2 :: y3 :: y4 :: sep :: r =>
      if is_digit y1 && is_digit y2 && is_digit y3 && is_digit y4
         && (sep =? dash)
      then
        let y := 1000 * digit y1 + 100 * digit y2 + 10 * digit y3 + digit y4 in
        head (flat_map
                (fun '(m, r1) =>
                   match r1 with
                   | sep' :: r2 =>
                       if sep' =? dash
                       then map (fun '(d, r3) => (y, m, d, r3)) (match_d r2)
                       else []
                   | [] => []
                   end)
                (match_m r))
      else None
  | _ => None
  end.

(** [datetime.strptime(s, '%Y-%m-%d').date()] as an ordinal; [None]
    where it raises [ValueError] (no match, text left over after the
    match, or a day the month does not have).  Where the pattern has
    [\d], the four digits of the year and the second digit of a day
    from 10 to 29, any decimal digit of Unicode is taken. *)
Definition strptime (s : string) : option Z :=
  match match_ymd (Unicode.code_points s) with
  | Some (y, m, d, []) => ymd2ord y m d
  | _ => None
  end.

End Dates.

(* ===================================================================== *)
(** ** Models                                                             *)
(* ===================================================================== *)

(** [accounts.models.User] *)
Module User.
Record t := Build {
  id : Z;
  balance : Decimal;
  low_balance_alert : bool;
  usage_alert : bool;
  low_balance_threshold : Decimal;
  usage_threshold : Decimal
}.

Definition set_balance (b : Decimal) (u : t) : t :=
  Build (id u) b (low_balance_alert u) (usage_alert u)
        (low_balance_threshold u) (usage_threshold u).
End User.

(** [energy_usage.models.EnergyReading].  [id] and [cost] are [None]
    on an instance that was built without them. *)
Module EnergyReading.
Record t := Build {
  id : option Z;
  user : Z;
  timestamp : Z;
  energy_kwh : Decimal;
  power_kw : Decimal;
  cost : option Decimal
}.

Definition set_id (i : Z) (r : t) : t :=
  Build (Some i) (user r) (timestamp r) (energy_kwh r) (power_kw r) (cost r).
Definition set_cost (c : Decimal) (r : t) : t :=
  Build (id r) (user r) (timestamp r) (energy_kwh r) (power_kw r) (Some c).
End EnergyReading.

(** [energy_usage.models.UsageSummary].  The average is held as a
    rational: on the object, the mean that the database's [AVG] denotes
    (an engine returns it to more digits than the column keeps); in the
    table, that mean cut to the column's three decimal places. *)
Module UsageSummary.
Record t := Build {
  id : Z;
  user : Z;
  period_type : string;
  start_date : Z;
  end_date : Z;
  total_energy_kwh : Decimal;
  average_power_kw : Q;
  peak_power_kw : Decimal;
  total_cost : Decimal;
  reading_count : Z;
  created_at : Z;
  updated_at : Z
}.
End UsageSummary.

(** [payments.models.Payment] *)
Module Payment.
Record t := Build {
  id : option Z;
  user : Z;
  reference : string;
  amount : Decimal;
  payment_method : string;
  status : string;
  transaction_id : option string;
  description : option string;
  completed_at : option Z
}.

Definition set_id (i : Z) (p : t) : t :=
  Build (Some i) (user p) (reference p) (amount p) (payment_method p)
        (status p) (transaction_id p) (description p) (completed_at p).
Definition set_reference (r : string) (p : t) : t :=
  Build (id p) (user p) r (amount p) (payment_method p)
        (status p) (transaction_id p) (description p) (completed_at p).
Definition set_status (st : string) (p : t) : t :=
  Build (id p) (user p) (reference p) (amount p) (payment_method p)
        st (transaction_id p) (description p) (completed_at p).
Definition set_transaction_id (tx : string) (p : t) : t :=
  Build (id p) (user p) (reference p) (amount p) (payment_method p)
        (status p) (Some tx) (description p) (completed_at p).
Definition set_completed_at (now : Z) (p : t) : t :=
  Build (id p) (user p) (reference p) (amount p) (payment_method p)
        (status p) (transaction_id p) (description p) (Some now).
End Payment.

(** [notifications.models.Notification] *)
Module Notification.

(** A value of the JSON column [data]. *)
Inductive json :=
| JInt (z : Z)
| JFloat (x : float)
| JStr (s : string)
| JNull.

(** The message is an f-string; it is kept as the template used and
    the values formatted into it. *)
Inductive message :=
| HighUsageMessage (energy_kwh threshold : Decimal)
| LowBalanceMessage (balance threshold : Decimal)
| PaymentSuccessMessage (amount : Decimal).

Record t := Build {
  id : Z;
  user : Z;
  notification_type : string;
  title : string;
  msg : message;
  data : list (string * json);
  is_read : bool;
  email_sent : bool;
  sms_sent : bool;
  push_sent : bool
}.
End Notification.

(* ===================================================================== *)
(** ** The database                                                       *)
(* ===================================================================== *)

(** One table per model.  Readings and notifications are listed in the
    order they were inserted; summaries are indexed by the columns that
    are unique together, [(user, period_type, start_date)]; users and
    payments by primary key.  Each [*_seq] is the last primary key the
    table gave out. *)
Record DB := BuildDB {
  users : gmap Z User.t;
  readings : list EnergyReading.t;
  reading_seq : Z;
  summaries : gmap (Z * string * Z) UsageSummary.t;
  summary_seq : Z;
  payments : gmap Z Payment.t;
  payment_seq : Z;
  notifications : list Notification.t;
  notification_seq : Z
}.

Definition set_users (f : gmap Z User.t -> gmap Z User.t) (db : DB) : DB :=
  BuildDB (f (users db)) (readings db) (reading_seq db) (summaries db)
          (summary_seq db) (payments db) (payment_seq db)
          (notifications db) (notification_seq db).

Definition set_readings (rs : list EnergyReading.t) (sq : Z) (db : DB) : DB :=
  BuildDB (users db) rs sq (summaries db)
          (summary_seq db) (payments db) (payment_seq db)
          (notifications db) (notification_seq db).

Definition set_summaries (m : gmap (Z * string * Z) UsageSummary.t) (sq : Z)
    (db : DB) : DB :=
  BuildDB (users db) (readings db) (reading_seq db) m sq
          (payments db) (payment_seq db)
          (notifications db) (notification_seq db).

Definition set_payments (m : gmap Z Payment.t) (sq : Z) (db : DB) : DB :=
  BuildDB (users db) (readings db) (reading_seq db) (summaries db)
          (summary_seq db) m sq
          (notifications db) (notification_seq db).

Definition set_notifications (ns : list Notification.t) (sq : Z) (db : DB) : DB :=
  BuildDB (users db) (readings db) (reading_seq db) (summaries db)
          (summary_seq db) (payments db) (payment_seq db) ns sq.

(** [settings]: the rate is held as [Decimal(str(ENERGY_RATE_PER_KWH))],
    the form in which [EnergyReading.save] uses it. *)
Record Settings := { ENERGY_RATE_PER_KWH : Decimal }.

(* ===================================================================== *)
(** ** notifications: creation and the signal receivers                   *)
(* ===================================================================== *)

(** [Notification.objects.create(user=..., notification_type=..., title=...,
    message=..., data=...)]: a new row with the next primary key; the
    read flag and the delivery flags take their default, [False]. *)
Definition Notification_create (user : Z) (notification_type title : string)
    (msg : Notification.message) (data : list (string * Notification.json))
    (db : DB) : DB :=
  let i := notification_seq db + 1 in
  set_notifications
    (notifications db ++
       [Notification.Build i user notification_type title msg data
                           false false false false])
    i db.

(** [check_usage_alerts], the [post_save] receiver of [EnergyReading].
    [instance_user] is the object [instance.user]. *)
Definition check_usage_alerts (instance : EnergyReading.t)
    (instance_user : User.t) (created : bool) (db : DB) : DB :=
  if created && User.usage_alert instance_user then
    if Decimal.geb (EnergyReading.energy_kwh instance)
                   (User.usage_threshold instance_user)
    then
      Notification_create
        (User.id instance_user) "high_usage" "High Energy Usage Alert"
        (Notification.HighUsageMessage
           (EnergyReading.energy_kwh instance)
           (User.usage_threshold instance_user))
        [("reading_id",
          match EnergyReading.id instance with
          | Some i => Notification.JInt i
          | None => Notification.JNull
          end);
         ("energy_kwh",
          Notification.JFloat
            (PyFloat.of_decimal (EnergyReading.energy_kwh instance)));
         ("threshold",
          Notification.JFloat
            (PyFloat.of_decimal (User.usage_threshold instance_user)))]
        db
    else db
  else db.

(** [check_balance_alerts], the [post_save] receiver of [Payment]. *)
Definition check_balance_alerts (instance : Payment.t)
    (instance_user : User.t) (created : bool) (db : DB) : DB :=
  if String.eqb (Payment.status instance) "success"
     && User.low_balance_alert instance_user then
    if Decimal.leb (User.balance instance_user)
                   (User.low_balance_threshold instance_user)
    then
      Notification_create
        (User.id instance_user) "low_balance" "Low Balance Alert"
        (Notification.LowBalanceMessage
           (User.balance instance_user)
           (User.low_balance_threshold instance_user))
        [("balance",
          Notification.JFloat (PyFloat.of_decimal (User.balance instance_user)));
         ("threshold",
          Notification.JFloat
            (PyFloat.of_decimal (User.low_balance_threshold instance_user)))]
        db
    else db
  else db.

(* ===================================================================== *)
(** ** HTTP responses                                                     *)
(* ===================================================================== *)

Inductive Response (A : Type) : Type :=
| Err (status_code : Z) (error : string)
| Ok (status_code : Z) (data : A).
Arguments Err {A} status_code error.
Arguments Ok {A} status_code data.

Definition HTTP_200_OK : Z := 200.
Definition HTTP_201_CREATED : Z := 201.
Definition HTTP_400_BAD_REQUEST : Z := 400.
Definition HTTP_404_NOT_FOUND : Z := 404.

(* ===================================================================== *)
(** ** energy_usage: readings                                             *)
(* ===================================================================== *)

(** [not self.cost]: true on [None] and on a zero Decimal. *)
Definition not_cost (c : option Decimal) : bool :=
  match c with
  | None => true
  | Some d => negb (Decimal.truthy d)
  end.

(** Whether the table has a row with primary key [i]. *)
Definition has_reading (i : Z) (rs : list EnergyReading.t) : bool :=
  existsb (fun r => bool_decide (EnergyReading.id r = Some i)) rs.

(** The first statement of [EnergyReading.save]:
    [if not self.cost: self.cost = self.energy_kwh * Decimal(str(rate))]. *)
Definition priced (cfg : Settings) (self : EnergyReading.t) : EnergyReading.t :=
  if not_cost (EnergyReading.cost self)
  then EnergyReading.set_cost
         (Decimal.mul (EnergyReading.energy_kwh self) (ENERGY_RATE_PER_KWH cfg))
         self
  else self.

(** The row of an instance as [super().save()] writes it: the Decimal
    columns are cut to their decimal places ([energy_kwh] and [power_kw]
    to 3, [cost] to 2) on the way to the table. *)
Definition EnergyReading_row (self : EnergyReading.t) : EnergyReading.t :=
  EnergyReading.Build
    (EnergyReading.id self) (EnergyReading.user self)
    (EnergyReading.timestamp self)
    (format_number 3 (EnergyReading.energy_kwh self))
    (format_number 3 (EnergyReading.power_kw self))
    (format_number 2 <$> EnergyReading.cost self).

(** [EnergyReading.save].  The cost is filled in when the instance has
    none; the row is then written and [post_save] runs
    [check_usage_alerts] on the instance.  An instance without a primary
    key is inserted and gets the next key; one with a key replaces the
    row of that key, or is inserted if there is no such row.  The
    instance keeps the values it was given; the table holds its row.
    [self_user] is [self.user]. *)
Definition EnergyReading_save (cfg : Settings) (self : EnergyReading.t)
    (self_user : User.t) (db : DB) : EnergyReading.t * DB :=
  let self := priced cfg self in
  match EnergyReading.id self with
  | None =>
      let i := reading_seq db + 1 in
      let self := EnergyReading.set_id i self in
      (self,
       check_usage_alerts self self_user true
         (set_readings (readings db ++ [EnergyReading_row self]) i db))
  | Some i =>
      if has_reading i (readings db) then
        (self,
         check_usage_alerts self self_user false
           (set_readings
              (map (fun r => if decide (EnergyReading.id r = Some i)
                             then EnergyReading_row self else r)
                   (readings db))
              (reading_seq db) db))
      else
        (self,
         check_usage_alerts self self_user true
           (set_readings (readings db ++ [EnergyReading_row self])
                         (reading_seq db) db))
  end.

(** [Meta.ordering = ['-timestamp']]: newest first; rows with the same
    timestamp keep the order of the table. *)
Fixpoint insert_by_timestamp (r : EnergyReading.t) (rs : list EnergyReading.t)
    : list EnergyReading.t :=
  match rs with
  | [] => [r]
  | x :: rs' =>
      if EnergyReading.timestamp x <=? EnergyReading.timestamp r
      then r :: x :: rs'
      else x :: insert_by_timestamp r rs'
  end.

Definition order_by_timestamp_desc (rs : list EnergyReading.t)
    : list EnergyReading.t :=
  fold_right insert_by_timestamp [] rs.

(** The query parameters of a request to the readings viewset;
    [start_date] and [end_date] as the dates the lookups compare with. *)
Record ReadingsRequest := {
  rq_user : User.t;
  rq_start_date : option Z;
  rq_end_date : option Z
}.

(** [EnergyReadingViewSet.get_queryset] *)
Definition readings_get_queryset (request : ReadingsRequest) (db : DB)
    : list EnergyReading.t :=
  let queryset :=
    List.filter (fun r => EnergyReading.user r =? User.id (rq_user request))
                (order_by_timestamp_desc (readings db)) in
  let queryset :=
    match rq_start_date request with
    | Some start_date =>
        List.filter (fun r => start_date <=? Dates.date (EnergyReading.timestamp r))
                    queryset
    | None => queryset
    end in
  match rq_end_date request with
  | Some end_date =>
      List.filter (fun r => Dates.date (EnergyReading.timestamp r) <=? end_date)
                  queryset
  | None => queryset
  end.

(** [f"{h:02d}:00"] *)
Definition hour_label (h : nat) : string :=
  let d (n : nat) := String (ascii_of_nat (48 + n)) EmptyString in
  (if (h <? 10)%nat then String.append "0" (d h)
   else String.append (d (h / 10)%nat) (d (h mod 10)%nat)) +:+ ":00".

(** The grouping loop of the [period == 'day'] branch: one step per
    reading, on the dictionary [hourly_data]. *)
Definition group_by_hour_step (hourly_data : gmap Z (list float))
    (reading : EnergyReading.t) : gmap Z (list float) :=
  let hour := Dates.hour (EnergyReading.timestamp reading) in
  let hourly_data :=
    match hourly_data !! hour with
    | None => <[hour := []]> hourly_data
    | Some _ => hourly_data
    end in
  alter (fun l => l ++ [PyFloat.of_decimal (EnergyReading.energy_kwh reading)])
        hour hourly_data.

(** [sum(hourly_data.get(h, [0]))] *)
Definition bucket_sum (hourly_data : gmap Z (list float)) (h : Z) : float :=
  PyFloat.sum (default [PrimFloat.zero] (hourly_data !! h)).

Record ChartData := { labels : list string; data : list float }.

(** [EnergyReadingViewSet.chart_data] for [period == 'day']: what ends
    up in ['labels'] and in the ['data'] of the one dataset. *)
Definition chart_data_day (request : ReadingsRequest) (now : Z) (db : DB)
    : ChartData :=
  let start_time := now - Dates.hours 24 in
  let readings :=
    List.filter (fun r => start_time <=? EnergyReading.timestamp r)
                (readings_get_queryset request db) in
  let hourly_data := fold_left group_by_hour_step readings ∅ in
  let labels := map hour_label (seq 0 24) in
  let data := map (fun h => bucket_sum hourly_data (Z.of_nat h)) (seq 0 24) in
  {| labels := labels; data := map PyFloat.round2 data |}.

(* ===================================================================== *)
(** ** energy_usage: summaries                                            *)
(* ===================================================================== *)

(** The aggregates of [readings.aggregate(...)]; [None] is SQL's NULL
    over an empty set of rows. *)
Definition Sum (ds : list Decimal) : option Decimal :=
  match ds with [] => None | _ => Some (Decimal.sum ds) end.

Definition Avg (ds : list Decimal) : option Q :=
  match ds with
  | [] => None
  | _ => Some (Qred (fold_left Qplus (map Decimal.val ds) 0%Q
                     / inject_Z (Z.of_nat (length ds))))
  end.

Definition Max (ds : list Decimal) : option Decimal := Decimal.max_list ds.

Definition Count {A} (l : list A) : Z := Z.of_nat (length l).

Record Stats := {
  st_total_energy : option Decimal;
  st_avg_power : option Q;
  st_peak_power : option Decimal;
  st_total_cost : option Decimal;
  st_count : Z
}.

Definition aggregate (rs : list EnergyReading.t) : Stats :=
  {| st_total_energy := Sum (map EnergyReading.energy_kwh rs);
     st_avg_power := Avg (map EnergyReading.power_kw rs);
     st_peak_power := Max (map EnergyReading.power_kw rs);
     st_total_cost := Sum (omap EnergyReading.cost rs);
     st_count := Count rs |}.

(** [x or 0] on the aggregates *)
Definition dec_or_0 (x : option Decimal) : Decimal :=
  match x with
  | Some d => Decimal.or_zero d
  | None => Decimal.of_Z 0
  end.

Definition Q_or_0 (x : option Q) : Q :=
  match x with
  | Some q => if Qeq_bool q 0 then 0%Q else q
  | None => 0%Q
  end.

(** The [defaults] of [update_or_create]. *)
Record SummaryDefaults := {
  d_end_date : Z;
  d_total_energy_kwh : Decimal;
  d_average_power_kw : Q;
  d_peak_power_kw : Decimal;
  d_total_cost : Decimal;
  d_reading_count : Z
}.

(** An existing row once every entry of [defaults] has been assigned to
    it and it has been saved: the key, the primary key and [created_at]
    stay, [updated_at] is the time of the save. *)
Definition with_defaults (row : UsageSummary.t) (defaults : SummaryDefaults)
    (now : Z) : UsageSummary.t :=
  UsageSummary.Build
    (UsageSummary.id row) (UsageSummary.user row)
    (UsageSummary.period_type row) (UsageSummary.start_date row)
    (d_end_date defaults) (d_total_energy_kwh defaults)
    (d_average_power_kw defaults) (d_peak_power_kw defaults)
    (d_total_cost defaults) (d_reading_count defaults)
    (UsageSummary.created_at row) now.

(** A row created from the lookup and the defaults. *)
Definition new_summary (i user : Z) (period_type : string) (start_date : Z)
    (defaults : SummaryDefaults) (now : Z) : UsageSummary.t :=
  UsageSummary.Build
    i user period_type start_date
    (d_end_date defaults) (d_total_energy_kwh defaults)
    (d_average_power_kw defaults) (d_peak_power_kw defaults)
    (d_total_cost defaults) (d_reading_count defaults)
    now now.

(** The row of a summary as [save()] writes it: the Decimal columns are
    cut to their decimal places on the way to the table (3 for the
    energy and the two powers, 2 for the cost). *)
Definition UsageSummary_row (s : UsageSummary.t) : UsageSummary.t :=
  UsageSummary.Build
    (UsageSummary.id s) (UsageSummary.user s)
    (UsageSummary.period_type s) (UsageSummary.start_date s)
    (UsageSummary.end_date s)
    (format_number 3 (UsageSummary.total_energy_kwh s))
    (quantize_Q 3 (UsageSummary.average_power_kw s))
    (format_number 3 (UsageSummary.peak_power_kw s))
    (format_number 2 (UsageSummary.total_cost s))
    (UsageSummary.reading_count s)
    (UsageSummary.created_at s) (UsageSummary.updated_at s).

(** [UsageSummarySerializer(summary).data], on the columns kept: each
    Decimal field of the serializer takes the decimal places of its
    column, and [DecimalField.to_representation] quantizes the value to
    them in the default context before it is written out. *)
Definition UsageSummarySerializer_data (s : UsageSummary.t) : UsageSummary.t :=
  UsageSummary.Build
    (UsageSummary.id s) (UsageSummary.user s)
    (UsageSummary.period_type s) (UsageSummary.start_date s)
    (UsageSummary.end_date s)
    (quantize 3 (UsageSummary.total_energy_kwh s))
    (quantize_Q 3 (UsageSummary.average_power_kw s))
    (quantize 3 (UsageSummary.peak_power_kw s))
    (quantize 2 (UsageSummary.total_cost s))
    (UsageSummary.reading_count s)
    (UsageSummary.created_at s) (UsageSummary.updated_at s).

(** [UsageSummary.objects.update_or_create(user=, period_type=,
    start_date=, defaults=)]: the row with that key is loaded, gets the
    defaults and is saved; if there is none, an object is created from
    the key and the defaults and saved.  Returns the object, which holds
    the defaults as they were given, and whether it was created; the
    table holds the object's row. *)
Definition update_or_create (user : Z) (period_type : string) (start_date : Z)
    (defaults : SummaryDefaults) (now : Z) (db : DB)
    : UsageSummary.t * bool * DB :=
  let key := (user, period_type, start_date) in
  match summaries db !! key with
  | Some row =>
      let obj := with_defaults row defaults now in
      (obj, false,
       set_summaries (<[key := UsageSummary_row obj]> (summaries db))
                     (summary_seq db) db)
  | None =>
      let i := summary_seq db + 1 in
      let obj := new_summary i user period_type start_date defaults now in
      (obj, true,
       set_summaries (<[key := UsageSummary_row obj]> (summaries db)) i db)
  end.

(** The body of a POST to [summaries/generate/] whose fields, when
    given, are strings; a field is [None] when the key is absent from
    [request.data] or holds a JSON null. *)
Record GenerateRequest := {
  g_user : User.t;
  g_period_type : option string;
  g_start_date : option string;
  g_end_date : option string
}.

(** [not s] for an optional string: absent or empty. *)
Definition not_str (s : option string) : bool :=
  match s with
  | None => true
  | Some s => String.eqb s ""
  end.

(** The readings [generate] aggregates over. *)
Definition readings_in_period (user : Z) (start_date end_date : Z) (db : DB)
    : list EnergyReading.t :=
  List.filter
    (fun r => (EnergyReading.user r =? user)
              && (start_date <=? Dates.date (EnergyReading.timestamp r))
              && (Dates.date (EnergyReading.timestamp r) <=? end_date))
    (order_by_timestamp_desc (readings db)).

(** [UsageSummaryViewSet.generate] *)
Definition generate (request : GenerateRequest) (now : Z) (db : DB)
    : Response (string * UsageSummary.t) * DB :=
  let period_type := default "daily" (g_period_type request) in
  if not_str (g_start_date request) || not_str (g_end_date request) then
    (Err HTTP_400_BAD_REQUEST "start_date and end_date are required", db)
  else
    match Dates.strptime (default "" (g_start_date request)),
          Dates.strptime (default "" (g_end_date request)) with
    | Some start_date, Some end_date =>
        let readings :=
          readings_in_period (User.id (g_user request)) start_date end_date db in
        match readings with
        | [] => (Err HTTP_404_NOT_FOUND "No readings found for this period", db)
        | _ :: _ =>
            let stats := aggregate readings in
            let '(summary, created, db') :=
              update_or_create
                (User.id (g_user request)) period_type start_date
                {| d_end_date := end_date;
                   d_total_energy_kwh := dec_or_0 (st_total_energy stats);
                   d_average_power_kw := Q_or_0 (st_avg_power stats);
                   d_peak_power_kw := dec_or_0 (st_peak_power stats);
                   d_total_cost := dec_or_0 (st_total_cost stats);
                   d_reading_count := st_count stats |}
                now db in
            (Ok (if created then HTTP_201_CREATED else HTTP_200_OK)
                (if created then "Summary generated successfully"
                 else "Summary updated", UsageSummarySerializer_data summary),
             db')
        end
    | _, _ => (Err HTTP_400_BAD_REQUEST "Invalid date format. Use YYYY-MM-DD", db)
    end.

(* ===================================================================== *)
(** ** accounts and payments                                              *)
(* ===================================================================== *)

(** [User.update_balance]: [self.balance += amount], then
    [self.save(update_fields=['balance'])], which writes that one column
    of the user's row (the [post_save] receiver of [User] only acts on a
    newly created user).  Returns the updated object and the database. *)
Definition update_balance (self : User.t) (amount : Decimal) (db : DB)
    : User.t * DB :=
  let self' := User.set_balance (Decimal.add (User.balance self) amount) self in
  (self',
   set_users (alter (User.set_balance (User.balance self')) (User.id self')) db).

(** [Payment.save]: the reference is generated when empty ([token] is
    [uuid.uuid4().hex[:10].upper()]), the row is inserted or updated, and
    [post_save] runs [check_balance_alerts] ([created] tells whether a row
    was inserted).  [self_user] is [self.user]. *)
Definition Payment_save (self : Payment.t) (self_user : User.t)
    (token : string) (db : DB) : Payment.t * DB :=
  let self1 :=
    if String.eqb (Payment.reference self) ""
    then Payment.set_reference ("PAY-" +:+ token) self
    else self in
  match Payment.id self1 with
  | None =>
      let i := payment_seq db + 1 in
      let self2 := Payment.set_id i self1 in
      (self2,
       check_balance_alerts self2 self_user true
         (set_payments (<[i := self2]> (payments db)) i db))
  | Some i =>
      (self1,
       check_balance_alerts self1 self_user
         (bool_decide (payments db !! i = None))
         (set_payments (<[i := self1]> (payments db)) (payment_seq db) db))
  end.

(** [Payment.mark_as_success] *)
Definition mark_as_success (self : Payment.t) (self_user : User.t)
    (token : string) (now : Z) (db : DB) : Payment.t * User.t * DB :=
  if negb (String.eqb (Payment.status self) "success") then
    let self := Payment.set_status "success" self in
    let self := Payment.set_completed_at now self in
    let '(self, db) := Payment_save self self_user token db in
    (* Update user balance *)
    let '(self_user, db) := update_balance self_user (Payment.amount self) db in
    (* Create notification *)
    let db :=
      Notification_create
        (User.id self_user) "payment_success" "Payment Successful"
        (Notification.PaymentSuccessMessage (Payment.amount self))
        [("payment_id",
          match Payment.id self with
          | Some i => Notification.JInt i
          | None => Notification.JNull
          end);
         ("reference", Notification.JStr (Payment.reference self))]
        db in
    (self, self_user, db)
  else (self, self_user, db).

Inductive validation (A : Type) : Type :=
| Valid (value : A)
| ValidationError (detail : string).
Arguments Valid {A} value.
Arguments ValidationError {A} detail.

(** [PaymentCreateSerializer.validate_amount] *)
Definition validate_amount (value : Decimal) : validation Decimal :=
  if Decimal.leb value (Decimal.of_Z 0) then
    ValidationError "Amount must be greater than 0"
  else if Decimal.gtb value (Decimal.of_Z 1000) then
    ValidationError "Amount cannot exceed $1000 per transaction"
  else Valid value.

(** [len(value.as_tuple().digits)]: the digits of the coefficient, one
    for zero. *)
Fixpoint count_digits (fuel : nat) (n c : Z) : Z :=
  match fuel with
  | O => n
  | S fuel' => if c <? 10 ^ n then n else count_digits fuel' (n + 1) c
  end.

Definition num_digits (c : Z) : Z :=
  count_digits (Z.to_nat (Z.log2 (Z.abs c))) 1 (Z.abs c).

(** [DecimalField.validate_precision] of rest_framework for a field with
    [max_digits=10, decimal_places=2], the [amount] of a payment. *)
Definition validate_precision (value : Decimal) : validation Decimal :=
  let digits := num_digits (Decimal.coef value) in
  let exponent := Decimal.expo value in
  let '(total_digits, whole_digits, decimal_places) :=
    if 0 <=? exponent then (digits + exponent, digits + exponent, 0)
    else if Z.abs exponent <? digits
         then (digits, digits - Z.abs exponent, Z.abs exponent)
         else (Z.abs exponent, 0, Z.abs exponent) in
  if 10 <? total_digits then
    ValidationError "Ensure that there are no more than 10 digits in total."
  else if 2 <? decimal_places then
    ValidationError "Ensure that there are no more than 2 decimal places."
  else if 8 <? whole_digits then
    ValidationError
      "Ensure that there are no more than 8 digits before the decimal point."
  else Valid value.

(** The field [amount] of [PaymentCreateSerializer]:
    [DecimalField.to_internal_value] checks the precision of the number
    read and quantizes it to two places, then [validate_amount] runs. *)
Definition amount_run_validation (data : Decimal) : validation Decimal :=
  match validate_precision data with
  | ValidationError detail => ValidationError detail
  | Valid value => validate_amount (quantize 2 value)
  end.

Definition PAYMENT_METHOD_CHOICES : list string :=
  ["card"; "bank"; "mobile"; "cash"].

Definition quotation_mark : string := String (ascii_of_nat 34) EmptyString.

(** The field [payment_method], a [ChoiceField] over the choices of the
    model. *)
Definition payment_method_run_validation (data : string) : validation string :=
  if existsb (String.eqb data) PAYMENT_METHOD_CHOICES then Valid data
  else ValidationError
         (quotation_mark +:+ data +:+ quotation_mark +:+ " is not a valid choice.").

(** [serializer.errors]: the message of each field that failed, in the
    order of the fields. *)
Definition field_errors {A : Type} (field_name : string) (v : validation A)
    : list (string * list string) :=
  match v with
  | Valid _ => []
  | ValidationError detail => [(field_name, [detail])]
  end.

(** What a view that validates its input with a serializer answers: a
    refusal carries [serializer.errors]. *)
Inductive Validated (A : Type) : Type :=
| Refused (status_code : Z) (errors : list (string * list string))
| Accepted (status_code : Z) (data : A).
Arguments Refused {A} status_code errors.
Arguments Accepted {A} status_code data.

(** A POST to [payments/] that names an amount and a payment method:
    the authenticated user (the object loaded when the request came in),
    the number the field [amount] read from the body, the payment method
    as given, the description as its field validated it ([None] when the
    body has none), and the two values the handler draws from its
    environment (the uuid token and the clock). *)
Record PaymentRequest := {
  pr_user : User.t;
  pr_amount : Decimal;
  pr_payment_method : string;
  pr_description : option string;
  pr_token : string;
  pr_now : Z
}.

(** [PaymentViewSet.create]: [is_valid(raise_exception=True)], which
    validates every field and refuses with the errors of all that
    failed; then [serializer.save()], the move to ['processing'], and
    [mark_as_success()]. *)
Definition payment_create (request : PaymentRequest) (db : DB)
    : Validated Payment.t * DB :=
  match amount_run_validation (pr_amount request),
        payment_method_run_validation (pr_payment_method request) with
  | Valid amount, Valid payment_method =>
      let user := pr_user request in
      let payment :=
        Payment.Build None (User.id user) "" amount
                      payment_method "pending" None
                      (pr_description request) None in
      let '(payment, db) := Payment_save payment user (pr_token request) db in
      let payment := Payment.set_status "processing" payment in
      let payment :=
        Payment.set_transaction_id ("TXN-" +:+ Payment.reference payment) payment in
      let '(payment, db) := Payment_save payment user (pr_token request) db in
      let '(payment, _, db) :=
        mark_as_success payment user (pr_token request) (pr_now request) db in
      (Accepted HTTP_201_CREATED payment, db)
  | amount, payment_method =>
      (Refused HTTP_400_BAD_REQUEST
         (field_errors "amount" amount
          ++ field_errors "payment_method" payment_method),
       db)
  end.

(** [EnergyReading.objects.create(user=..., timestamp=..., ...)]: the
    instance is built without a primary key and saved. *)
Definition EnergyReading_objects_create (cfg : Settings) (user : User.t)
    (timestamp : Z) (energy_kwh power_kw : Decimal) (cost : option Decimal)
    (db : DB) : EnergyReading.t * DB :=
  EnergyReading_save cfg
    (EnergyReading.Build None (User.id user) timestamp energy_kwh power_kw cost)
    user db.

(* ===================================================================== *)
(** ** Vocabulary of the statements                                       *)
(* ===================================================================== *)

(** The alert [check_usage_alerts] builds for a reading. *)
Definition high_usage_alert (i : Z) (reading : EnergyReading.t) (u : User.t)
    : Notification.t :=
  Notification.Build
    i (User.id u) "high_usage" "High Energy Usage Alert"
    (Notification.HighUsageMessage (EnergyReading.energy_kwh reading)
                                   (User.usage_threshold u))
    [("reading_id",
      match EnergyReading.id reading with
      | Some k => Notification.JInt k
      | None => Notification.JNull
      end);
     ("energy_kwh",
      Notification.JFloat (PyFloat.of_decimal (EnergyReading.energy_kwh reading)));
     ("threshold",
      Notification.JFloat (PyFloat.of_decimal (User.usage_threshold u)))]
    false false false false.

(** The alert [check_balance_alerts] builds for a user. *)
Definition low_balance_alert_for (i : Z) (u : User.t) : Notification.t :=
  Notification.Build
    i (User.id u) "low_balance" "Low Balance Alert"
    (Notification.LowBalanceMessage (User.balance u) (User.low_balance_threshold u))
    [("balance", Notification.JFloat (PyFloat.of_decimal (User.balance u)));
     ("threshold",
      Notification.JFloat (PyFloat.of_decimal (User.low_balance_threshold u)))]
    false false false false.

(** Whether a reading makes [check_usage_alerts] fire, and whether a
    saved payment makes [check_balance_alerts] fire, stated on the
    numbers the Decimals denote. *)
Definition usage_qualifies (reading : EnergyReading.t) (u : User.t) : bool :=
  User.usage_alert u
  && Qle_bool (Decimal.val (User.usage_threshold u))
              (Decimal.val (EnergyReading.energy_kwh reading)).

Definition balance_qualifies (payment : Payment.t) (u : User.t) : bool :=
  String.eqb (Payment.status payment) "success"
  && User.low_balance_alert u
  && Qle_bool (Decimal.val (User.balance u))
              (Decimal.val (User.low_balance_threshold u)).

(** The notification [mark_as_success] builds. *)
Definition payment_success_notification (i : Z) (payment : Payment.t)
    (u : User.t) : Notification.t :=
  Notification.Build
    i (User.id u) "payment_success" "Payment Successful"
    (Notification.PaymentSuccessMessage (Payment.amount payment))
    [("payment_id",
      match Payment.id payment with
      | Some k => Notification.JInt k
      | None => Notification.JNull
      end);
     ("reference", Notification.JStr (Payment.reference payment))]
    false false false false.

(** The events the threshold evaluator reacts to: a reading that was
    just created, and a payment that was just saved. *)
Inductive Event :=
| ReadingCreated (instance : EnergyReading.t) (instance_user : User.t)
| PaymentSaved (instance : Payment.t) (instance_user : User.t) (created : bool).

Definition deliver (db : DB) (ev : Event) : DB :=
  match ev with
  | ReadingCreated r u => check_usage_alerts r u true db
  | PaymentSaved p u created => check_balance_alerts p u created db
  end.

Definition qualifying (ev : Event) : bool :=
  match ev with
  | ReadingCreated r u => usage_qualifies r u
  | PaymentSaved p u _ => balance_qualifies p u
  end.

(** An alert answers an event: same user, and the kind the event calls for. *)
Definition answers (ev : Event) (n : Notification.t) : Prop :=
  match ev with
  | ReadingCreated r u =>
      Notification.user n = User.id u
      /\ Notification.notification_type n = "high_usage"
  | PaymentSaved p u _ =>
      Notification.user n = User.id u
      /\ Notification.notification_type n = "low_balance"
  end.


(** The floats [chart_data_day] sums for hour [h]: the energies of the
    readings of that hour of the day, in queryset order. *)
Definition hour_bucket (h : Z) (rs : list EnergyReading.t) : list float :=
  map (fun r => PyFloat.of_decimal (EnergyReading.energy_kwh r))
      (List.filter (fun r => Dates.hour (EnergyReading.timestamp r) =? h) rs).

(** The sum of a list of rationals. *)
Definition Qsum (qs : list Q) : Q := fold_left Qplus qs 0%Q.


(** The values of [d] as a row keeps them. *)
Definition stored_values (d : SummaryDefaults) : SummaryDefaults :=
  {| d_end_date := d_end_date d;
     d_total_energy_kwh := format_number 3 (d_total_energy_kwh d);
     d_average_power_kw := quantize_Q 3 (d_average_power_kw d);
     d_peak_power_kw := format_number 3 (d_peak_power_kw d);
     d_total_cost := format_number 2 (d_total_cost d);
     d_reading_count := d_reading_count d |}.

(** The statistics [generate] computes from a set of readings. *)
Definition fresh_defaults (end_date : Z) (rs : list EnergyReading.t)
    : SummaryDefaults :=
  {| d_end_date := end_date;
     d_total_energy_kwh := dec_or_0 (Sum (map EnergyReading.energy_kwh rs));
     d_average_power_kw := Q_or_0 (Avg (map EnergyReading.power_kw rs));
     d_peak_power_kw := dec_or_0 (Max (map EnergyReading.power_kw rs));
     d_total_cost := dec_or_0 (Sum (omap EnergyReading.cost rs));
     d_reading_count := Count rs |}.


(** A reading of [user] falls in the closed range of dates. *)
Definition in_period (user start_date end_date : Z) (r : EnergyReading.t) : Prop :=
  EnergyReading.user r = user
  /\ start_date <= Dates.date (EnergyReading.timestamp r) <= end_date.

(** The primary keys a table hands out for [n] rows after key [s]. *)
Fixpoint fresh_ids (s : Z) (n : nat) : list Z :=
  match n with
  | O => []
  | S n' => (s + 1) :: fresh_ids (s + 1) n'
  end.

(* ===================================================================== *)
(** ** Sample data                                                        *)
(* ===================================================================== *)

(** A user with the model's default thresholds (10.00 and 5.0), both
    alerts on, and a balance of 5.00. *)
Definition sample_user : User.t :=
  User.Build 1 (Dec 500 (-2)) true true (Dec 1000 (-2)) (Dec 50 (-1)).

(** A database that holds this user and nothing else. *)
Definition sample_db : DB :=
  BuildDB {[ 1 := sample_user ]} [] 0 ∅ 0 ∅ 0 [] 0.

(** 20.00 per kWh, the rate of the specification's example. *)
Definition sample_settings : Settings := {| ENERGY_RATE_PER_KWH := Dec 2000 (-2) |}.

(** The sample user's meter on 2024-01-01: 0.004 kWh recorded at 01:00
    and again at 02:00 (times in microseconds since the epoch). *)
Definition sample_readings : list EnergyReading.t :=
  [EnergyReading.Build (Some 1) 1 1704070800000000 (Dec 4 (-3)) (Dec 4 (-3))
                       (Some (Dec 8 (-2)));
   EnergyReading.Build (Some 2) 1 1704074400000000 (Dec 4 (-3)) (Dec 4 (-3))
                       (Some (Dec 8 (-2)))].

Definition sample_metered_db : DB :=
  BuildDB {[ 1 := sample_user ]} sample_readings 2 ∅ 0 ∅ 0 [] 0.

(** 2024-01-01 03:00 *)
Definition sample_now : Z := 1704078000000000.

(** A request of the sample user to summarise a range of dates. *)
Definition sample_generate (start_date end_date : string) : GenerateRequest :=
  {| g_user := sample_user; g_period_type := Some "daily";
     g_start_date := Some start_date; g_end_date := Some end_date |}.

(** A chart request of the sample user, without date filters. *)
Definition sample_chart_request : ReadingsRequest :=
  {| rq_user := sample_user; rq_start_date := None; rq_end_date := None |}.

(** Events that qualify for the sample user: a new reading of exactly
    5.0 kWh (the usage threshold), and the save of a successful payment
    while the balance, 5.00, is under the threshold of 10.00. *)
Definition sample_reading_event : Event :=
  ReadingCreated
    (EnergyReading.Build (Some 3) 1 1704078000000000 (Dec 5000 (-3))
                         (Dec 1200 (-3)) (Some (Dec 10000000 (-5))))
    sample_user.

Definition sample_payment_event : Event :=
  PaymentSaved
    (Payment.Build (Some 1) 1 "PAY-0123456789" (Dec 100 (-2)) "mobile" "success"
                   (Some "TXN-PAY-0123456789") None (Some 1704078000000000))
    sample_user false.

Definition sample_events : list Event :=
  [sample_reading_event; sample_reading_event;
   sample_payment_event; sample_payment_event; sample_reading_event].

(** A top-up of [amount] by the sample user. *)
Definition sample_payment (amount : Decimal) : PaymentRequest :=
  {| pr_user := sample_user; pr_amount := amount;
     pr_payment_method := "mobile"; pr_description := None;
     pr_token := "0123456789"; pr_now := 1704074400000000 |}.

(* ===================================================================== *)
(** ** payments: the other operations on a payment                        *)
(* ===================================================================== *)

(** [status in [...]] *)
Definition status_in (status : string) (choices : list string) : bool :=
  existsb (String.eqb status) choices.

(** [PaymentViewSet.cancel], from [payment = self.get_object()] on;
    [payment_user] is [payment.user]. *)
Definition payment_cancel (payment : Payment.t) (payment_user : User.t)
    (token : string) (db : DB) : Response Payment.t * DB :=
  if negb (status_in (Payment.status payment) ["pending"; "processing"]) then
    (Err HTTP_400_BAD_REQUEST
         "Only pending or processing payments can be cancelled", db)
  else
    let payment := Payment.set_status "cancelled" payment in
    let '(payment, db) := Payment_save payment payment_user token db in
    (Ok HTTP_200_OK payment, db).

(** [queryset[start:stop]]: a negative bound raises [ValueError]
    ([None]); otherwise the rows from [start] up to [stop], none when
    [stop <= start]. *)
Definition queryset_slice {A : Type} (queryset : list A) (start stop : Z)
    : option (list A) :=
  if (start <? 0) || (stop <? 0) then None
  else Some (take (Z.to_nat (stop - start)) (drop (Z.to_nat start) queryset)).

Record HistoryPage := {
  h_count : Z;
  h_next : option Z;
  h_previous : option Z;
  h_results : list Payment.t
}.

(** [PaymentViewSet.history], from [queryset = self.get_queryset()] and
    the two query parameters once [int()] has read them. *)
Definition payment_history (queryset : list Payment.t) (page_size page : Z)
    : option HistoryPage :=
  let start := (page - 1) * page_size in
  let end_ := start + page_size in
  match queryset_slice queryset start end_ with
  | None => None
  | Some payments =>
      let total_count := Z.of_nat (length queryset) in
      Some {| h_count := total_count;
              h_next := if end_ <? total_count then Some (page + 1) else None;
              h_previous := if 1 <? page then Some (page - 1) else None;
              h_results := payments |}
  end.

(** Whether a payment is pending or processing. *)
Definition is_open (p : Payment.t) : bool :=
  status_in (Payment.status p) ["pending"; "processing"].

(** [select_related()] on payments: each row comes with its user, the
    object the join read when the queryset was evaluated; a row without
    a user is not in the join. *)
Definition select_related (queryset : list Payment.t) (db : DB)
    : list (Payment.t * User.t) :=
  omap (fun p => (fun u => (p, u)) <$> users db !! Payment.user p) queryset.

(** The admin action [PaymentAdmin.mark_as_success] over the selected
    rows.  The queryset an action receives is that of the change list,
    and [list_display] names the foreign key [user], so it is a
    [select_related()] queryset: its rows that are pending or processing
    are fetched when the loop starts, each with its user, and are then
    marked one after the other.  [now_at k] is the clock at the [k]-th
    call.  Returns the count of the message and the database. *)
Definition admin_mark_as_success_step (token : string) (now_at : nat -> Z)
    (acc : nat * DB) (row : Payment.t * User.t) : nat * DB :=
  let '(count, db) := acc in
  let '(payment, payment_user) := row in
  let '(_, _, db) :=
    mark_as_success payment payment_user token (now_at count) db in
  (S count, db).

Definition admin_mark_as_success (queryset : list Payment.t) (token : string)
    (now_at : nat -> Z) (db : DB) : nat * DB :=
  fold_left (admin_mark_as_success_step token now_at)
    (select_related (List.filter is_open queryset) db)
    (O, db).

(** Every row of the users table is stored under its own primary key. *)
Definition users_keyed (db : DB) : Prop :=
  forall (k : Z) (u : User.t), users db !! k = Some u -> User.id u = k.

(** The last of the payments of a selection that are pending or
    processing and belong to the user [uid]. *)
Definition last_open_payment (uid : Z) (queryset : list Payment.t)
    : option Payment.t :=
  last (List.filter (fun p => is_open p && (Payment.user p =? uid)) queryset).

(** The balance a user's row has after [credits] were written to it one
    after the other, each as the balance held before any of them plus
    its own amount. *)
Definition credited_with (credits : option Payment.t) (u : User.t) : User.t :=
  match credits with
  | Some p => User.set_balance (Decimal.add (User.balance u) (Payment.amount p)) u
  | None => u
  end.

(** One credit as the action writes it: on the row of the user object
    fetched with the payment, the balance of that object plus the
    amount. *)
Definition write_credit (m : gmap Z User.t) (row : Payment.t * User.t)
    : gmap Z User.t :=
  alter (User.set_balance
           (Decimal.add (User.balance (snd row)) (Payment.amount (fst row))))
        (User.id (snd row)) m.

(** Two payments of the sample user waiting to be confirmed, and one
    that already succeeded. *)
Definition sample_open_payments : list Payment.t :=
  [Payment.Build (Some 1) 1 "PAY-AAAAAAAAAA" (Dec 2500 (-2)) "mobile" "pending"
                 None None None;
   Payment.Build (Some 2) 1 "PAY-BBBBBBBBBB" (Dec 1050 (-2)) "card" "success"
                 (Some "TXN-PAY-BBBBBBBBBB") None (Some 1704070800000000);
   Payment.Build (Some 3) 1 "PAY-CCCCCCCCCC" (Dec 100 (-2)) "mobile" "processing"
                 (Some "TXN-PAY-CCCCCCCCCC") None None].

(* ===================================================================== *)
(** ** notifications: reading and clearing                                *)
(* ===================================================================== *)

(** A row of the notifications table with the two time columns that
    [Notification.t] leaves out. *)
Module NotificationRow.
Record t := Build {
  fields : Notification.t;
  created_at : Z;
  read_at : option Z
}.

Definition pk (r : t) : Z := Notification.id (fields r).
Definition is_read (r : t) : bool := Notification.is_read (fields r).
End NotificationRow.

(** [n.is_read = b] *)
Definition Notification_set_is_read (b : bool) (n : Notification.t)
    : Notification.t :=
  Notification.Build
    (Notification.id n) (Notification.user n) (Notification.notification_type n)
    (Notification.title n) (Notification.msg n) (Notification.data n)
    b (Notification.email_sent n) (Notification.sms_sent n)
    (Notification.push_sent n).

(** The two assignments of [mark_as_read]:
    [self.is_read = True; self.read_at = timezone.now()]. *)
Definition mark_row (now : Z) (r : NotificationRow.t) : NotificationRow.t :=
  NotificationRow.Build
    (Notification_set_is_read true (NotificationRow.fields r))
    (NotificationRow.created_at r) (Some now).

(** [Notification.mark_as_read]: an unread notification is marked, and
    [save(update_fields=['is_read', 'read_at'])] writes the two columns
    to the row with its primary key; a read one is left alone. *)
Definition mark_as_read (self : NotificationRow.t) (now : Z)
    (table : list NotificationRow.t)
    : NotificationRow.t * list NotificationRow.t :=
  if negb (NotificationRow.is_read self) then
    (mark_row now self,
     map (fun r => if decide (NotificationRow.pk r = NotificationRow.pk self)
                   then mark_row now r else r)
         table)
  else (self, table).

(** [Meta.ordering = ['-created_at']]: newest first; rows created at the
    same time keep the order of the table. *)
Fixpoint insert_by_created_at (r : NotificationRow.t)
    (rs : list NotificationRow.t) : list NotificationRow.t :=
  match rs with
  | [] => [r]
  | x :: rs' =>
      if NotificationRow.created_at x <=? NotificationRow.created_at r
      then r :: x :: rs'
      else x :: insert_by_created_at r rs'
  end.

Definition order_by_created_at_desc (rs : list NotificationRow.t)
    : list NotificationRow.t :=
  fold_right insert_by_created_at [] rs.

(** [s.lower()] on the ASCII letters. *)
Definition lower_ascii (c : ascii) : ascii :=
  let n := nat_of_ascii c in
  if (65 <=? n)%nat && (n <=? 90)%nat then ascii_of_nat (n + 32) else c.

Fixpoint lower (s : string) : string :=
  match s with
  | EmptyString => EmptyString
  | String c s' => String (lower_ascii c) (lower s')
  end.

(** The query parameters [is_read] and [type] of a request to the
    notifications viewset, [None] when absent. *)
Record NotificationsRequest := {
  nq_user : Z;
  nq_is_read : option string;
  nq_type : option string
}.

(** The rows [NotificationViewSet.get_queryset] keeps. *)
Definition in_queryset (request : NotificationsRequest)
    (r : NotificationRow.t) : bool :=
  (Notification.user (NotificationRow.fields r) =? nq_user request)
  && match nq_is_read request with
     | Some is_read =>
         Bool.eqb (NotificationRow.is_read r)
                  (existsb (String.eqb (lower is_read)) ["true"; "1"; "yes"])
     | None => true
     end
  && match nq_type request with
     | Some notification_type =>
         if String.eqb notification_type "" then true
         else String.eqb
                (Notification.notification_type (NotificationRow.fields r))
                notification_type
     | None => true
     end.

(** [NotificationViewSet.get_queryset] *)
Definition notifications_get_queryset (request : NotificationsRequest)
    (table : list NotificationRow.t) : list NotificationRow.t :=
  List.filter (in_queryset request) (order_by_created_at_desc table).

(** [NotificationViewSet.unread] and [unread_count] *)
Definition notifications_unread (request : NotificationsRequest)
    (table : list NotificationRow.t) : list NotificationRow.t :=
  List.filter (fun r => negb (NotificationRow.is_read r))
              (notifications_get_queryset request table).


(** [NotificationViewSet.mark_all_read]: the unread rows of the queryset
    are marked one after the other; [now_at k] is the clock at the
    [k]-th call.  Returns ['count'] and the table. *)
Definition mark_all_read (request : NotificationsRequest) (now_at : nat -> Z)
    (table : list NotificationRow.t) : nat * list NotificationRow.t :=
  fold_left
    (fun '(count, table) notification =>
       (S count, snd (mark_as_read notification (now_at count) table)))
    (notifications_unread request table)
    (O, table).

(** [NotificationViewSet.clear_all]: the read rows of the queryset are
    deleted.  Returns ['count'] and the table. *)
Definition clear_all (request : NotificationsRequest)
    (table : list NotificationRow.t) : nat * list NotificationRow.t :=
  let doomed r := in_queryset request r && NotificationRow.is_read r in
  (length (List.filter doomed table),
   List.filter (fun r => negb (doomed r)) table).

(** A request of user [user] without filters. *)
Definition all_of (user : Z) : NotificationsRequest :=
  {| nq_user := user; nq_is_read := None; nq_type := None |}.

(** A small notifications table: two alerts of user 1, the older one
    read, and one alert of user 2. *)
Definition sample_inbox : list NotificationRow.t :=
  [NotificationRow.Build
     (Notification.Build 1 1 "low_balance" "Low Balance Alert"
        (Notification.LowBalanceMessage (Dec 500 (-2)) (Dec 1000 (-2))) []
        true false false false)
     1704067200000000 (Some 1704070800000000);
   NotificationRow.Build
     (Notification.Build 2 1 "high_usage" "High Energy Usage Alert"
        (Notification.HighUsageMessage (Dec 5000 (-3)) (Dec 50 (-1))) []
        false false false false)
     1704074400000000 None;
   NotificationRow.Build
     (Notification.Build 3 2 "high_usage" "High Energy Usage Alert"
        (Notification.HighUsageMessage (Dec 7000 (-3)) (Dec 50 (-1))) []
        false false false false)
     1704074400000000 None].

(** How a row of the table stands after the notifications [done] have
    been handled: marked if its key is one of theirs, untouched if not. *)
Definition marked_by (now_at : nat -> Z) (done : list NotificationRow.t)
    (r r' : NotificationRow.t) : Prop :=
  (In (NotificationRow.pk r) (map NotificationRow.pk done)
   /\ exists k : nat, r' = mark_row (now_at k) r)
  \/ (~ In (NotificationRow.pk r) (map NotificationRow.pk done) /\ r' = r).

(** The rows a request selects that are unread, and those that are read. *)
Definition selected_unread (request : NotificationsRequest)
    (r : NotificationRow.t) : bool :=
  in_queryset request r && negb (NotificationRow.is_read r).


(* ===================================================================== *)
(** ** payments: saved payment methods                                    *)
(* ===================================================================== *)

(** [payments.models.PaymentMethod], without the card, bank and mobile
    details that only [__str__] reads. *)
Module PaymentMethod.
Record t := Build {
  id : option Z;
  user : Z;
  method_type : string;
  is_default : bool;
  is_active : bool
}.

Definition set_id (i : Z) (m : t) : t :=
  Build (Some i) (user m) (method_type m) (is_default m) (is_active m).
Definition set_is_default (b : bool) (m : t) : t :=
  Build (id m) (user m) (method_type m) b (is_active m).
Definition set_is_active (b : bool) (m : t) : t :=
  Build (id m) (user m) (method_type m) (is_default m) b.
End PaymentMethod.

(** The table of payment methods and the last primary key it gave out. *)
Record MethodTable := {
  methods : list PaymentMethod.t;
  method_seq : Z
}.

(** [.exclude(id=self.id)]: a row is kept unless it has the primary key
    of [self]; an unsaved [self] excludes nothing. *)
Definition not_self (self r : PaymentMethod.t) : bool :=
  match PaymentMethod.id self with
  | Some i => negb (bool_decide (PaymentMethod.id r = Some i))
  | None => true
  end.

Definition has_method (i : Z) (rows : list PaymentMethod.t) : bool :=
  existsb (fun r => bool_decide (PaymentMethod.id r = Some i)) rows.

(** The first statement of [PaymentMethod.save]: when [self] is a
    default, the other defaults of its user are switched off with one
    [update]. *)
Definition clear_other_defaults (self : PaymentMethod.t)
    (rows : list PaymentMethod.t) : list PaymentMethod.t :=
  if PaymentMethod.is_default self then
    map (fun r =>
           if (PaymentMethod.user r =? PaymentMethod.user self)
              && PaymentMethod.is_default r && not_self self r
           then PaymentMethod.set_is_default false r
           else r)
        rows
  else rows.

(** [PaymentMethod.save]: the other defaults are switched off, then the
    row is inserted or written back. *)
Definition PaymentMethod_save (self : PaymentMethod.t) (table : MethodTable)
    : PaymentMethod.t * MethodTable :=
  let rows := clear_other_defaults self (methods table) in
  match PaymentMethod.id self with
  | None =>
      let i := method_seq table + 1 in
      let self := PaymentMethod.set_id i self in
      (self, {| methods := rows ++ [self]; method_seq := i |})
  | Some i =>
      if has_method i rows then
        (self,
         {| methods :=
              map (fun r => if decide (PaymentMethod.id r = Some i) then self else r)
                  rows;
            method_seq := method_seq table |})
      else
        (self, {| methods := rows ++ [self]; method_seq := method_seq table |})
  end.

(** [PaymentMethodViewSet.set_default], from
    [payment_method = self.get_object()] on. *)
Definition payment_method_set_default (payment_method : PaymentMethod.t)
    (table : MethodTable) : Response PaymentMethod.t * MethodTable :=
  let payment_method := PaymentMethod.set_is_default true payment_method in
  let '(payment_method, table) := PaymentMethod_save payment_method table in
  (Ok HTTP_200_OK payment_method, table).

(** [PaymentMethodViewSet.deactivate], from
    [payment_method = self.get_object()] on; the answer of a success is
    the message 'Payment method deactivated successfully'. *)
Definition payment_method_deactivate (payment_method : PaymentMethod.t)
    (table : MethodTable) : Response string * MethodTable :=
  if PaymentMethod.is_default payment_method then
    (Err HTTP_400_BAD_REQUEST
         "Cannot deactivate default payment method. Set another as default first.",
     table)
  else
    let payment_method := PaymentMethod.set_is_active false payment_method in
    let '(_, table) := PaymentMethod_save payment_method table in
    (Ok HTTP_200_OK "Payment method deactivated successfully", table).

(** The default methods of a user. *)
Definition defaults_of (user : Z) (rows : list PaymentMethod.t)
    : list PaymentMethod.t :=
  List.filter (fun r => (PaymentMethod.user r =? user) && PaymentMethod.is_default r)
              rows.

(** A table as the database keeps it: every row has a primary key, no
    two rows share one, none is beyond the last key given out; and no
    user has two default methods. *)
Definition methods_keyed (table : MethodTable) : Prop :=
  List.NoDup (map PaymentMethod.id (methods table))
  /\ List.Forall
       (fun key => exists i, key = Some i /\ i <= method_seq table)
       (map PaymentMethod.id (methods table)).

Definition one_default_each (table : MethodTable) : Prop :=
  forall user : Z, (length (defaults_of user (methods table)) <= 1)%nat.

(** An instance that can be saved: a new one, or one of a stored row. *)
Definition saveable (self : PaymentMethod.t) (table : MethodTable) : Prop :=
  match PaymentMethod.id self with
  | Some i => has_method i (methods table) = true
  | None => True
  end.

(** The sample user's methods: mobile money as the default, and a card. *)
Definition sample_methods : MethodTable :=
  {| methods := [PaymentMethod.Build (Some 1) 1 "mobile" true true;
                 PaymentMethod.Build (Some 2) 1 "card" false true;
                 PaymentMethod.Build (Some 3) 2 "bank" true true];
     method_seq := 3 |}.

(* ===================================================================== *)
(** ** energy_usage: the latest reading, the week and month charts        *)
(* ===================================================================== *)


(** What [datetime.date] does with an ordinal to print it. *)
Module Calendar.

Definition DI400Y : Z := 146097.
Definition DI100Y : Z := 36524.
Definition DI4Y : Z := 1461.

Definition DAYS_IN_MONTH : list Z :=
  [-1; 31; 28; 31; 30; 31; 30; 31; 31; 30; 31; 30; 31].

Definition DAYS_BEFORE_MONTH : list Z :=
  [-1; 0; 31; 59; 90; 120; 151; 181; 212; 243; 273; 304; 334].

(** [_ord2ymd]: year, month and day of an ordinal. *)
Definition ord2ymd (n : Z) : Z * Z * Z :=
  let n := n - 1 in
  let n400 := n / DI400Y in
  let n := n mod DI400Y in
  let year := n400 * 400 + 1 in
  let n100 := n / DI100Y in
  let n := n mod DI100Y in
  let n4 := n / DI4Y in
  let n := n mod DI4Y in
  let n1 := n / 365 in
  let n := n mod 365 in
  let year := year + n100 * 100 + n4 * 4 + n1 in
  if (n1 =? 4) || (n100 =? 4) then (year - 1, 12, 31)
  else
    let leapyear := (n1 =? 3) && (negb (n4 =? 24) || (n100 =? 3)) in
    let month := Z.shiftr (n + 50) 5 in
    let preceding :=
      nth (Z.to_nat month) DAYS_BEFORE_MONTH 0
      + (if (2 <? month) && leapyear then 1 else 0) in
    let '(month, preceding) :=
      if n <? preceding then
        let month := month - 1 in
        (month,
         preceding - (nth (Z.to_nat month) DAYS_IN_MONTH 0
                      + (if (month =? 2) && leapyear then 1 else 0)))
      else (month, preceding) in
    (year, month, n - preceding + 1).

(** [date.weekday()]: Monday is 0. *)
Definition weekday (ordinal : Z) : Z := (ordinal + 6) mod 7.

(** [date.strftime('%a')], with the day names of the C locale. *)
Definition strftime_a (ordinal : Z) : string :=
  nth (Z.to_nat (weekday ordinal))
      ["Mon"; "Tue"; "Wed"; "Thu"; "Fri"; "Sat"; "Sun"] "".

(** A number from 0 to 99 on two digits. *)
Definition two_digits (n : Z) : string :=
  let d (k : Z) := String (ascii_of_nat (48 + Z.to_nat k)) EmptyString in
  String.append (d (n / 10)) (d (n mod 10)).

(** [date.strftime('%m/%d')] *)
Definition strftime_md (ordinal : Z) : string :=
  let '(_, month, day) := ord2ymd ordinal in
  two_digits month +:+ "/" +:+ two_digits day.

End Calendar.

(** The grouping loop of the [period == 'week'] and [period == 'month']
    branches: one step per reading, on the dictionary [daily_data]. *)
Definition group_by_day_step (daily_data : gmap Z (list float))
    (reading : EnergyReading.t) : gmap Z (list float) :=
  let day := Dates.date (EnergyReading.timestamp reading) in
  let daily_data :=
    match daily_data !! day with
    | None => <[day := []]> daily_data
    | Some _ => daily_data
    end in
  alter (fun l => l ++ [PyFloat.of_decimal (EnergyReading.energy_kwh reading)])
        day daily_data.

(** [EnergyReadingViewSet.chart_data] for [period == 'week']. *)
Definition chart_data_week (request : ReadingsRequest) (now : Z) (db : DB)
    : ChartData :=
  let start_date := Dates.date now - 7 in
  let readings :=
    List.filter (fun r => start_date <=? Dates.date (EnergyReading.timestamp r))
                (readings_get_queryset request db) in
  let daily_data := fold_left group_by_day_step readings ∅ in
  let dates := map (fun i => Dates.date now - (6 - Z.of_nat i)) (seq 0 7) in
  {| labels := map Calendar.strftime_a dates;
     data := map PyFloat.round2 (map (bucket_sum daily_data) dates) |}.

(** [EnergyReadingViewSet.chart_data] for [period == 'month']. *)
Definition chart_data_month (request : ReadingsRequest) (now : Z) (db : DB)
    : ChartData :=
  let start_date := Dates.date now - 30 in
  let readings :=
    List.filter (fun r => start_date <=? Dates.date (EnergyReading.timestamp r))
                (readings_get_queryset request db) in
  let daily_data := fold_left group_by_day_step readings ∅ in
  let dates := map (fun i => Dates.date now - (29 - Z.of_nat i)) (seq 0 30) in
  {| labels := map Calendar.strftime_md dates;
     data := map PyFloat.round2 (map (bucket_sum daily_data) dates) |}.

(** [EnergyReadingViewSet.chart_data]; [period] is the query parameter,
    [None] when the request has none. *)
Definition chart_data (period : option string) (request : ReadingsRequest)
    (now : Z) (db : DB) : Response ChartData :=
  let period := default "day" period in
  if String.eqb period "day" then Ok HTTP_200_OK (chart_data_day request now db)
  else if String.eqb period "week" then
    Ok HTTP_200_OK (chart_data_week request now db)
  else if String.eqb period "month" then
    Ok HTTP_200_OK (chart_data_month request now db)
  else Err HTTP_400_BAD_REQUEST "Invalid period".




(** Whether the date printed for the ordinal [n] is the date that has
    this ordinal, and whether this holds of [count] days from [first]. *)
Definition day_round_trips (n : Z) : bool :=
  let '(y, m, d) := Calendar.ord2ymd n in
  match Dates.ymd2ord y m d with
  | Some n' => n' =? n
  | None => false
  end.

Fixpoint days_round_trip (count : nat) (first : Z) : bool :=
  match count with
  | O => true
  | S count' => day_round_trips first && days_round_trip count' (first + 1)
  end.

(* ===================================================================== *)
(** * Properties                                                          *)
(* ===================================================================== *)

(** ** The embedding of Python's numbers and dates, on known values *)

Example float_of_decimal_tenth : PyFloat.of_decimal (Dec 1 (-1)) = 0x1.999999999999ap-4%float.
Proof. reflexivity. Qed.

Example float_of_decimal_is_division :
  PyFloat.of_decimal (Dec 4 (-3)) = PrimFloat.div 4%float 1000%float.
Proof. reflexivity. Qed.

Example float_of_decimal_negative : PyFloat.of_decimal (Dec (-5520) 0) = (-5520)%float.
Proof. reflexivity. Qed.

(** [round(2.675, 2) == 2.67] and [round(1.005, 2) == 1.0]: the binary
    values lie just under the ties. *)
Example round2_2675 :
  PyFloat.round2 (PyFloat.of_decimal (Dec 2675 (-3))) = PyFloat.of_decimal (Dec 267 (-2)).
Proof. reflexivity. Qed.

Example round2_1005 :
  PyFloat.round2 (PyFloat.of_decimal (Dec 1005 (-3))) = 1%float.
Proof. reflexivity. Qed.

(** [round(0.125, 2) == 0.12]: an exact tie goes to the even digit. *)
Example round2_tie :
  PyFloat.round2 (PyFloat.of_decimal (Dec 125 (-3))) = PyFloat.of_decimal (Dec 12 (-2)).
Proof. reflexivity. Qed.

Example strptime_epoch : Dates.strptime "1970-01-01" = Some Dates.epoch_ordinal.
Proof. reflexivity. Qed.

Example strptime_leap_day :
  Dates.strptime "2024-02-29" = Some 738945 /\ Dates.strptime "2023-02-29" = None.
Proof. split; reflexivity. Qed.

Example strptime_short_fields :
  Dates.strptime "2024-1-5" = Dates.strptime "2024-01-05"
  /\ Dates.strptime "2024-01- 5" = Dates.strptime "2024-01-05".
Proof. split; reflexivity. Qed.

Example strptime_rejects :
  Dates.strptime "2024-01-32" = None /\ Dates.strptime "0000-01-05" = None
  /\ Dates.strptime "2024-013-1" = None /\ Dates.strptime "01/05/2024" = None
  /\ Dates.strptime "" = None.
Proof. repeat split; reflexivity. Qed.

Example date_of_sample_now :
  Dates.date sample_now = 738886 /\ Dates.hour sample_now = 3
  /\ Dates.strptime "2024-01-01" = Some 738886.
Proof. repeat split; reflexivity. Qed.

Example hour_labels : map hour_label [0; 9; 10; 23]%nat = ["00:00"; "09:00"; "10:00"; "23:00"].
Proof. reflexivity. Qed.

(** ** Decimal arithmetic denotes rational arithmetic *)

Section DecimalFacts.
Import Decimal.
Local Open Scope Q_scope.

Lemma ten_neq_0 : ~ inject_Z 10 == 0.
Proof. discriminate. Qed.

Lemma ten_pow_pos (e : Z) : 0 < inject_Z 10 ^ e.
Proof. apply Qpower_0_lt. reflexivity. Qed.

Lemma val_unfold (d : Decimal) :
  val d == inject_Z (coef d) * inject_Z 10 ^ expo d.
Proof. reflexivity. Qed.

Lemma align_val (e : Z) (d : Decimal) :
  (e <= expo d)%Z -> inject_Z (align e d) * inject_Z 10 ^ e == val d.
Proof.
  intros He. unfold align. rewrite inject_Z_mult.
  rewrite Zpower_Qpower by lia.
  rewrite <- Qmult_assoc, <- Qpower_plus by apply ten_neq_0.
  replace (expo d - e + e)%Z with (expo d) by lia. reflexivity.
Qed.

Lemma val_add (a b : Decimal) : val (add a b) == val a + val b.
Proof.
  rewrite <- (align_val (Z.min (expo a) (expo b)) a) by lia.
  rewrite <- (align_val (Z.min (expo a) (expo b)) b) by lia.
  unfold add. rewrite val_unfold. cbn [coef expo].
  rewrite inject_Z_plus. ring.
Qed.


Lemma val_of_Z (z : Z) : val (of_Z z) == inject_Z z.
Proof. unfold of_Z. rewrite val_unfold. cbn. ring. Qed.

Lemma compare_val (a b : Decimal) : compare a b = (val a ?= val b).
Proof.
  set (e := Z.min (expo a) (expo b)).
  rewrite <- (Qcompare_comp _ _ (align_val e a ltac:(lia)) _ _ (align_val e b ltac:(lia))).
  unfold compare. fold e.
  destruct (Z.compare_spec (align e a) (align e b)) as [H|H|H]; symmetry.
  - apply Qeq_alt. rewrite H. reflexivity.
  - apply Qlt_alt. apply Qmult_lt_r; [apply ten_pow_pos|]. now rewrite <- Zlt_Qlt.
  - apply Qgt_alt. apply Qmult_lt_r; [apply ten_pow_pos|]. now rewrite <- Zlt_Qlt.
Qed.

Lemma leb_val (a b : Decimal) : leb a b = true <-> val a <= val b.
Proof.
  unfold leb. rewrite compare_val, Qle_alt.
  destruct (val a ?= val b); intuition congruence.
Qed.

Lemma geb_val (a b : Decimal) : geb a b = true <-> val b <= val a.
Proof. apply leb_val. Qed.

Lemma gtb_val (a b : Decimal) : gtb a b = true <-> val b < val a.
Proof.
  unfold gtb, leb. rewrite compare_val, Qgt_alt.
  destruct (val a ?= val b); cbn; intuition congruence.
Qed.

Lemma leb_false_val (a b : Decimal) : leb a b = false <-> val b < val a.
Proof.
  rewrite <- gtb_val. unfold gtb. destruct (leb a b); cbn; intuition congruence.
Qed.

End DecimalFacts.

Lemma leb_Qle_bool (a b : Decimal) :
  Decimal.leb a b = Qle_bool (Decimal.val a) (Decimal.val b).
Proof.
  apply eq_true_iff_eq. rewrite leb_val, Qle_bool_iff. reflexivity.
Qed.

Lemma geb_Qle_bool (a b : Decimal) :
  Decimal.geb a b = Qle_bool (Decimal.val b) (Decimal.val a).
Proof. apply leb_Qle_bool. Qed.

(** ** The receivers only ever append to the notifications table *)

Lemma Notification_create_spec user ty title msg data db :
  Notification_create user ty title msg data db =
  set_notifications
    (notifications db ++
       [Notification.Build (notification_seq db + 1) user ty title msg data
                           false false false false])
    (notification_seq db + 1) db.
Proof. reflexivity. Qed.

Lemma check_usage_alerts_spec reading u created db :
  check_usage_alerts reading u created db =
  if created && usage_qualifies reading u
  then set_notifications
         (notifications db ++ [high_usage_alert (notification_seq db + 1) reading u])
         (notification_seq db + 1) db
  else db.
Proof.
  unfold check_usage_alerts, usage_qualifies.
  rewrite geb_Qle_bool.
  destruct created, (User.usage_alert u), (Qle_bool _ _); reflexivity.
Qed.

Lemma check_balance_alerts_spec payment u created db :
  check_balance_alerts payment u created db =
  if balance_qualifies payment u
  then set_notifications
         (notifications db ++ [low_balance_alert_for (notification_seq db + 1) u])
         (notification_seq db + 1) db
  else db.
Proof.
  unfold check_balance_alerts, balance_qualifies.
  rewrite leb_Qle_bool.
  destruct (String.eqb _ _), (User.low_balance_alert u), (Qle_bool _ _); reflexivity.
Qed.

(** ** Saving a reading *)

Lemma id_priced cfg self : EnergyReading.id (priced cfg self) = EnergyReading.id self.
Proof. unfold priced. now destruct (not_cost _). Qed.

Lemma energy_kwh_priced cfg self :
  EnergyReading.energy_kwh (priced cfg self) = EnergyReading.energy_kwh self.
Proof. unfold priced. now destruct (not_cost _). Qed.

Lemma energy_kwh_set_id i self :
  EnergyReading.energy_kwh (EnergyReading.set_id i self) = EnergyReading.energy_kwh self.
Proof. reflexivity. Qed.

Lemma EnergyReading_save_new cfg self u db :
  EnergyReading.id self = None ->
  EnergyReading_save cfg self u db =
  let self2 := EnergyReading.set_id (reading_seq db + 1) (priced cfg self) in
  (self2,
   check_usage_alerts self2 u true
     (set_readings (readings db ++ [EnergyReading_row self2])
                   (reading_seq db + 1) db)).
Proof.
  intros Hid. unfold EnergyReading_save. cbv zeta.
  now rewrite id_priced, Hid.
Qed.




(** ** C6: the high-usage alert *)

(** C6.  Creating a reading appends one [high_usage] alert, carrying the
    new reading's id, its energy and the threshold, exactly when the
    user's usage-alert flag is on and the energy is at least the usage
    threshold (equality included); otherwise the notifications table is
    left as it was, in particular whenever the flag is off. *)
Theorem high_usage_alert_on_new_reading
    (cfg : Settings) (u : User.t) (ts : Z) (e p : Decimal)
    (c : option Decimal) (db : DB) :
  let '(reading, db') := EnergyReading_objects_create cfg u ts e p c db in
  EnergyReading.id reading = Some (reading_seq db + 1)
  /\ notifications db' =
     notifications db ++
       (if User.usage_alert u
           && Qle_bool (Decimal.val (User.usage_threshold u)) (Decimal.val e)
        then [Notification.Build
                (notification_seq db + 1) (User.id u)
                "high_usage" "High Energy Usage Alert"
                (Notification.HighUsageMessage e (User.usage_threshold u))
                [("reading_id", Notification.JInt (reading_seq db + 1));
                 ("energy_kwh", Notification.JFloat (PyFloat.of_decimal e));
                 ("threshold",
                  Notification.JFloat (PyFloat.of_decimal (User.usage_threshold u)))]
                false false false false]
        else [])
  /\ (if User.usage_alert u then True else notifications db' = notifications db).
Proof.
  unfold EnergyReading_objects_create.
  rewrite EnergyReading_save_new by reflexivity.
  cbv zeta. rewrite check_usage_alerts_spec.
  unfold usage_qualifies, high_usage_alert.
  rewrite !energy_kwh_set_id, !energy_kwh_priced.
  cbn [andb EnergyReading.energy_kwh EnergyReading.set_id EnergyReading.id].
  destruct (User.usage_alert u); cbn [andb].
  - destruct (Qle_bool _ _); cbn; rewrite ?app_nil_r; auto.
  - cbn. rewrite app_nil_r. auto.
Qed.

(** The specification's boundary case: threshold 5.0, energy 5.0. *)
Example high_usage_at_threshold :
  let '(_, db') :=
    EnergyReading_objects_create sample_settings sample_user sample_now
      (Dec 5000 (-3)) (Dec 1200 (-3)) None sample_metered_db in
  notifications db' =
    [Notification.Build
       1 1 "high_usage" "High Energy Usage Alert"
       (Notification.HighUsageMessage (Dec 5000 (-3)) (Dec 50 (-1)))
       [("reading_id", Notification.JInt 3);
        ("energy_kwh", Notification.JFloat 5%float);
        ("threshold", Notification.JFloat 5%float)]
       false false false false].
Proof. reflexivity. Qed.

(** ** C7: the evaluator keeps no memory *)

Lemma fresh_ids_gt (s : Z) (n : nat) (x : Z) : In x (fresh_ids s n) -> s < x.
Proof.
  revert s. induction n as [|n IH]; intros s; cbn; [tauto|].
  intros [<-|Hx]; [lia|]. apply IH in Hx. lia.
Qed.

Lemma fresh_ids_NoDup (s : Z) (n : nat) : List.NoDup (fresh_ids s n).
Proof.
  revert s. induction n as [|n IH]; intros s; cbn; constructor; [|apply IH].
  intros Hx. apply fresh_ids_gt in Hx. lia.
Qed.

Lemma deliver_qualifying (db : DB) (ev : Event) :
  qualifying ev = true ->
  exists n,
    deliver db ev =
      set_notifications (notifications db ++ [n]) (notification_seq db + 1) db
    /\ Notification.id n = notification_seq db + 1
    /\ answers ev n.
Proof.
  destruct ev as [r u|p u created]; cbn [qualifying deliver]; intros Hq.
  - rewrite check_usage_alerts_spec, Hq. cbn [andb].
    eexists; repeat split; reflexivity.
  - rewrite check_balance_alerts_spec, Hq.
    eexists; repeat split; reflexivity.
Qed.

(** C7.  Whatever the notifications table already holds, a run of
    qualifying events adds exactly one alert per event, in order, each
    for the event's user and kind and each with a primary key of its
    own; the alerts that were there are kept. *)
Theorem evaluator_is_memoryless (db : DB) (evs : list Event) :
  List.Forall (fun ev => qualifying ev = true) evs ->
  exists new : list Notification.t,
    notifications (fold_left deliver evs db) = notifications db ++ new
    /\ length new = length evs
    /\ List.Forall2 answers evs new
    /\ map Notification.id new = fresh_ids (notification_seq db) (length evs)
    /\ List.NoDup (map Notification.id new).
Proof.
  intros Hq. revert db.
  induction Hq as [|ev evs Hev _ IH]; intros db.
  - exists []. cbn. rewrite app_nil_r. repeat split; constructor.
  - destruct (deliver_qualifying db ev Hev) as (n & Hd & Hid & Hans).
    destruct (IH (deliver db ev)) as (new & Hn & Hlen & Hall & Hids & _).
    exists (n :: new). cbn [fold_left].
    rewrite Hn, Hd in *. cbn [notifications notification_seq set_notifications] in *.
    assert (Hids' : map Notification.id (n :: new)
                    = fresh_ids (notification_seq db) (length (ev :: evs))).
    { cbn. now rewrite Hid, Hids. }
    repeat split.
    + now rewrite <- app_assoc.
    + cbn. now rewrite Hlen.
    + now constructor.
    + exact Hids'.
    + rewrite Hids'. apply fresh_ids_NoDup.
Qed.

(** C7 on the sample user: five qualifying events in a row, two of them
    repeated, give five alerts with the keys 1 to 5. *)
Lemma evaluator_is_memoryless_witness :
  exists new : list Notification.t,
    notifications (fold_left deliver sample_events sample_db)
      = notifications sample_db ++ new
    /\ length new = length sample_events
    /\ List.Forall2 answers sample_events new
    /\ map Notification.id new = fresh_ids (notification_seq sample_db)
                                           (length sample_events)
    /\ List.NoDup (map Notification.id new).
Proof.
  apply (evaluator_is_memoryless sample_db sample_events).
  repeat constructor.
Defined.

Example sample_events_alerts :
  map (fun n => (Notification.id n, Notification.notification_type n))
      (notifications (fold_left deliver sample_events sample_db))
  = [(1, "high_usage"); (2, "high_usage"); (3, "low_balance");
     (4, "low_balance"); (5, "high_usage")].
Proof. reflexivity. Qed.

(** ** C2: the cost of a reading *)

Lemma val_zero_iff (d : Decimal) : (Decimal.val d == 0)%Q <-> Decimal.coef d = 0.
Proof.
  rewrite val_unfold. split.
  - intros H. apply Qmult_integral in H. destruct H as [H|H].
    + unfold Qeq in H. cbn in H. lia.
    + pose proof (ten_pow_pos (Decimal.expo d)) as Hp. rewrite H in Hp.
      now apply Qlt_irrefl in Hp.
  - intros ->. apply Qmult_0_l.
Qed.








Lemma id_EnergyReading_row (r : EnergyReading.t) :
  EnergyReading.id (EnergyReading_row r) = EnergyReading.id r.
Proof. reflexivity. Qed.





Example cost_of_stored_zero_is_recomputed :
  let cfg := {| ENERGY_RATE_PER_KWH := Dec 20 (-1) |} in
  let cfg' := {| ENERGY_RATE_PER_KWH := Dec 100 (-1) |} in
  let '(r1, db1) :=
    EnergyReading_objects_create cfg sample_user 0 (Dec 1 (-3)) (Dec 1000 (-3))
                                 None sample_db in
  let '(_, db2) := EnergyReading_save cfg' (EnergyReading_row r1) sample_user db1 in
  map EnergyReading.cost (readings db1) = [Some (Dec 0 (-2))]
  /\ map EnergyReading.cost (readings db2) = [Some (Dec 1 (-2))].
Proof. vm_compute. split; reflexivity. Qed.

Example cost_of_spec_example :
  (Decimal.val (Decimal.mul (Dec 2500 (-3)) (Dec 2000 (-2))) == 50)%Q.
Proof. reflexivity. Qed.

(** ** Payments: validation and credit *)

Lemma validate_amount_nonpositive (v : Decimal) :
  (Decimal.val v <= 0)%Q ->
  validate_amount v = ValidationError "Amount must be greater than 0".
Proof.
  intros H. unfold validate_amount.
  assert (Hl : Decimal.leb v (Decimal.of_Z 0) = true)
    by (apply leb_val; now rewrite val_of_Z).
  now rewrite Hl.
Qed.

Lemma validate_amount_too_large (v : Decimal) :
  (1000 < Decimal.val v)%Q ->
  validate_amount v = ValidationError "Amount cannot exceed $1000 per transaction".
Proof.
  intros H. unfold validate_amount.
  assert (Hl : Decimal.leb v (Decimal.of_Z 0) = false).
  { apply leb_false_val. rewrite val_of_Z.
    apply Qlt_trans with (y := 1000%Q); [reflexivity | exact H]. }
  assert (Hg : Decimal.gtb v (Decimal.of_Z 1000) = true)
    by (apply gtb_val; now rewrite val_of_Z).
  now rewrite Hl, Hg.
Qed.

Lemma validate_amount_accepted (v : Decimal) :
  (0 < Decimal.val v)%Q -> (Decimal.val v <= 1000)%Q ->
  validate_amount v = Valid v.
Proof.
  intros H0 H1. unfold validate_amount.
  assert (Hl : Decimal.leb v (Decimal.of_Z 0) = false)
    by (apply leb_false_val; now rewrite val_of_Z).
  assert (Hg : Decimal.gtb v (Decimal.of_Z 1000) = false).
  { unfold Decimal.gtb. apply negb_false_iff, leb_val. now rewrite val_of_Z. }
  now rewrite Hl, Hg.
Qed.

Lemma Payment_save_first (p : Payment.t) (u : User.t) (token : string) (db : DB) :
  Payment.id p = None -> Payment.reference p = "" ->
  Payment_save p u token db =
  let p' := Payment.set_id (payment_seq db + 1)
              (Payment.set_reference ("PAY-" +:+ token) p) in
  (p', check_balance_alerts p' u true
         (set_payments (<[payment_seq db + 1 := p']> (payments db))
                       (payment_seq db + 1) db)).
Proof.
  intros Hid Href. unfold Payment_save. rewrite Href. cbn [String.eqb].
  cbn [Payment.set_reference Payment.id]. now rewrite Hid.
Qed.

Lemma Payment_save_again (p : Payment.t) (u : User.t) (token : string)
    (db : DB) (i : Z) (tok : string) :
  Payment.id p = Some i -> Payment.reference p = "PAY-" +:+ tok ->
  Payment_save p u token db =
  (p, check_balance_alerts p u (bool_decide (payments db !! i = None))
        (set_payments (<[i := p]> (payments db)) (payment_seq db) db)).
Proof.
  intros Hid Href. unfold Payment_save. rewrite Href.
  replace (String.eqb ("PAY-" +:+ tok) "") with false by reflexivity.
  now rewrite Hid.
Qed.

Lemma check_balance_alerts_other_status p u created db :
  String.eqb (Payment.status p) "success" = false ->
  check_balance_alerts p u created db = db.
Proof. intros H. unfold check_balance_alerts. now rewrite H. Qed.

Lemma check_balance_alerts_success p u created db :
  Payment.status p = "success" ->
  check_balance_alerts p u created db =
  if User.low_balance_alert u
     && Qle_bool (Decimal.val (User.balance u))
                 (Decimal.val (User.low_balance_threshold u))
  then set_notifications
         (notifications db ++ [low_balance_alert_for (notification_seq db + 1) u])
         (notification_seq db + 1) db
  else db.
Proof.
  intros H. rewrite check_balance_alerts_spec. unfold balance_qualifies.
  now rewrite H.
Qed.

(** *** The amount field *)

Lemma count_digits_le (fuel : nat) (n c k : Z) :
  0 <= n <= k -> c < 10 ^ k -> count_digits fuel n c <= k.
Proof.
  revert n. induction fuel as [|fuel IH]; intros n Hn Hc; cbn [count_digits]; [lia|].
  destruct (Z.ltb_spec c (10 ^ n)) as [H|H]; [lia|].
  apply IH; [|exact Hc].
  assert (n < k); [|lia].
  destruct (Z.lt_ge_cases n k) as [Hlt|Hge]; [exact Hlt|].
  pose proof (Z.pow_le_mono_r 10 k n ltac:(lia) Hge). lia.
Qed.

Lemma count_digits_ge (fuel : nat) (n c : Z) : n <= count_digits fuel n c.
Proof.
  revert n. induction fuel as [|fuel IH]; intros n; cbn [count_digits]; [lia|].
  destruct (c <? 10 ^ n); [lia|]. specialize (IH (n + 1)). lia.
Qed.

Lemma num_digits_le (c k : Z) : 1 <= k -> Z.abs c < 10 ^ k -> num_digits c <= k.
Proof. intros Hk Hc. unfold num_digits. apply count_digits_le; [lia | exact Hc]. Qed.

Lemma num_digits_pos (c : Z) : 1 <= num_digits c.
Proof. unfold num_digits. apply count_digits_ge. Qed.

(** The number a Decimal with a non-negative exponent denotes, and a
    hundred times the number one with exponent -1 or -2 denotes. *)
Lemma val_nonneg_expo (d : Decimal) :
  0 <= Decimal.expo d ->
  (Decimal.val d == inject_Z (Decimal.coef d * 10 ^ Decimal.expo d))%Q.
Proof.
  intros He. rewrite val_unfold, inject_Z_mult, Zpower_Qpower by exact He.
  reflexivity.
Qed.

Lemma val_scaled (d : Decimal) (e : Z) :
  e <= Decimal.expo d ->
  (Decimal.val d == inject_Z (Decimal.align e d) * inject_Z 10 ^ e)%Q.
Proof. intros He. now rewrite align_val. Qed.

Lemma quantize_exact (places : Z) (d : Decimal) :
  - places <= Decimal.expo d ->
  (Decimal.val (quantize places d) == Decimal.val d)%Q.
Proof.
  intros He. unfold quantize.
  rewrite (proj2 (Z.leb_le _ _) He).
  rewrite val_unfold. cbn [Decimal.coef Decimal.expo]. now apply align_val.
Qed.

(** An amount of less than 10^8 in absolute value, written with at most
    two decimal places (and, when it is zero, an exponent of 7 at
    most), passes the checks of the field. *)
Lemma validate_precision_passes (v : Decimal) :
  -2 <= Decimal.expo v ->
  (Qabs (Decimal.val v) < 100000000)%Q ->
  (Decimal.coef v = 0 -> Decimal.expo v <= 7) ->
  validate_precision v = Valid v.
Proof.
  intros He Hv Hz. unfold validate_precision.
  set (c := Decimal.coef v) in *. set (e := Decimal.expo v) in *.
  pose proof (num_digits_pos c) as Hd1.
  assert (Habs : (Qabs (Decimal.val v) == inject_Z (Z.abs c) * inject_Z 10 ^ e)%Q).
  { rewrite val_unfold. fold c e. rewrite Qabs_Qmult.
    rewrite (Qabs_pos (inject_Z 10 ^ e)) by (apply Qlt_le_weak, ten_pow_pos).
    unfold Qabs, inject_Z. reflexivity. }
  rewrite Habs in Hv.
  destruct (Z.leb_spec 0 e) as [He0|He0].
  - (* an integer *)
    assert (Hb : Z.abs c * 10 ^ e < 10 ^ 8).
    { rewrite <- Zpower_Qpower, <- inject_Z_mult in Hv by exact He0.
      change (100000000%Q) with (inject_Z (10 ^ 8)) in Hv.
      now rewrite <- Zlt_Qlt in Hv. }
    assert (He8 : e <= 7).
    { destruct (Z.eq_dec c 0) as [E|E]; [now apply Hz|].
      destruct (Z.le_gt_cases e 7) as [H|H]; [exact H|].
      pose proof (Z.pow_le_mono_r 10 8 e ltac:(lia) ltac:(lia)). nia. }
    assert (Hdig : num_digits c <= 8 - e).
    { apply num_digits_le; [lia|].
      assert (Hsplit : 10 ^ 8 = 10 ^ (8 - e) * 10 ^ e).
      { rewrite <- Z.pow_add_r by lia. f_equal. lia. }
      pose proof (Z.pow_pos_nonneg 10 e ltac:(lia) He0). nia. }
    replace (10 <? num_digits c + e) with false by (symmetry; apply Z.ltb_ge; lia).
    replace (8 <? num_digits c + e) with false by (symmetry; apply Z.ltb_ge; lia).
    reflexivity.
  - (* one or two decimal places *)
    assert (Hb : Z.abs c < 10 ^ (8 - e)).
    { assert (Hq : (inject_Z (Z.abs c) < inject_Z (10 ^ (8 - e)))%Q).
      { rewrite Zpower_Qpower by lia.
        replace (8 - e) with (8 + - e) by lia.
        rewrite Qpower_plus by apply ten_neq_0.
        apply Qmult_lt_r with (z := (inject_Z 10 ^ e)%Q); [apply ten_pow_pos|].
        rewrite <- Qmult_assoc, <- Qpower_plus by apply ten_neq_0.
        replace (- e + e) with 0 by lia. rewrite Qmult_1_r.
        change (inject_Z 10 ^ 8)%Q with (100000000%Q). exact Hv. }
      now rewrite <- Zlt_Qlt in Hq. }
    pose proof (num_digits_le c (8 - e) ltac:(lia) Hb) as Hdig.
    rewrite (Z.abs_neq e) by lia.
    destruct (Z.ltb_spec (- e) (num_digits c)) as [Hw|Hw].
    + replace (10 <? num_digits c) with false by (symmetry; apply Z.ltb_ge; lia).
      replace (2 <? - e) with false by (symmetry; apply Z.ltb_ge; lia).
      replace (8 <? num_digits c - - e) with false
        by (symmetry; apply Z.ltb_ge; lia).
      reflexivity.
    + replace (10 <? - e) with false by (symmetry; apply Z.ltb_ge; lia).
      replace (2 <? - e) with false by (symmetry; apply Z.ltb_ge; lia).
      reflexivity.
Qed.

(** With more than two decimal places the field refuses the amount for
    its form, before [validate_amount] is asked. *)
Lemma validate_precision_three_places (v : Decimal) :
  Decimal.expo v < -2 ->
  validate_precision v
    = ValidationError "Ensure that there are no more than 10 digits in total."
  \/ validate_precision v
     = ValidationError "Ensure that there are no more than 2 decimal places.".
Proof.
  intros He. unfold validate_precision.
  replace (0 <=? Decimal.expo v) with false by (symmetry; apply Z.leb_gt; lia).
  rewrite (Z.abs_neq (Decimal.expo v)) by lia.
  destruct (- Decimal.expo v <? num_digits (Decimal.coef v)).
  - destruct (10 <? _); [now left|].
    replace (2 <? - Decimal.expo v) with true by (symmetry; apply Z.ltb_lt; lia).
    now right.
  - destruct (10 <? _); [now left|].
    replace (2 <? - Decimal.expo v) with true by (symmetry; apply Z.ltb_lt; lia).
    now right.
Qed.

Lemma validate_precision_cases (v : Decimal) :
  validate_precision v = Valid v
  \/ exists detail,
       validate_precision v = ValidationError detail
       /\ In detail
            ["Ensure that there are no more than 10 digits in total.";
             "Ensure that there are no more than 2 decimal places.";
             "Ensure that there are no more than 8 digits before the decimal point."].
Proof.
  unfold validate_precision.
  destruct (if 0 <=? Decimal.expo v then _ else _) as [[t w] p].
  destruct (10 <? t); [right; eexists; split; [reflexivity | cbn; auto]|].
  destruct (2 <? p); [right; eexists; split; [reflexivity | cbn; auto]|].
  destruct (8 <? w); [right; eexists; split; [reflexivity | cbn; auto]|].
  now left.
Qed.

Lemma Qabs_lt_of_bounds (q b : Q) : (- b < q)%Q -> (q < b)%Q -> (Qabs q < b)%Q.
Proof.
  intros H1 H2. apply Qabs_case; intros _; [exact H2|].
  apply Qopp_lt_compat in H1. now rewrite Qopp_involutive in H1.
Qed.

Lemma amount_accepted (v : Decimal) :
  (0 < Decimal.val v)%Q -> (Decimal.val v <= 1000)%Q -> -2 <= Decimal.expo v ->
  amount_run_validation v = Valid (quantize 2 v).
Proof.
  intros Hpos Hmax He. unfold amount_run_validation.
  rewrite validate_precision_passes; [| exact He | |].
  - apply validate_amount_accepted; now rewrite quantize_exact.
  - apply Qabs_lt_of_bounds.
    + apply Qlt_trans with (y := 0%Q); [reflexivity | exact Hpos].
    + apply Qle_lt_trans with (y := 1000%Q); [exact Hmax | reflexivity].
  - intros Hc. apply val_zero_iff in Hc. rewrite Hc in Hpos.
    now apply Qlt_irrefl in Hpos.
Qed.

Lemma amount_nonpositive (v : Decimal) :
  (Decimal.val v <= 0)%Q ->
  exists detail,
    amount_run_validation v = ValidationError detail
    /\ (validate_precision v = Valid v -> detail = "Amount must be greater than 0").
Proof.
  intros Hle. unfold amount_run_validation.
  destruct (validate_precision_cases v) as [Hp|(detail & Hp & _)]; rewrite Hp.
  - assert (He : -2 <= Decimal.expo v).
    { destruct (Z.le_gt_cases (-2) (Decimal.expo v)) as [H|H]; [exact H|].
      destruct (validate_precision_three_places v H) as [E|E];
        rewrite E in Hp; discriminate. }
    eexists. split; [|reflexivity].
    apply validate_amount_nonpositive. now rewrite quantize_exact.
  - exists detail. split; [reflexivity|]. discriminate.
Qed.

Lemma amount_above_cap (v : Decimal) :
  (1000 < Decimal.val v)%Q ->
  exists detail,
    amount_run_validation v = ValidationError detail
    /\ (-2 <= Decimal.expo v -> (Decimal.val v < 100000000)%Q ->
        detail = "Amount cannot exceed $1000 per transaction")
    /\ (Decimal.expo v < -2 ->
        detail = "Ensure that there are no more than 10 digits in total."
        \/ detail = "Ensure that there are no more than 2 decimal places.").
Proof.
  intros Hgt. unfold amount_run_validation.
  destruct (Z.le_gt_cases (-2) (Decimal.expo v)) as [He|He].
  - destruct (validate_precision_cases v) as [Hp|(detail & Hp & _)]; rewrite Hp.
    + eexists. split; [apply validate_amount_too_large; now rewrite quantize_exact|].
      split; [reflexivity | lia].
    + exists detail. split; [reflexivity|]. split; [|lia].
      intros _ Hlt. exfalso.
      rewrite validate_precision_passes in Hp; [discriminate | exact He | |].
      * apply Qabs_lt_of_bounds; [|exact Hlt].
        apply Qlt_trans with (y := 1000%Q); [reflexivity | exact Hgt].
      * intros Hc. apply val_zero_iff in Hc. rewrite Hc in Hgt. discriminate.
  - destruct (validate_precision_three_places v He) as [E|E]; rewrite E;
      eexists; (split; [reflexivity|]); (split; [lia|]); intros _; auto.
Qed.

Lemma payment_method_valid (m : string) :
  In m PAYMENT_METHOD_CHOICES -> payment_method_run_validation m = Valid m.
Proof.
  intros Hin. unfold payment_method_run_validation.
  replace (existsb (String.eqb m) PAYMENT_METHOD_CHOICES) with true; [reflexivity|].
  symmetry. apply existsb_exists. exists m. split; [exact Hin | apply String.eqb_refl].
Qed.

(** A request whose amount is refused is answered 400 with the error of
    the amount first, and the database is the one given. *)
Lemma payment_create_refused (request : PaymentRequest) (db : DB) (detail : string) :
  amount_run_validation (pr_amount request) = ValidationError detail ->
  payment_create request db
  = (Refused HTTP_400_BAD_REQUEST
       (("amount", [detail])
        :: field_errors "payment_method"
             (payment_method_run_validation (pr_payment_method request))),
     db).
Proof.
  intros H. unfold payment_create. rewrite H.
  now destruct (payment_method_run_validation _).
Qed.

(** What an accepted request does, step by step: the payment row ends
    as a success, the low-balance check has run on the balance the user
    object had when the payment was saved as a success, the user's row
    has been written with the credited balance of that object, and the
    success notification comes last. *)
Lemma payment_create_accepted (request : PaymentRequest) (db : DB)
    (amount : Decimal) :
  amount_run_validation (pr_amount request) = Valid amount ->
  payment_method_run_validation (pr_payment_method request)
    = Valid (pr_payment_method request) ->
  let user := pr_user request in
  let i := payment_seq db + 1 in
  let reference := "PAY-" +:+ pr_token request in
  let payment :=
    Payment.Build (Some i) (User.id user) reference amount
                  (pr_payment_method request) "success"
                  (Some ("TXN-" +:+ reference)) (pr_description request)
                  (Some (pr_now request)) in
  let alerts :=
    if User.low_balance_alert user
       && Qle_bool (Decimal.val (User.balance user))
                   (Decimal.val (User.low_balance_threshold user))
    then [low_balance_alert_for (notification_seq db + 1) user]
    else [] in
  let credited :=
    User.set_balance (Decimal.add (User.balance user) amount) user in
  exists db',
    payment_create request db = (Accepted HTTP_201_CREATED payment, db')
    /\ payments db' = <[i := payment]> (payments db)
    /\ users db' =
       alter (User.set_balance (User.balance credited)) (User.id user) (users db)
    /\ notifications db' =
       notifications db ++ alerts ++
         [payment_success_notification
            (notification_seq db + Z.of_nat (length alerts) + 1) payment credited]
    /\ readings db' = readings db
    /\ summaries db' = summaries db.
Proof.
  intros Hv Hm. cbv zeta. unfold payment_create. rewrite Hv, Hm.
  rewrite Payment_save_first by reflexivity. cbv zeta.
  rewrite check_balance_alerts_other_status by reflexivity.
  cbv beta iota.
  rewrite (Payment_save_again _ _ _ _ (payment_seq db + 1) (pr_token request))
    by reflexivity.
  rewrite check_balance_alerts_other_status by reflexivity.
  cbv beta iota.
  unfold mark_as_success.
  replace (negb (String.eqb _ "success")) with true by reflexivity.
  rewrite (Payment_save_again _ _ _ _ (payment_seq db + 1) (pr_token request))
    by reflexivity.
  rewrite check_balance_alerts_success by reflexivity.
  cbv beta iota.
  destruct (User.low_balance_alert (pr_user request) && Qle_bool _ _);
    eexists; (split; [reflexivity|]);
    cbn [payments users notifications readings summaries set_payments
         set_notifications set_users update_balance Notification_create
         notification_seq payment_seq length fst snd];
    rewrite !insert_insert_eq;
    repeat split;
    rewrite ?app_nil_r, <- ?app_assoc; try reflexivity.
  all: unfold payment_success_notification; cbn; repeat f_equal; lia.
Qed.

(** ** C9: the credit guard and the credit itself *)

(** C9 as stated fails: the credit is a read-modify-write on the user
    object that came with the request, not an increase of the stored
    balance.  The row of user 1 holds 50.00 while the object of the
    request still holds 0.00 (it was loaded before another credit was
    written); a payment of 1.00 is accepted and confirmed, and leaves
    1.00 in the row, not 51.00. *)
Lemma credit_is_read_modify_write :
  let loaded := User.Build 1 (Dec 0 (-2)) true true (Dec 1000 (-2)) (Dec 50 (-1)) in
  let stored := User.set_balance (Dec 5000 (-2)) loaded in
  let db := BuildDB {[ 1 := stored ]} [] 0 ∅ 0 ∅ 0 [] 0 in
  let request :=
    {| pr_user := loaded; pr_amount := Dec 100 (-2);
       pr_payment_method := "mobile"; pr_description := None;
       pr_token := "0123456789"; pr_now := 1704074400000000 |} in
  let '(response, db') := payment_create request db in
  (exists payment,
     response = Accepted HTTP_201_CREATED payment
     /\ Payment.status payment = "success"
     /\ Payment.amount payment = Dec 100 (-2))
  /\ User.balance <$> users db !! 1 = Some (Dec 5000 (-2))
  /\ User.balance <$> users db' !! 1 = Some (Dec 100 (-2))
  /\ Decimal.eqb (Dec 100 (-2)) (Decimal.add (Dec 5000 (-2)) (Dec 100 (-2))) = false.
Proof.
  vm_compute. split; [|repeat split]. eexists. repeat split.
Qed.

(** C9, amended.  A request whose amount is zero or negative is refused
    with a validation error on the amount, "Amount must be greater than
    0" when the amount has the form the field accepts, and the whole
    database, every balance included, is left as it was.  A request
    whose amount is positive and accepted (at most 1000, written with at
    most two decimal places, for a payment method of the model) ends as
    a successful payment of that amount, and the balance written to the
    user's row is the balance of the user object of the request plus
    exactly that amount; no other user's row changes.  So the stored
    balance grows by exactly the amount when the row still holds the
    balance that object was loaded with. *)
Theorem credit_rejects_nonpositive_and_adds_to_the_loaded_balance
    (request : PaymentRequest) (db : DB) :
  ((Decimal.val (pr_amount request) <= 0)%Q ->
   exists message : string,
     payment_create request db =
       (Refused HTTP_400_BAD_REQUEST
          (("amount", [message])
           :: field_errors "payment_method"
                (payment_method_run_validation (pr_payment_method request))),
        db)
     /\ (validate_precision (pr_amount request) = Valid (pr_amount request) ->
         message = "Amount must be greater than 0"))
  /\ ((0 < Decimal.val (pr_amount request))%Q ->
      (Decimal.val (pr_amount request) <= 1000)%Q ->
      -2 <= Decimal.expo (pr_amount request) ->
      In (pr_payment_method request) PAYMENT_METHOD_CHOICES ->
      exists (payment : Payment.t) (db' : DB),
        payment_create request db = (Accepted HTTP_201_CREATED payment, db')
        /\ Payment.status payment = "success"
        /\ Payment.amount payment = quantize 2 (pr_amount request)
        /\ (Decimal.val (Payment.amount payment)
            == Decimal.val (pr_amount request))%Q
        /\ payments db' !! (payment_seq db + 1) = Some payment
        /\ users db' =
           alter (User.set_balance
                    (Decimal.add (User.balance (pr_user request))
                                 (Payment.amount payment)))
                 (User.id (pr_user request)) (users db)
        /\ (forall stored : User.t,
              users db !! User.id (pr_user request) = Some stored ->
              exists credited : User.t,
                users db' !! User.id (pr_user request) = Some credited
                /\ (Decimal.val (User.balance credited)
                    == Decimal.val (User.balance (pr_user request))
                       + Decimal.val (pr_amount request))%Q
                /\ (User.balance stored = User.balance (pr_user request) ->
                    (Decimal.val (User.balance credited)
                     == Decimal.val (User.balance stored)
                        + Decimal.val (pr_amount request))%Q))
        /\ forall k : Z, k <> User.id (pr_user request) ->
                         users db' !! k = users db !! k).
Proof.
  split.
  - intros Hle.
    destruct (amount_nonpositive _ Hle) as (detail & Hrun & Hmsg).
    exists detail. split; [now apply payment_create_refused | exact Hmsg].
  - intros Hpos Hmax He Hm.
    destruct (payment_create_accepted request db _
                (amount_accepted _ Hpos Hmax He) (payment_method_valid _ Hm))
      as (db' & Hrun & Hpay & Husers & _).
    eexists _, db'. split; [exact Hrun|].
    cbn [Payment.status Payment.amount User.balance User.set_balance] in *.
    assert (Hq : (Decimal.val (quantize 2 (pr_amount request))
                  == Decimal.val (pr_amount request))%Q)
      by now apply quantize_exact.
    repeat split.
    + exact Hq.
    + rewrite Hpay. apply lookup_insert_eq.
    + exact Husers.
    + intros stored Hrow. rewrite Husers, lookup_alter_eq, Hrow. cbn.
      eexists. split; [reflexivity|].
      cbn [User.balance User.set_balance]. rewrite val_add, Hq.
      split; [reflexivity|]. intros ->. reflexivity.
    + intros k Hk. rewrite Husers. now apply lookup_alter_ne.
Qed.

(** The amended C9 on the sample user (balance 5.00, object and row in
    step): a top-up of 0.00 is refused and changes nothing, a top-up of
    25.00 is credited. *)
Lemma credit_rejects_nonpositive_and_adds_to_the_loaded_balance_witness :
  (exists message : string,
     payment_create (sample_payment (Dec 0 (-2))) sample_db =
       (Refused HTTP_400_BAD_REQUEST [("amount", [message])], sample_db)
     /\ (validate_precision (Dec 0 (-2)) = Valid (Dec 0 (-2)) ->
         message = "Amount must be greater than 0"))
  /\ exists (payment : Payment.t) (db' : DB),
       payment_create (sample_payment (Dec 2500 (-2))) sample_db
         = (Accepted HTTP_201_CREATED payment, db')
       /\ Payment.status payment = "success"
       /\ Payment.amount payment = quantize 2 (Dec 2500 (-2))
       /\ (Decimal.val (Payment.amount payment) == Decimal.val (Dec 2500 (-2)))%Q
       /\ payments db' !! (payment_seq sample_db + 1) = Some payment
       /\ users db' =
          alter (User.set_balance
                   (Decimal.add (User.balance sample_user) (Payment.amount payment)))
                1 (users sample_db)
       /\ (forall stored : User.t,
             users sample_db !! 1 = Some stored ->
             exists credited : User.t,
               users db' !! 1 = Some credited
               /\ (Decimal.val (User.balance credited)
                   == Decimal.val (User.balance sample_user)
                      + Decimal.val (Dec 2500 (-2)))%Q
               /\ (User.balance stored = User.balance sample_user ->
                   (Decimal.val (User.balance credited)
                    == Decimal.val (User.balance stored)
                       + Decimal.val (Dec 2500 (-2)))%Q))
       /\ forall k : Z, k <> 1 -> users db' !! k = users sample_db !! k.
Proof.
  split.
  - apply (proj1 (credit_rejects_nonpositive_and_adds_to_the_loaded_balance
                    (sample_payment (Dec 0 (-2))) sample_db)).
    vm_compute. discriminate.
  - apply (proj2 (credit_rejects_nonpositive_and_adds_to_the_loaded_balance
                    (sample_payment (Dec 2500 (-2))) sample_db)).
    + reflexivity.
    + vm_compute. discriminate.
    + vm_compute. discriminate.
    + cbn. auto.
Defined.

(** ** C10: the per-transaction cap *)

(** C10 as stated fails: an amount of 1000.001 exceeds 1000 and is
    refused, but by the check of the field on its form, which runs
    first; the message is not that of the cap. *)
Lemma amount_above_cap_with_three_places :
  (1000 < Decimal.val (Dec 1000001 (-3)))%Q
  /\ payment_create (sample_payment (Dec 1000001 (-3))) sample_db =
       (Refused HTTP_400_BAD_REQUEST
          [("amount", ["Ensure that there are no more than 2 decimal places."])],
        sample_db)
  /\ String.eqb "Ensure that there are no more than 2 decimal places."
                "Amount cannot exceed $1000 per transaction" = false.
Proof. repeat split. Qed.

(** C10, amended.  A request whose amount exceeds 1000 is refused with
    a validation error on the amount, and the database is left as it
    was: no payment row, no credit.  The error is "Amount cannot exceed
    $1000 per transaction" when the amount is written with at most two
    decimal places and is below 10^8; with more than two decimal places
    it is the error of the field on the form of the number. *)
Theorem amount_above_cap_is_rejected (request : PaymentRequest) (db : DB) :
  (1000 < Decimal.val (pr_amount request))%Q ->
  exists message : string,
    payment_create request db =
      (Refused HTTP_400_BAD_REQUEST
         (("amount", [message])
          :: field_errors "payment_method"
               (payment_method_run_validation (pr_payment_method request))),
       db)
    /\ (-2 <= Decimal.expo (pr_amount request) ->
        (Decimal.val (pr_amount request) < 100000000)%Q ->
        message = "Amount cannot exceed $1000 per transaction")
    /\ (Decimal.expo (pr_amount request) < -2 ->
        message = "Ensure that there are no more than 10 digits in total."
        \/ message = "Ensure that there are no more than 2 decimal places.").
Proof.
  intros Hgt. destruct (amount_above_cap _ Hgt) as (detail & Hrun & Hcap & Hform).
  exists detail. split; [now apply payment_create_refused|]. now split.
Qed.

(** The amended C10 at 1000.01; the cap itself (1000.00) is still
    accepted. *)
Lemma amount_above_cap_is_rejected_witness :
  (1000 < Decimal.val (Dec 100001 (-2)))%Q
  /\ exists message : string,
       payment_create (sample_payment (Dec 100001 (-2))) sample_db =
         (Refused HTTP_400_BAD_REQUEST [("amount", [message])], sample_db)
       /\ (-2 <= Decimal.expo (Dec 100001 (-2)) ->
           (Decimal.val (Dec 100001 (-2)) < 100000000)%Q ->
           message = "Amount cannot exceed $1000 per transaction")
       /\ (Decimal.expo (Dec 100001 (-2)) < -2 ->
           message = "Ensure that there are no more than 10 digits in total."
           \/ message = "Ensure that there are no more than 2 decimal places.").
Proof.
  assert (H : (1000 < Decimal.val (Dec 100001 (-2)))%Q) by reflexivity.
  split; [exact H|].
  exact (amount_above_cap_is_rejected (sample_payment (Dec 100001 (-2))) sample_db H).
Defined.

Example amount_at_cap_is_accepted :
  amount_run_validation (Dec 1000 0) = Valid (Dec 100000 (-2))
  /\ amount_run_validation (Dec 100000 (-2)) = Valid (Dec 100000 (-2))
  /\ amount_run_validation (Dec 1 (-3))
     = ValidationError "Ensure that there are no more than 2 decimal places."
  /\ amount_run_validation (Dec 1000 (-3))
     = ValidationError "Ensure that there are no more than 2 decimal places."
  /\ amount_run_validation (Dec 1 9)
     = ValidationError "Ensure that there are no more than 8 digits before the decimal point."
  /\ amount_run_validation (Dec 12345678901 0)
     = ValidationError "Ensure that there are no more than 10 digits in total.".
Proof. repeat split. Qed.

(** ** C1: the low-balance alert on a successful payment *)

(** C1 on the sample user: balance 5.00, threshold 10.00, top-up of
    100.00.  The low-balance alert is raised and carries 5.0, the balance
    from before the credit, although the credit brings the balance to
    105.00, which is above the threshold. *)
Theorem low_balance_checked_before_credit :
  let '(_, db') := payment_create (sample_payment (Dec 10000 (-2))) sample_db in
  notifications db' =
    [Notification.Build
       1 1 "low_balance" "Low Balance Alert"
       (Notification.LowBalanceMessage (Dec 500 (-2)) (Dec 1000 (-2)))
       [("balance", Notification.JFloat 5%float);
        ("threshold", Notification.JFloat 10%float)]
       false false false false;
     Notification.Build
       2 1 "payment_success" "Payment Successful"
       (Notification.PaymentSuccessMessage (Dec 10000 (-2)))
       [("payment_id", Notification.JInt 1);
        ("reference", Notification.JStr "PAY-0123456789")]
       false false false false]
  /\ User.balance <$> users db' !! 1 = Some (Dec 10500 (-2))
  /\ Decimal.leb (Dec 10500 (-2)) (User.low_balance_threshold sample_user) = false.
Proof. vm_compute. repeat split. Qed.

(** The same in general: for an accepted amount, whether the alert is
    raised, and the balance it carries, depend on the balance before the
    credit only. *)
Lemma low_balance_alert_uses_balance_before_credit
    (request : PaymentRequest) (db : DB) :
  (0 < Decimal.val (pr_amount request))%Q ->
  (Decimal.val (pr_amount request) <= 1000)%Q ->
  -2 <= Decimal.expo (pr_amount request) ->
  In (pr_payment_method request) PAYMENT_METHOD_CHOICES ->
  exists n : Notification.t,
    notifications (snd (payment_create request db)) =
      notifications db ++
        (if User.low_balance_alert (pr_user request)
            && Qle_bool (Decimal.val (User.balance (pr_user request)))
                        (Decimal.val (User.low_balance_threshold (pr_user request)))
         then [low_balance_alert_for (notification_seq db + 1) (pr_user request)]
         else [])
        ++ [n]
    /\ Notification.notification_type n = "payment_success".
Proof.
  intros Hpos Hmax He Hm.
  destruct (payment_create_accepted request db _
              (amount_accepted _ Hpos Hmax He) (payment_method_valid _ Hm))
    as (db' & Hrun & _ & _ & Hn & _).
  rewrite Hrun. cbn [snd]. rewrite Hn. eexists. split; reflexivity.
Qed.

(** The specification's boundary case (threshold 10.00, balance 10.00
    after the credit), reached from 5.00 by a top-up of 5.00: the alert is
    raised, and it reports 5.0. *)
Example low_balance_boundary_reports_old_balance :
  let '(_, db') := payment_create (sample_payment (Dec 500 (-2))) sample_db in
  User.balance <$> users db' !! 1 = Some (Dec 1000 (-2))
  /\ map (fun n => (Notification.notification_type n,
                    Notification.data n))
         (notifications db')
     = [("low_balance",
         [("balance", Notification.JFloat 5%float);
          ("threshold", Notification.JFloat 10%float)]);
        ("payment_success",
         [("payment_id", Notification.JInt 1);
          ("reference", Notification.JStr "PAY-0123456789")])].
Proof. vm_compute. split; reflexivity. Qed.

(** ** Summaries: what [generate] reads and writes *)

Lemma In_insert_by_timestamp (x r : EnergyReading.t) (rs : list EnergyReading.t) :
  In x (insert_by_timestamp r rs) <-> x = r \/ In x rs.
Proof.
  induction rs as [|y rs IH]; cbn.
  - intuition.
  - destruct (_ <=? _); cbn; rewrite ?IH; intuition.
Qed.

Lemma In_order_by_timestamp_desc (x : EnergyReading.t) (rs : list EnergyReading.t) :
  In x (order_by_timestamp_desc rs) <-> In x rs.
Proof.
  unfold order_by_timestamp_desc.
  induction rs as [|y rs IH]; cbn; [tauto|].
  rewrite In_insert_by_timestamp, IH. intuition.
Qed.

Lemma In_readings_in_period (x : EnergyReading.t) (user sd ed : Z) (db : DB) :
  In x (readings_in_period user sd ed db)
  <-> In x (readings db) /\ in_period user sd ed x.
Proof.
  unfold readings_in_period, in_period.
  rewrite filter_In, In_order_by_timestamp_desc, !andb_true_iff.
  rewrite Z.eqb_eq, !Z.leb_le. tauto.
Qed.

Lemma strptime_not_empty (s : string) (d : Z) :
  Dates.strptime s = Some d -> not_str (Some s) = false.
Proof. destruct s; [discriminate | reflexivity]. Qed.

Lemma generate_parsed (request : GenerateRequest) (now : Z) (db : DB)
    (s1 s2 : string) (sd ed : Z) :
  g_start_date request = Some s1 -> g_end_date request = Some s2 ->
  Dates.strptime s1 = Some sd -> Dates.strptime s2 = Some ed ->
  generate request now db =
  let user := User.id (g_user request) in
  let period_type := default "daily" (g_period_type request) in
  let key := (user, period_type, sd) in
  match readings_in_period user sd ed db with
  | [] => (Err HTTP_404_NOT_FOUND "No readings found for this period", db)
  | r :: rs =>
      let d := fresh_defaults ed (r :: rs) in
      match summaries db !! key with
      | Some row =>
          let row' := UsageSummary_row (with_defaults row d now) in
          (Ok HTTP_200_OK ("Summary updated", row'),
           set_summaries (<[key := row']> (summaries db)) (summary_seq db) db)
      | None =>
          let row' :=
            UsageSummary_row
              (new_summary (summary_seq db + 1) user period_type sd d now) in
          (Ok HTTP_201_CREATED ("Summary generated successfully", row'),
           set_summaries (<[key := row']> (summaries db)) (summary_seq db + 1) db)
      end
  end.
Proof.
  intros H1 H2 P1 P2. unfold generate.
  rewrite H1, H2, (strptime_not_empty _ _ P1), (strptime_not_empty _ _ P2).
  cbn [orb]. change (default "" (Some s1)) with s1. change (default "" (Some s2)) with s2.
  rewrite P1, P2. cbv zeta.
  destruct (readings_in_period _ sd ed db) as [|r rs]; [reflexivity|].
  unfold update_or_create, aggregate, fresh_defaults.
  cbn [st_total_energy st_avg_power st_peak_power st_total_cost st_count].
  destruct (summaries db !! _); reflexivity.
Qed.

Lemma readings_in_period_nil (user sd ed : Z) (db : DB) :
  (forall r, In r (readings db) -> ~ in_period user sd ed r) ->
  readings_in_period user sd ed db = [].
Proof.
  intros Hnone.
  destruct (readings_in_period user sd ed db) as [|r rs] eqn:E; [reflexivity|].
  assert (Hr : In r (readings_in_period user sd ed db)) by (rewrite E; now left).
  apply In_readings_in_period in Hr. destruct Hr as [Hin Hp].
  now destruct (Hnone r Hin).
Qed.


(** ** C4: no readings, no summary *)

(** C4.  When none of the user's readings falls in the range of dates,
    [generate] answers 404 "No readings found for this period" and
    returns the database it was given: no summary row is created or
    updated. *)
Theorem generate_without_readings_writes_nothing
    (request : GenerateRequest) (now : Z) (db : DB)
    (s1 s2 : string) (sd ed : Z) :
  g_start_date request = Some s1 -> g_end_date request = Some s2 ->
  Dates.strptime s1 = Some sd -> Dates.strptime s2 = Some ed ->
  (forall r, In r (readings db) ->
             ~ in_period (User.id (g_user request)) sd ed r) ->
  generate request now db =
    (Err HTTP_404_NOT_FOUND "No readings found for this period", db).
Proof.
  intros H1 H2 P1 P2 Hnone.
  rewrite (generate_parsed request now db s1 s2 sd ed H1 H2 P1 P2). cbv zeta.
  now rewrite readings_in_period_nil.
Qed.

(** C4 on the sample meter, whose readings are of 2024-01-01, asked for
    February 2024. *)
Lemma generate_without_readings_writes_nothing_witness :
  generate (sample_generate "2024-02-01" "2024-02-29") sample_now sample_metered_db =
    (Err HTTP_404_NOT_FOUND "No readings found for this period", sample_metered_db).
Proof.
  apply (generate_without_readings_writes_nothing
           (sample_generate "2024-02-01" "2024-02-29") sample_now sample_metered_db
           "2024-02-01" "2024-02-29" 738917 738945);
    try reflexivity.
  intros r [<-|[<-|[]]] [_ [Hlo _]]; vm_compute in Hlo; now apply Hlo.
Defined.

(** ** C5: a range whose start is after its end *)

(** C5 as stated fails: asked for 2024-01-10 to 2024-01-01, [generate]
    does not answer with a validation error (status 400); its answer is
    the 404 of an empty period. *)
Lemma reversed_range_is_not_a_validation_error :
  fst (generate (sample_generate "2024-01-10" "2024-01-01")
                sample_now sample_metered_db)
    = Err HTTP_404_NOT_FOUND "No readings found for this period"
  /\ ~ (exists error : string,
          fst (generate (sample_generate "2024-01-10" "2024-01-01")
                        sample_now sample_metered_db)
            = Err HTTP_400_BAD_REQUEST error).
Proof.
  split; [reflexivity|].
  intros [error H]. vm_compute in H. discriminate H.
Qed.

(** C5, amended.  When the start date is after the end date no reading
    can match, so [generate] answers 404 "No readings found for this
    period" (not a validation error) and returns the database it was
    given: no summary row is created or updated. *)
Theorem generate_reversed_range_not_found
    (request : GenerateRequest) (now : Z) (db : DB)
    (s1 s2 : string) (sd ed : Z) :
  g_start_date request = Some s1 -> g_end_date request = Some s2 ->
  Dates.strptime s1 = Some sd -> Dates.strptime s2 = Some ed ->
  ed < sd ->
  generate request now db =
    (Err HTTP_404_NOT_FOUND "No readings found for this period", db).
Proof.
  intros H1 H2 P1 P2 Hlt.
  rewrite (generate_parsed request now db s1 s2 sd ed H1 H2 P1 P2). cbv zeta.
  rewrite readings_in_period_nil; [reflexivity|].
  intros r _ [_ Hrange]. lia.
Qed.

Lemma generate_reversed_range_not_found_witness :
  generate (sample_generate "2024-01-10" "2024-01-01") sample_now sample_metered_db =
    (Err HTTP_404_NOT_FOUND "No readings found for this period", sample_metered_db).
Proof.
  apply (generate_reversed_range_not_found
           (sample_generate "2024-01-10" "2024-01-01") sample_now sample_metered_db
           "2024-01-10" "2024-01-01" 738895 738886);
    reflexivity.
Defined.

(** ** Malformed dates *)

(** For a request whose dates are strings or absent, [generate] answers
    400 in two cases and in no other: 'start_date and end_date are
    required' when a date is absent or empty, and 'Invalid date format.
    Use YYYY-MM-DD' when both are given and one of them is not a date as
    [strptime] reads the format; in both the database is the one given. *)
Theorem generate_rejects_malformed_dates
    (request : GenerateRequest) (now : Z) (db : DB) :
  let '(response, db') := generate request now db in
  if not_str (g_start_date request) || not_str (g_end_date request) then
    response = Err HTTP_400_BAD_REQUEST "start_date and end_date are required"
    /\ db' = db
  else
    match Dates.strptime (default "" (g_start_date request)),
          Dates.strptime (default "" (g_end_date request)) with
    | Some _, Some _ =>
        forall error : string, response <> Err HTTP_400_BAD_REQUEST error
    | _, _ =>
        response = Err HTTP_400_BAD_REQUEST "Invalid date format. Use YYYY-MM-DD"
        /\ db' = db
    end.
Proof.
  unfold generate.
  destruct (not_str (g_start_date request) || not_str (g_end_date request));
    [now split|].
  destruct (Dates.strptime (default "" (g_start_date request))) as [sd|];
    [|now split].
  destruct (Dates.strptime (default "" (g_end_date request))) as [ed|];
    [|now split].
  destruct (readings_in_period _ sd ed db) as [|r rs]; [intros error; discriminate|].
  destruct (update_or_create _ _ _ _ _ _) as [[summary created] db'].
  intros error. discriminate.
Qed.

(** A date left out, a date in another format, and dates whose year is
    written in Arabic-Indic digits: in the first position of the year
    and wherever the pattern has [\d] they are read as digits
    (2024-01-15), in the month they are not. *)
Example generate_on_malformed_dates :
  let arabic_indic_2024 :=
    string_of_list_ascii
      (map ascii_of_nat [217; 162; 217; 160; 217; 162; 217; 164])%nat in
  let arabic_indic_5 := string_of_list_ascii (map ascii_of_nat [217; 165])%nat in
  let arabic_indic_01 :=
    string_of_list_ascii (map ascii_of_nat [217; 160; 217; 161])%nat in
  generate {| g_user := sample_user; g_period_type := None;
              g_start_date := Some "2024-01-01"; g_end_date := None |}
           sample_now sample_metered_db =
    (Err HTTP_400_BAD_REQUEST "start_date and end_date are required",
     sample_metered_db)
  /\ generate (sample_generate "2024-01-01" "01/31/2024")
              sample_now sample_metered_db =
       (Err HTTP_400_BAD_REQUEST "Invalid date format. Use YYYY-MM-DD",
        sample_metered_db)
  /\ Dates.strptime (arabic_indic_2024 +:+ "-01-1" +:+ arabic_indic_5)
     = Dates.strptime "2024-01-15"
  /\ Dates.strptime ("2024-" +:+ arabic_indic_01 +:+ "-01") = None.
Proof. vm_compute. repeat split. Qed.

(** ** C3: recomputing a summary *)



(** The statistics of the sample meter and the row that keeps them; and
    a mean that the column cannot hold: readings of 0.100, 0.200 and
    0.400 kW have the mean 7/30, stored as 0.233. *)
Example sample_summary_statistics :
  let d := fresh_defaults 738886 (readings_in_period 1 738886 738886 sample_metered_db) in
  d_total_energy_kwh d = Dec 8 (-3)
  /\ d_average_power_kw d = (1 # 250)%Q
  /\ d_peak_power_kw d = Dec 4 (-3)
  /\ d_total_cost d = Dec 16 (-2)
  /\ d_reading_count d = 2
  /\ (d_average_power_kw (stored_values d) == 4 # 1000)%Q
  /\ (quantize_Q 3 (Q_or_0 (Avg [Dec 100 (-3); Dec 200 (-3); Dec 400 (-3)]))
      == 233 # 1000)%Q.
Proof. vm_compute. repeat split. Qed.

(** ** C8: the chart of the last 24 hours *)

Lemma group_by_hour_step_lookup (hourly_data : gmap Z (list float))
    (reading : EnergyReading.t) (h : Z) :
  group_by_hour_step hourly_data reading !! h =
  if decide (Dates.hour (EnergyReading.timestamp reading) = h)
  then Some (default [] (hourly_data !! h)
             ++ [PyFloat.of_decimal (EnergyReading.energy_kwh reading)])
  else hourly_data !! h.
Proof.
  unfold group_by_hour_step.
  set (k := Dates.hour (EnergyReading.timestamp reading)).
  destruct (decide (k = h)) as [->|Hne].
  - destruct (hourly_data !! h) eqn:E.
    + now rewrite lookup_alter_eq, E.
    + now rewrite lookup_alter_eq, lookup_insert_eq.
  - destruct (hourly_data !! k) eqn:E.
    + now rewrite lookup_alter_ne.
    + now rewrite lookup_alter_ne, lookup_insert_ne.
Qed.

Lemma hour_bucket_cons (h : Z) (r : EnergyReading.t) (rs : list EnergyReading.t) :
  hour_bucket h (r :: rs) =
  if decide (Dates.hour (EnergyReading.timestamp r) = h)
  then PyFloat.of_decimal (EnergyReading.energy_kwh r) :: hour_bucket h rs
  else hour_bucket h rs.
Proof.
  unfold hour_bucket. cbn [List.filter].
  destruct (Z.eqb_spec (Dates.hour (EnergyReading.timestamp r)) h);
    destruct (decide _); try contradiction; reflexivity.
Qed.

(** The dictionary the loop builds holds, under each hour, the floats
    of that hour's readings, in the order they were met. *)
Lemma group_by_hour_lookup (rs : list EnergyReading.t)
    (hourly_data : gmap Z (list float)) (h : Z) :
  fold_left group_by_hour_step rs hourly_data !! h =
  match hour_bucket h rs with
  | [] => hourly_data !! h
  | xs => Some (default [] (hourly_data !! h) ++ xs)
  end.
Proof.
  revert hourly_data.
  induction rs as [|r rs IH]; intros hourly_data; [reflexivity|].
  cbn [fold_left]. rewrite IH, group_by_hour_step_lookup, hour_bucket_cons.
  destruct (decide _) as [Heq|Hne].
  - cbn [default from_option id].
    destruct (hour_bucket h rs); [reflexivity|].
    now rewrite <- app_assoc.
  - reflexivity.
Qed.

Lemma bucket_sum_grouped (rs : list EnergyReading.t) (h : Z) :
  bucket_sum (fold_left group_by_hour_step rs ∅) h =
  match hour_bucket h rs with
  | [] => PrimFloat.zero
  | xs => PyFloat.sum xs
  end.
Proof.
  unfold bucket_sum. rewrite group_by_hour_lookup, lookup_empty.
  destruct (hour_bucket h rs); reflexivity.
Qed.

Lemma round2_zero : PyFloat.round2 PrimFloat.zero = PrimFloat.zero.
Proof. reflexivity. Qed.

Lemma In_readings_get_queryset (x : EnergyReading.t)
    (request : ReadingsRequest) (db : DB) :
  In x (readings_get_queryset request db)
  <-> In x (readings db)
      /\ EnergyReading.user x = User.id (rq_user request)
      /\ match rq_start_date request with
         | Some start_date => start_date <= Dates.date (EnergyReading.timestamp x)
         | None => True
         end
      /\ match rq_end_date request with
         | Some end_date => Dates.date (EnergyReading.timestamp x) <= end_date
         | None => True
         end.
Proof.
  unfold readings_get_queryset.
  destruct (rq_start_date request), (rq_end_date request);
    rewrite ?filter_In, In_order_by_timestamp_desc, ?Z.eqb_eq, ?Z.leb_le; tauto.
Qed.

(** C8 as stated fails: for the sample meter (0.004 kWh at 01:00 and at
    02:00, asked at 03:00 the same day) every one of the 24 values is 0,
    each bucket having been rounded to two decimals, while the energy of
    the last 24 hours is 0.008 kWh. *)
Lemma chart_day_sum_is_not_the_total :
  let out := chart_data_day sample_chart_request sample_now sample_metered_db in
  let trailing :=
    List.filter
      (fun r => (EnergyReading.user r =? 1)
                && (sample_now - Dates.hours 24 <=? EnergyReading.timestamp r)
                && (EnergyReading.timestamp r <=? sample_now))
      (readings sample_metered_db) in
  data out = repeat PrimFloat.zero 24
  /\ (Qsum (map (fun r => Decimal.val (EnergyReading.energy_kwh r)) trailing)
      == 8 # 1000)%Q
  /\ ~ (Qsum (map PyFloat.val (data out))
        == Qsum (map (fun r => Decimal.val (EnergyReading.energy_kwh r)) trailing))%Q.
Proof.
  cbv zeta. split; [vm_compute; reflexivity|].
  split; [vm_compute; reflexivity|].
  vm_compute. discriminate.
Qed.

(** C8, amended.  For every user and every [now], the day chart has
    exactly 24 points labelled "00:00" to "23:00" by hour of the day.
    The value of an hour is 0 when none of the user's readings with a
    timestamp from [now - 24h] onwards (and passing the request's date
    filters, if any) falls in that hour of the day; otherwise it is the
    float sum of the energies of those readings rounded to two decimals.
    (The sum of the 24 values is therefore a sum of rounded bucket
    totals, over readings that have no upper bound on their timestamp.) *)
Theorem chart_day_has_24_rounded_hour_buckets
    (request : ReadingsRequest) (now : Z) (db : DB) :
  let out := chart_data_day request now db in
  let recent :=
    List.filter (fun r => now - Dates.hours 24 <=? EnergyReading.timestamp r)
                (readings_get_queryset request db) in
  labels out =
    ["00:00"; "01:00"; "02:00"; "03:00"; "04:00"; "05:00"; "06:00"; "07:00";
     "08:00"; "09:00"; "10:00"; "11:00"; "12:00"; "13:00"; "14:00"; "15:00";
     "16:00"; "17:00"; "18:00"; "19:00"; "20:00"; "21:00"; "22:00"; "23:00"]
  /\ length (data out) = 24%nat
  /\ data out =
     map (fun h : nat =>
            match hour_bucket (Z.of_nat h) recent with
            | [] => PrimFloat.zero
            | xs => PyFloat.round2 (PyFloat.sum xs)
            end)
         (seq 0 24)
  /\ (forall r : EnergyReading.t,
        In r recent
        <-> In r (readings db)
            /\ EnergyReading.user r = User.id (rq_user request)
            /\ now - Dates.hours 24 <= EnergyReading.timestamp r
            /\ match rq_start_date request with
               | Some start_date =>
                   start_date <= Dates.date (EnergyReading.timestamp r)
               | None => True
               end
            /\ match rq_end_date request with
               | Some end_date =>
                   Dates.date (EnergyReading.timestamp r) <= end_date
               | None => True
               end).
Proof.
  cbv zeta. unfold chart_data_day. cbn [labels data].
  split; [reflexivity|].
  split; [now rewrite !length_map|].
  split.
  - rewrite map_map. apply map_ext. intros h.
    rewrite bucket_sum_grouped.
    destruct (hour_bucket _ _); [apply round2_zero | reflexivity].
  - intros r. rewrite filter_In, In_readings_get_queryset, Z.leb_le. tauto.
Qed.

(** ** Payments: what lies around the credit *)

Lemma users_check_balance_alerts p u created db :
  users (check_balance_alerts p u created db) = users db.
Proof. rewrite check_balance_alerts_spec. now destruct (balance_qualifies p u). Qed.

Lemma notifications_check_balance_alerts_other p u created db :
  String.eqb (Payment.status p) "success" = false ->
  notifications (check_balance_alerts p u created db) = notifications db.
Proof. intros H. now rewrite check_balance_alerts_other_status. Qed.

Lemma Payment_save_status p u token db :
  Payment.status (fst (Payment_save p u token db)) = Payment.status p.
Proof.
  unfold Payment_save.
  destruct (String.eqb (Payment.reference p) ""); cbn [Payment.set_reference Payment.id];
    destruct (Payment.id p); reflexivity.
Qed.

Lemma Payment_save_amount p u token db :
  Payment.amount (fst (Payment_save p u token db)) = Payment.amount p.
Proof.
  unfold Payment_save.
  destruct (String.eqb (Payment.reference p) ""); cbn [Payment.set_reference Payment.id];
    destruct (Payment.id p); reflexivity.
Qed.

Lemma Payment_save_users p u token db :
  users (snd (Payment_save p u token db)) = users db.
Proof.
  unfold Payment_save.
  destruct (Payment.id _); cbn [snd]; now rewrite users_check_balance_alerts.
Qed.

Lemma Payment_save_frame p u token db :
  let db' := snd (Payment_save p u token db) in
  readings db' = readings db /\ summaries db' = summaries db.
Proof.
  unfold Payment_save.
  destruct (Payment.id _); cbn [snd]; rewrite check_balance_alerts_spec;
    destruct (balance_qualifies _ _); split; reflexivity.
Qed.

Lemma Payment_save_other_status p u token db :
  String.eqb (Payment.status p) "success" = false ->
  notifications (snd (Payment_save p u token db)) = notifications db.
Proof.
  intros H. unfold Payment_save.
  destruct (String.eqb (Payment.reference p) "");
    cbn [Payment.set_reference Payment.id];
    destruct (Payment.id p); cbn [snd];
    now rewrite notifications_check_balance_alerts_other.
Qed.

(** The effect of [mark_as_success] on a payment that is not yet a
    success: the users table gets the credit on the row of the user
    object, and the payment ends as a success. *)
Lemma mark_as_success_open p u token now db :
  String.eqb (Payment.status p) "success" = false ->
  let '(p', u', db') := mark_as_success p u token now db in
  Payment.status p' = "success"
  /\ Payment.amount p' = Payment.amount p
  /\ u' = User.set_balance (Decimal.add (User.balance u) (Payment.amount p)) u
  /\ users db' =
     alter (User.set_balance (Decimal.add (User.balance u) (Payment.amount p)))
           (User.id u) (users db).
Proof.
  intros Hst. unfold mark_as_success. rewrite Hst. cbn [negb].
  set (q := Payment.set_completed_at now (Payment.set_status "success" p)).
  pose proof (Payment_save_status q u token db) as Hs.
  pose proof (Payment_save_amount q u token db) as Ha.
  pose proof (Payment_save_users q u token db) as Hu.
  destruct (Payment_save q u token db) as [q' db1]. cbn [fst snd] in *.
  unfold update_balance. cbn [users set_users Notification_create
    set_notifications User.balance User.set_balance User.id].
  rewrite Hs, Ha, Hu. repeat split.
Qed.

(** A payment is credited once: [mark_as_success] on the payment and
    the user object that a first [mark_as_success] returned changes
    nothing, neither the payment, nor the balance, nor any table. *)
Theorem mark_as_success_credits_once
    (p : Payment.t) (u : User.t) (token token' : string) (now now' : Z) (db : DB) :
  let '(p1, u1, db1) := mark_as_success p u token now db in
  Payment.status p1 = "success"
  /\ mark_as_success p1 u1 token' now' db1 = (p1, u1, db1).
Proof.
  destruct (String.eqb (Payment.status p) "success") eqn:Hst.
  - unfold mark_as_success at 1. rewrite Hst. cbn [negb].
    split; [now apply String.eqb_eq|].
    unfold mark_as_success. now rewrite Hst.
  - pose proof (mark_as_success_open p u token now db Hst) as H.
    destruct (mark_as_success p u token now db) as [[p1 u1] db1].
    destruct H as (Hs & _). split; [exact Hs|].
    unfold mark_as_success. now rewrite Hs.
Qed.

(** [cancel] answers 400 and changes nothing unless the payment is
    pending or processing; then the payment is stored with status
    'cancelled'.  Either way no balance and no notification changes. *)
Theorem payment_cancel_effect
    (p : Payment.t) (u : User.t) (token : string) (db : DB) :
  let '(response, db') := payment_cancel p u token db in
  users db' = users db
  /\ notifications db' = notifications db
  /\ readings db' = readings db
  /\ summaries db' = summaries db
  /\ (if status_in (Payment.status p) ["pending"; "processing"]
      then exists p' : Payment.t,
             response = Ok HTTP_200_OK p'
             /\ Payment.status p' = "cancelled"
             /\ Payment.amount p' = Payment.amount p
             /\ match Payment.id p with
                | Some i => payments db' !! i = Some p'
                | None => payments db' !! (payment_seq db + 1) = Some p'
                end
      else response =
             Err HTTP_400_BAD_REQUEST
                 "Only pending or processing payments can be cancelled"
           /\ db' = db).
Proof.
  unfold payment_cancel.
  destruct (status_in (Payment.status p) ["pending"; "processing"]); cbn [negb].
  - set (q := Payment.set_status "cancelled" p).
    pose proof (Payment_save_status q u token db) as Hs.
    pose proof (Payment_save_amount q u token db) as Ha.
    pose proof (Payment_save_users q u token db) as Hu.
    pose proof (Payment_save_frame q u token db) as [Hr Hm].
    pose proof (Payment_save_other_status q u token db eq_refl) as Hn.
    assert (Hrow : match Payment.id p with
                   | Some i => payments (snd (Payment_save q u token db)) !! i
                               = Some (fst (Payment_save q u token db))
                   | None => payments (snd (Payment_save q u token db))
                               !! (payment_seq db + 1)
                             = Some (fst (Payment_save q u token db))
                   end).
    { unfold Payment_save.
      destruct (String.eqb (Payment.reference q) "");
        cbn [Payment.set_reference Payment.id q Payment.set_status];
        destruct (Payment.id p); cbn [fst snd];
        rewrite check_balance_alerts_other_status by reflexivity;
        apply lookup_insert_eq. }
    destruct (Payment_save q u token db) as [q' db1]. cbn [fst snd] in *.
    repeat split; auto. exists q'. repeat split; auto.
  - repeat split.
Qed.

Lemma payment_method_run_validation_Valid (m m' : string) :
  payment_method_run_validation m = Valid m' -> m' = m.
Proof.
  unfold payment_method_run_validation.
  destruct (existsb _ _); [|discriminate]. now intros [= <-].
Qed.

(** A payment made through [create] has been marked a success before
    the response is sent, so a later [cancel] of it is always refused;
    and [create] does answer with a payment for every amount above 0
    and up to 1000 that is written with at most two decimal places, for
    a payment method of the model. *)
Theorem created_payment_cannot_be_cancelled
    (request : PaymentRequest) (db : DB) (u : User.t) (token : string) :
  (forall (status_code : Z) (payment : Payment.t) (db' : DB),
     payment_create request db = (Accepted status_code payment, db') ->
     Payment.status payment = "success"
     /\ payment_cancel payment u token db' =
          (Err HTTP_400_BAD_REQUEST
               "Only pending or processing payments can be cancelled", db'))
  /\ ((0 < Decimal.val (pr_amount request))%Q ->
      (Decimal.val (pr_amount request) <= 1000)%Q ->
      -2 <= Decimal.expo (pr_amount request) ->
      In (pr_payment_method request) PAYMENT_METHOD_CHOICES ->
      exists (payment : Payment.t) (db' : DB),
        payment_create request db = (Accepted HTTP_201_CREATED payment, db')).
Proof.
  split.
  - intros status_code payment db' Hrun.
    destruct (amount_run_validation (pr_amount request)) as [amount|detail] eqn:Hv.
    + destruct (payment_method_run_validation (pr_payment_method request))
        as [m|detail] eqn:Hm.
      * pose proof (payment_method_run_validation_Valid _ _ Hm) as ->.
        destruct (payment_create_accepted request db amount Hv Hm)
          as (db1 & Hrun1 & _).
        rewrite Hrun1 in Hrun. injection Hrun as <- <- <-.
        split; reflexivity.
      * unfold payment_create in Hrun. rewrite Hv, Hm in Hrun. discriminate.
    + rewrite (payment_create_refused request db detail Hv) in Hrun. discriminate.
  - intros Hpos Hmax He Hm.
    destruct (payment_create_accepted request db _
                (amount_accepted _ Hpos Hmax He) (payment_method_valid _ Hm))
      as (db' & Hrun & _).
    eexists _, db'. exact Hrun.
Qed.

Lemma created_payment_cannot_be_cancelled_witness :
  exists (payment : Payment.t) (db' : DB),
    payment_create (sample_payment (Dec 2500 (-2))) sample_db
      = (Accepted HTTP_201_CREATED payment, db')
    /\ Payment.status payment = "success"
    /\ payment_cancel payment sample_user "FFFFFFFFFF" db' =
         (Err HTTP_400_BAD_REQUEST
              "Only pending or processing payments can be cancelled", db').
Proof.
  destruct (created_payment_cannot_be_cancelled
              (sample_payment (Dec 2500 (-2))) sample_db sample_user "FFFFFFFFFF")
    as [Hcancel Hcreate].
  eexists _, _. split; [reflexivity|].
  apply (Hcancel HTTP_201_CREATED). reflexivity.
Defined.

(** [validate_amount] lets an amount through, unchanged, exactly when it
    is more than 0 and at most 1000. *)
Theorem validate_amount_accepts_exactly (v w : Decimal) :
  validate_amount v = Valid w
  <-> w = v /\ (0 < Decimal.val v)%Q /\ (Decimal.val v <= 1000)%Q.
Proof.
  split.
  - intros H.
    destruct (Qlt_le_dec 0 (Decimal.val v)) as [Hpos|Hle].
    + destruct (Qlt_le_dec 1000 (Decimal.val v)) as [Hgt|Hmax].
      * rewrite validate_amount_too_large in H by exact Hgt. discriminate.
      * rewrite validate_amount_accepted in H by assumption.
        injection H as <-. auto.
    + rewrite validate_amount_nonpositive in H by exact Hle. discriminate.
  - intros (-> & Hpos & Hmax). now apply validate_amount_accepted.
Qed.

(** ** Payments: the pages of the history *)

Lemma queryset_slice_nonneg {A : Type} (qs : list A) (start stop : Z) :
  0 <= start -> 0 <= stop ->
  queryset_slice qs start stop
  = Some (take (Z.to_nat (stop - start)) (drop (Z.to_nat start) qs)).
Proof.
  intros H1 H2. unfold queryset_slice.
  destruct (Z.ltb_spec start 0); [lia|].
  destruct (Z.ltb_spec stop 0); [lia|]. reflexivity.
Qed.

(** With a positive page size, page [page >= 1] holds the rows that
    follow those of the pages before it, at most [page_size] of them:
    put in front of everything after the page they give everything after
    the previous page.  [next] is absent exactly when nothing follows the
    page, [previous] exactly on page 1, and [count] is the size of the
    whole queryset. *)
Theorem history_pages_tile_the_queryset
    (queryset : list Payment.t) (page_size page : Z) :
  0 < page_size -> 1 <= page ->
  exists pg : HistoryPage,
    payment_history queryset page_size page = Some pg
    /\ h_results pg ++ drop (Z.to_nat (page * page_size)) queryset
       = drop (Z.to_nat ((page - 1) * page_size)) queryset
    /\ Z.of_nat (length (h_results pg)) <= page_size
    /\ h_count pg = Z.of_nat (length queryset)
    /\ (h_next pg = None <-> drop (Z.to_nat (page * page_size)) queryset = [])
    /\ (h_next pg = None \/ h_next pg = Some (page + 1))
    /\ (h_previous pg = None <-> page = 1)
    /\ (h_previous pg = None \/ h_previous pg = Some (page - 1)).
Proof.
  intros Hps Hpage. unfold payment_history.
  rewrite queryset_slice_nonneg by nia.
  replace ((page - 1) * page_size + page_size - (page - 1) * page_size)
    with page_size by lia.
  replace ((page - 1) * page_size + page_size) with (page * page_size) by lia.
  eexists. split; [reflexivity|]. cbn [h_results h_count h_next h_previous].
  set (s := Z.to_nat ((page - 1) * page_size)).
  assert (Hend : Z.to_nat (page * page_size) = (s + Z.to_nat page_size)%nat).
  { unfold s. rewrite <- Z2Nat.inj_add by nia. f_equal. lia. }
  repeat split.
  - rewrite Hend, <- drop_drop. apply take_drop.
  - rewrite length_take. lia.
  - destruct (Z.ltb_spec (page * page_size) (Z.of_nat (length queryset)));
      [discriminate|].
    intros _. apply drop_ge. lia.
  - intros Hnil.
    destruct (Z.ltb_spec (page * page_size) (Z.of_nat (length queryset)));
      [|reflexivity].
    apply (f_equal length) in Hnil. rewrite length_drop in Hnil. cbn in Hnil. lia.
  - destruct (_ <? _); auto.
  - destruct (Z.ltb_spec 1 page); [discriminate | lia].
  - intros ->. reflexivity.
  - destruct (_ <? _); auto.
Qed.

Lemma history_pages_tile_the_queryset_witness :
  exists pg : HistoryPage,
    payment_history sample_open_payments 2 2 = Some pg
    /\ h_results pg ++ drop (Z.to_nat (2 * 2)) sample_open_payments
       = drop (Z.to_nat ((2 - 1) * 2)) sample_open_payments
    /\ Z.of_nat (length (h_results pg)) <= 2
    /\ h_count pg = Z.of_nat (length sample_open_payments)
    /\ (h_next pg = None <-> drop (Z.to_nat (2 * 2)) sample_open_payments = [])
    /\ (h_next pg = None \/ h_next pg = Some (2 + 1))
    /\ (h_previous pg = None <-> 2 = 1)
    /\ (h_previous pg = None \/ h_previous pg = Some (2 - 1)).
Proof.
  apply (history_pages_tile_the_queryset sample_open_payments 2 2); lia.
Defined.

(** A page number below 1 with a positive page size makes the slice
    start at a negative index, which the queryset refuses. *)
Example history_page_zero_is_refused :
  payment_history sample_open_payments 10 0 = None.
Proof. reflexivity. Qed.

(** ** Payments: the admin action *)

Lemma open_status_not_success (st : string) :
  status_in st ["pending"; "processing"] = true -> String.eqb st "success" = false.
Proof.
  unfold status_in. cbn [existsb]. rewrite orb_false_r, orb_true_iff.
  intros [H|H]; apply String.eqb_eq in H; subst st; reflexivity.
Qed.

Lemma admin_mark_as_success_fold
    (token : string) (now_at : nat -> Z) (l : list (Payment.t * User.t)) :
  List.Forall (fun row => is_open (fst row) = true) l ->
  forall (count : nat) (db : DB),
    exists db' : DB,
      fold_left (admin_mark_as_success_step token now_at) l (count, db)
        = ((count + length l)%nat, db')
      /\ users db' = fold_left write_credit l (users db).
Proof.
  induction 1 as [|[p u] l Hopen _ IH]; intros count db.
  - exists db. cbn. now rewrite Nat.add_0_r.
  - cbn [fold_left admin_mark_as_success_step].
    pose proof (mark_as_success_open p u token (now_at count) db
                  (open_status_not_success _ Hopen)) as Hm.
    destruct (mark_as_success p u token (now_at count) db) as [[p1 u1] db1].
    destruct Hm as (_ & _ & _ & Husers).
    destruct (IH (S count) db1) as (db' & Hrun & Hfold).
    exists db'. split.
    + rewrite Hrun. f_equal. cbn [length]. lia.
    + rewrite Hfold, Husers. reflexivity.
Qed.

Lemma set_balance_set_balance (b b' : Decimal) (u : User.t) :
  User.set_balance b (User.set_balance b' u) = User.set_balance b u.
Proof. reflexivity. Qed.

(** After the credits of [l], a row is the row of before with the
    balance of the last credit written to it. *)
Lemma fold_write_credit_lookup (l : list (Payment.t * User.t))
    (m : gmap Z User.t) (uid : Z) :
  fold_left write_credit l m !! uid =
  (fun r =>
     match last (List.filter (fun row => User.id (snd row) =? uid) l) with
     | Some row =>
         User.set_balance
           (Decimal.add (User.balance (snd row)) (Payment.amount (fst row))) r
     | None => r
     end) <$> m !! uid.
Proof.
  induction l as [|row l IH] using rev_ind.
  - cbn. now destruct (m !! uid).
  - rewrite fold_left_app. cbn [fold_left]. unfold write_credit at 1.
    rewrite List.filter_app. cbn [List.filter].
    destruct (Z.eqb_spec (User.id (snd row)) uid) as [->|Hne].
    + rewrite lookup_alter_eq, IH, last_snoc.
      destruct (m !! uid) as [r|]; [|reflexivity]. cbn.
      destruct (last _) as [row'|]; reflexivity.
    + rewrite lookup_alter_ne by exact Hne. rewrite IH, app_nil_r. reflexivity.
Qed.

Lemma select_related_cons (p : Payment.t) (l : list Payment.t) (db : DB) :
  select_related (p :: l) db =
  match users db !! Payment.user p with
  | Some u => (p, u) :: select_related l db
  | None => select_related l db
  end.
Proof. unfold select_related. cbn. now destruct (users db !! Payment.user p). Qed.

Lemma select_related_open (queryset : list Payment.t) (db : DB) :
  List.Forall (fun row => is_open (fst row) = true)
    (select_related (List.filter is_open queryset) db).
Proof.
  induction queryset as [|p l IH]; [constructor|].
  cbn [List.filter]. destruct (is_open p) eqn:Hp; [|exact IH].
  rewrite select_related_cons.
  destruct (users db !! Payment.user p) as [u|]; [|exact IH].
  constructor; [exact Hp | exact IH].
Qed.

(** The rows of a stored user among those fetched: the user's open
    payments, each with the user's row. *)
Lemma select_related_of_user (queryset : list Payment.t) (db : DB)
    (uid : Z) (u : User.t) :
  users_keyed db -> users db !! uid = Some u ->
  List.filter (fun row => User.id (snd row) =? uid)
              (select_related (List.filter is_open queryset) db)
  = map (fun p => (p, u))
        (List.filter (fun p => is_open p && (Payment.user p =? uid)) queryset).
Proof.
  intros Hk Hu.
  induction queryset as [|p l IH]; [reflexivity|].
  cbn [List.filter]. destruct (is_open p) eqn:Hp; cbn [andb]; [|exact IH].
  rewrite select_related_cons.
  destruct (users db !! Payment.user p) as [v|] eqn:Hv.
  - pose proof (Hk _ _ Hv) as Hid. cbn [List.filter snd]. rewrite Hid.
    destruct (Z.eqb_spec (Payment.user p) uid) as [E|E].
    + rewrite E in Hv. rewrite Hu in Hv. injection Hv as <-.
      cbn [map]. f_equal. exact IH.
    + exact IH.
  - destruct (Z.eqb_spec (Payment.user p) uid) as [E|E]; [|exact IH].
    rewrite E, Hu in Hv. discriminate.
Qed.

(** The admin action handles the selected payments that are pending or
    processing and whose user is stored; the count it reports is their
    number.  Every payment was fetched with its user before the first
    was handled, so each credit is written as that balance plus the
    amount of the payment: a user's row ends with the balance it had
    plus the amount of the last of the user's open payments only, the
    credits written before it being overwritten.  The rows of users
    without an open payment in the selection are unchanged. *)
Theorem admin_mark_as_success_keeps_the_last_credit
    (queryset : list Payment.t) (token : string) (now_at : nat -> Z) (db : DB) :
  users_keyed db ->
  let '(count, db') := admin_mark_as_success queryset token now_at db in
  count = length (select_related (List.filter is_open queryset) db)
  /\ (List.Forall (fun p => is_Some (users db !! Payment.user p)) queryset ->
      count = length (List.filter is_open queryset))
  /\ forall uid : Z,
       users db' !! uid
       = credited_with (last_open_payment uid queryset) <$> users db !! uid.
Proof.
  intros Hk. unfold admin_mark_as_success.
  destruct (admin_mark_as_success_fold token now_at _
              (select_related_open queryset db) O db) as (db' & Hrun & Husers).
  rewrite Hrun. cbn [Nat.add]. split; [reflexivity|]. split.
  - intros Hall. clear Hrun Husers.
    induction queryset as [|p l IH]; [reflexivity|].
    apply List.Forall_cons_iff in Hall. destruct Hall as [[u Hu] Hall].
    cbn [List.filter]. destruct (is_open p); [|now apply IH].
    rewrite select_related_cons, Hu. cbn [length]. f_equal. now apply IH.
  - intros uid. rewrite Husers, fold_write_credit_lookup.
    destruct (users db !! uid) as [u|] eqn:Hu; [|reflexivity]. cbn. f_equal.
    rewrite (select_related_of_user queryset db uid u Hk Hu).
    unfold last_open_payment, credited_with.
    rewrite fmap_last.
    destruct (last _) as [p|]; reflexivity.
Qed.

Lemma sample_db_keyed : users_keyed sample_db.
Proof.
  intros k u. unfold sample_db; cbn [users].
  destruct (decide (k = 1)) as [->|Hne].
  - rewrite lookup_singleton_eq. now intros [= <-].
  - rewrite lookup_singleton_ne by congruence. discriminate.
Qed.

(** On the sample selection: 25.00 pending, 10.50 already a success,
    1.00 processing.  Two payments are handled, and the balance goes
    from 5.00 to 6.00: the credit of 25.00 is lost. *)
Lemma admin_mark_as_success_keeps_the_last_credit_witness :
  let '(count, db') :=
    admin_mark_as_success sample_open_payments "0123456789"
                          (fun k => sample_now + Z.of_nat k) sample_db in
  count = length (select_related (List.filter is_open sample_open_payments) sample_db)
  /\ (List.Forall (fun p => is_Some (users sample_db !! Payment.user p))
                  sample_open_payments ->
      count = length (List.filter is_open sample_open_payments))
  /\ forall uid : Z,
       users db' !! uid
       = credited_with (last_open_payment uid sample_open_payments)
           <$> users sample_db !! uid.
Proof.
  apply (admin_mark_as_success_keeps_the_last_credit
           sample_open_payments "0123456789"
           (fun k => sample_now + Z.of_nat k) sample_db).
  exact sample_db_keyed.
Defined.

Example admin_mark_as_success_on_sample :
  (fun '(count, db') => (count, User.balance <$> users db' !! 1))
    (admin_mark_as_success sample_open_payments "0123456789"
                           (fun k => sample_now + Z.of_nat k) sample_db)
  = (2%nat, Some (Dec 600 (-2)))
  /\ Decimal.add (Decimal.add (User.balance sample_user) (Dec 2500 (-2)))
                 (Dec 100 (-2))
     = Dec 3100 (-2).
Proof. vm_compute. split; reflexivity. Qed.

(** ** Notifications: marking as read and clearing *)

Lemma filter_insert_by_created_at_length (f : NotificationRow.t -> bool)
    (x : NotificationRow.t) (l : list NotificationRow.t) :
  length (List.filter f (insert_by_created_at x l))
  = length (List.filter f (x :: l)).
Proof.
  induction l as [|y l IH]; [reflexivity|].
  cbn [insert_by_created_at]. destruct (_ <=? _); [reflexivity|].
  cbn [List.filter] in *. destruct (f y), (f x); cbn [length] in *; lia.
Qed.

Lemma filter_order_by_created_at_length (f : NotificationRow.t -> bool)
    (l : list NotificationRow.t) :
  length (List.filter f (order_by_created_at_desc l)) = length (List.filter f l).
Proof.
  unfold order_by_created_at_desc.
  induction l as [|x l IH]; [reflexivity|].
  cbn [fold_right]. rewrite filter_insert_by_created_at_length.
  cbn [List.filter]. destruct (f x); cbn [length]; now rewrite IH.
Qed.

Lemma In_insert_by_created_at (x r : NotificationRow.t) (rs : list NotificationRow.t) :
  In x (insert_by_created_at r rs) <-> x = r \/ In x rs.
Proof.
  induction rs as [|y rs IH]; cbn.
  - intuition.
  - destruct (_ <=? _); cbn; rewrite ?IH; intuition.
Qed.

Lemma In_order_by_created_at_desc (x : NotificationRow.t) (rs : list NotificationRow.t) :
  In x (order_by_created_at_desc rs) <-> In x rs.
Proof.
  unfold order_by_created_at_desc.
  induction rs as [|y rs IH]; cbn; [tauto|].
  rewrite In_insert_by_created_at, IH. intuition.
Qed.

Lemma filter_filter_andb {A : Type} (f g : A -> bool) (l : list A) :
  List.filter g (List.filter f l) = List.filter (fun x => f x && g x) l.
Proof.
  induction l as [|x l IH]; [reflexivity|].
  cbn [List.filter]. destruct (f x); cbn [List.filter andb];
    [destruct (g x)|]; now rewrite IH.
Qed.

Lemma In_notifications_unread request table r :
  In r (notifications_unread request table)
  <-> In r table
      /\ in_queryset request r && negb (NotificationRow.is_read r) = true.
Proof.
  unfold notifications_unread, notifications_get_queryset.
  rewrite filter_filter_andb, filter_In, In_order_by_created_at_desc. tauto.
Qed.

Lemma mark_row_mark_row (t t' : Z) (r : NotificationRow.t) :
  mark_row t' (mark_row t r) = mark_row t' r.
Proof. reflexivity. Qed.

Lemma pk_mark_row (t : Z) (r : NotificationRow.t) :
  NotificationRow.pk (mark_row t r) = NotificationRow.pk r.
Proof. reflexivity. Qed.

Lemma mark_all_read_fold (now_at : nat -> Z) (table : list NotificationRow.t)
    (l : list NotificationRow.t) :
  List.Forall (fun s => NotificationRow.is_read s = false) l ->
  forall (count : nat) (current done : list NotificationRow.t),
    List.Forall2 (marked_by now_at done) table current ->
    let '(count', table') :=
      fold_left
        (fun '(count, table) notification =>
           (S count, snd (mark_as_read notification (now_at count) table)))
        l (count, current) in
    count' = (count + length l)%nat
    /\ List.Forall2 (marked_by now_at (done ++ l)) table table'.
Proof.
  induction 1 as [|s l Hs _ IH]; intros count current done Hinv.
  - cbn. rewrite Nat.add_0_r, app_nil_r. auto.
  - cbn [fold_left]. unfold mark_as_read at 2. rewrite Hs. cbn [negb snd].
    specialize (IH (S count)
      (map (fun r => if decide (NotificationRow.pk r = NotificationRow.pk s)
                     then mark_row (now_at count) r else r) current)
      (done ++ [s])).
    rewrite <- app_assoc in IH. cbn [app] in IH.
    destruct (fold_left _ l _) as [count' table'].
    destruct IH as [Hc Hinv'].
    + clear -Hinv. induction Hinv as [|r r' T C Hr _ IHf]; cbn [map]; constructor;
        [|exact IHf].
      unfold marked_by in *. rewrite !map_app, !in_app_iff. cbn [map In].
      destruct Hr as [[Hin [k ->]]|[Hnin ->]].
      * left. split; [tauto|]. rewrite pk_mark_row.
        destruct (decide _); eauto.
      * destruct (decide (NotificationRow.pk r = NotificationRow.pk s)) as [E|E].
        -- left. split; [right; left; congruence | eauto].
        -- right. split; [|reflexivity]. intros [?|[?|[]]]; [tauto|congruence].
    + split; [cbn [length]; lia | exact Hinv'].
Qed.

Lemma Forall2_refl_marked (now_at : nat -> Z) (table : list NotificationRow.t) :
  List.Forall2 (marked_by now_at []) table table.
Proof.
  induction table; constructor; auto. right. split; [intros []|reflexivity].
Qed.


Lemma Forall2_impl_In {A B : Type} (R R' : A -> B -> Prop) (l : list A)
    (l' : list B) :
  (forall x y, In x l -> R x y -> R' x y) ->
  List.Forall2 R l l' -> List.Forall2 R' l l'.
Proof.
  intros H Hf. induction Hf as [|a b l l' Hab _ IH]; constructor.
  - apply H; [now left | exact Hab].
  - apply IH. intros x y Hx. apply H. now right.
Qed.

Lemma pk_injective_on (table : list NotificationRow.t) (r s : NotificationRow.t) :
  List.NoDup (map NotificationRow.pk table) ->
  In r table -> In s table -> NotificationRow.pk r = NotificationRow.pk s -> r = s.
Proof.
  induction table as [|x l IH]; intros Hnd Hr Hs E; [destruct Hr|].
  cbn [map] in Hnd. apply List.NoDup_cons_iff in Hnd. destruct Hnd as [Hx Hnd].
  destruct Hr as [<-|Hr], Hs as [<-|Hs]; auto.
  - destruct Hx. rewrite E. now apply in_map.
  - destruct Hx. rewrite <- E. now apply in_map.
Qed.

(** What [mark_all_read] does to each row of a table with distinct
    primary keys. *)
Lemma mark_all_read_rows
    (request : NotificationsRequest) (now_at : nat -> Z)
    (table : list NotificationRow.t) :
  List.NoDup (map NotificationRow.pk table) ->
  let '(count, table') := mark_all_read request now_at table in
  count = length (List.filter (selected_unread request) table)
  /\ List.Forall2
       (fun r r' =>
          if selected_unread request r
          then exists k : nat, r' = mark_row (now_at k) r
          else r' = r)
       table table'.
Proof.
  intros Hnd. unfold mark_all_read.
  pose proof (mark_all_read_fold now_at table (notifications_unread request table))
    as Hfold.
  assert (Hunread : List.Forall (fun s => NotificationRow.is_read s = false)
                      (notifications_unread request table)).
  { apply List.Forall_forall. intros s Hs.
    apply In_notifications_unread in Hs. destruct Hs as [_ Hs].
    apply andb_true_iff in Hs. destruct Hs as [_ Hs].
    now apply negb_true_iff. }
  specialize (Hfold Hunread O table [] (Forall2_refl_marked now_at table)).
  destruct (fold_left _ _ _) as [count table'].
  destruct Hfold as [Hcount Hinv]. cbn [app] in Hinv.
  assert (Hchar : List.Forall2
            (fun r r' =>
               if selected_unread request r
               then exists k : nat, r' = mark_row (now_at k) r
               else r' = r)
            table table').
  { refine (Forall2_impl_In _ _ _ _ _ Hinv). intros r r' Hr Hm.
    unfold selected_unread.
    destruct (in_queryset request r && negb (NotificationRow.is_read r)) eqn:Hsel.
    - destruct Hm as [[_ Hk]|[Hnin _]]; [exact Hk|].
      destruct Hnin. apply in_map. apply In_notifications_unread. auto.
    - destruct Hm as [[Hin _]|[_ ->]]; [|reflexivity].
      apply in_map_iff in Hin. destruct Hin as (s & Hpk & Hs).
      apply In_notifications_unread in Hs. destruct Hs as [Hs Hsel'].
      assert (s = r) by (eapply pk_injective_on; eauto). subst s. congruence. }
  split; [|exact Hchar].
  rewrite Hcount. cbn. unfold notifications_unread, notifications_get_queryset.
  rewrite filter_filter_andb. apply filter_order_by_created_at_length.
Qed.



Example mark_all_read_on_sample :
  let '(count, table') :=
    mark_all_read (all_of 1) (fun k => sample_now + Z.of_nat k) sample_inbox in
  count = 1%nat
  /\ map (fun r => (NotificationRow.pk r, NotificationRow.is_read r,
                    NotificationRow.read_at r)) table'
     = [(1, true, Some 1704070800000000); (2, true, Some sample_now);
        (3, false, None)].
Proof. vm_compute. split; reflexivity. Qed.

(** The filter [is_read] accepts 'true', '1' and 'yes' in any case;
    asked for the read rows only, [mark_all_read] finds nothing to do. *)
Example mark_all_read_of_the_read_rows :
  mark_all_read {| nq_user := 1; nq_is_read := Some "TRUE"; nq_type := None |}
                (fun k => sample_now + Z.of_nat k) sample_inbox
  = (O, sample_inbox).
Proof. reflexivity. Qed.


(** Marking everything read and then clearing, both without filters,
    empties the user's inbox: what is left of a table with distinct
    primary keys is the rows of the other users, untouched and in their
    order, and the second count is the number of rows the user had. *)
Theorem mark_all_read_then_clear_all_empties_the_inbox
    (user : Z) (now_at : nat -> Z) (table : list NotificationRow.t) :
  List.NoDup (map NotificationRow.pk table) ->
  let '(_, table1) := mark_all_read (all_of user) now_at table in
  let '(count, table2) := clear_all (all_of user) table1 in
  table2 = List.filter
             (fun r => negb (Notification.user (NotificationRow.fields r) =? user))
             table
  /\ count = length (List.filter
                       (fun r => Notification.user (NotificationRow.fields r) =? user)
                       table)
  /\ notifications_get_queryset (all_of user) table2 = [].
Proof.
  intros Hnd.
  pose proof (mark_all_read_rows (all_of user) now_at table Hnd) as H.
  destruct (mark_all_read (all_of user) now_at table) as [c1 table1].
  destruct H as (_ & Hchar).
  unfold clear_all.
  assert (Hq : forall r, in_queryset (all_of user) r
                         = (Notification.user (NotificationRow.fields r) =? user)).
  { intros r. unfold in_queryset, all_of. cbn. now rewrite !andb_true_r. }
  assert (Hboth :
    List.filter (fun r => negb (in_queryset (all_of user) r
                                && NotificationRow.is_read r)) table1
    = List.filter
        (fun r => negb (Notification.user (NotificationRow.fields r) =? user)) table
    /\ length (List.filter
                 (fun r => in_queryset (all_of user) r && NotificationRow.is_read r)
                 table1)
       = length (List.filter
                   (fun r => Notification.user (NotificationRow.fields r) =? user)
                   table)).
  { clear Hnd. induction Hchar as [|r r' l l' Hr _ [IH1 IH2]]; [split; reflexivity|].
    cbn [List.filter]. unfold selected_unread in Hr. rewrite Hq in Hr.
    rewrite (Hq r').
    destruct (Notification.user (NotificationRow.fields r) =? user) eqn:Hu.
    - assert (Hu' : (Notification.user (NotificationRow.fields r') =? user) = true
                    /\ NotificationRow.is_read r' = true).
      { cbn [andb] in Hr. destruct (NotificationRow.is_read r) eqn:Hread;
          cbn [negb] in Hr.
        - subst r'. auto.
        - destruct Hr as [k ->]. split; [exact Hu | reflexivity]. }
      destruct Hu' as [-> ->]. cbn [andb negb length]. split; [exact IH1 | now rewrite IH2].
    - cbn [andb] in Hr. subst r'. rewrite Hu. cbn [andb negb].
      split; [now rewrite IH1 | exact IH2]. }
  destruct Hboth as [H1 H2]. repeat split; auto.
  rewrite H1. unfold notifications_get_queryset.
  destruct (List.filter (in_queryset (all_of user)) _) as [|r l] eqn:E; [reflexivity|].
  assert (Hr : In r (r :: l)) by now left.
  rewrite <- E in Hr.
  rewrite filter_In, In_order_by_created_at_desc, filter_In, Hq in Hr.
  destruct Hr as [[_ Hn] Hy]. rewrite Hy in Hn. discriminate.
Qed.

Lemma mark_all_read_then_clear_all_empties_the_inbox_witness :
  let '(_, table1) :=
    mark_all_read (all_of 1) (fun k => sample_now + Z.of_nat k) sample_inbox in
  let '(count, table2) := clear_all (all_of 1) table1 in
  table2 = List.filter
             (fun r => negb (Notification.user (NotificationRow.fields r) =? 1))
             sample_inbox
  /\ count = length (List.filter
                       (fun r => Notification.user (NotificationRow.fields r) =? 1)
                       sample_inbox)
  /\ notifications_get_queryset (all_of 1) table2 = [].
Proof.
  apply (mark_all_read_then_clear_all_empties_the_inbox
           1 (fun k => sample_now + Z.of_nat k) sample_inbox).
  cbn. repeat constructor; cbn; intuition discriminate.
Defined.

(** ** Payment methods: one default per user *)

Lemma filter_map_same {A : Type} (P : A -> bool) (f : A -> A) (l : list A) :
  (forall r, P (f r) = P r /\ (P r = true -> f r = r)) ->
  List.filter P (map f l) = List.filter P l.
Proof.
  intros H. induction l as [|r l IH]; [reflexivity|].
  cbn [map List.filter]. destruct (H r) as [H1 H2]. rewrite H1.
  destruct (P r); [rewrite H2 by reflexivity|]; now rewrite IH.
Qed.

Lemma filter_map_le {A : Type} (P : A -> bool) (g : A -> A) (l : list A) :
  (forall r, P (g r) = true -> P r = true) ->
  (length (List.filter P (map g l)) <= length (List.filter P l))%nat.
Proof.
  intros H. induction l as [|r l IH]; [reflexivity|].
  cbn [map List.filter]. specialize (H r).
  destruct (P (g r)); [rewrite H by reflexivity|destruct (P r)]; cbn [length]; lia.
Qed.

Lemma clear_other_defaults_ids self rows :
  map PaymentMethod.id (clear_other_defaults self rows) = map PaymentMethod.id rows.
Proof.
  unfold clear_other_defaults. destruct (PaymentMethod.is_default self); [|reflexivity].
  rewrite map_map. apply map_ext. intros r. now destruct (_ && _).
Qed.

Lemma clear_other_defaults_other_user self rows v :
  v <> PaymentMethod.user self ->
  defaults_of v (clear_other_defaults self rows) = defaults_of v rows.
Proof.
  intros Hv. unfold clear_other_defaults, defaults_of.
  destruct (PaymentMethod.is_default self); [|reflexivity].
  apply filter_map_same. intros r.
  destruct (Z.eqb_spec (PaymentMethod.user r) (PaymentMethod.user self)) as [E|E];
    cbn [andb]; [|auto].
  destruct (PaymentMethod.is_default r && not_self self r) eqn:Hc.
  - cbn [PaymentMethod.user PaymentMethod.set_is_default PaymentMethod.is_default].
    destruct (Z.eqb_spec (PaymentMethod.user r) v); [congruence|].
    cbn. split; [reflexivity | discriminate].
  - destruct (PaymentMethod.is_default r); cbn in Hc; rewrite ?Hc; auto.
Qed.

Lemma clear_other_defaults_le self rows v :
  (length (defaults_of v (clear_other_defaults self rows))
   <= length (defaults_of v rows))%nat.
Proof.
  unfold clear_other_defaults, defaults_of.
  destruct (PaymentMethod.is_default self); [|reflexivity].
  apply filter_map_le. intros r. destruct (_ && _ && _); [|auto].
  cbn. rewrite andb_false_r. discriminate.
Qed.

Lemma clear_other_defaults_own_user self rows r :
  PaymentMethod.is_default self = true ->
  In r (clear_other_defaults self rows) ->
  (PaymentMethod.user r =? PaymentMethod.user self) && PaymentMethod.is_default r
    = true ->
  not_self self r = false.
Proof.
  intros Hd Hin Hp. unfold clear_other_defaults in Hin. rewrite Hd in Hin.
  apply in_map_iff in Hin. destruct Hin as (r0 & Hr & _).
  destruct ((PaymentMethod.user r0 =? PaymentMethod.user self)
            && PaymentMethod.is_default r0 && not_self self r0) eqn:Hc.
  - subst r. cbn in Hp. rewrite andb_false_r in Hp. discriminate.
  - subst r0. rewrite Hp in Hc. exact Hc.
Qed.

Lemma has_method_ids i rows rows' :
  map PaymentMethod.id rows = map PaymentMethod.id rows' ->
  has_method i rows = has_method i rows'.
Proof.
  unfold has_method. revert rows'.
  induction rows as [|r l IH]; intros [|r' l'] E; try discriminate; [reflexivity|].
  cbn in E. injection E as E1 E2. cbn [existsb]. rewrite E1. f_equal. now apply IH.
Qed.

Lemma one_row_with_key (i : Z) (rows : list PaymentMethod.t) :
  List.NoDup (map PaymentMethod.id rows) ->
  has_method i rows = true ->
  length (List.filter (fun r => bool_decide (PaymentMethod.id r = Some i)) rows)
  = 1%nat.
Proof.
  induction rows as [|r l IH]; intros Hnd Hhas; [discriminate|].
  cbn [map] in Hnd. apply List.NoDup_cons_iff in Hnd. destruct Hnd as [Hr Hnd].
  unfold has_method in Hhas. cbn [existsb List.filter] in *.
  destruct (bool_decide (PaymentMethod.id r = Some i)) eqn:E.
  - apply bool_decide_eq_true in E. cbn [length]. f_equal.
    destruct (List.filter _ l) as [|x xs] eqn:F; [reflexivity|].
    assert (Hx : In x (x :: xs)) by now left.
    rewrite <- F in Hx. apply filter_In in Hx. destruct Hx as [Hx Hid].
    apply bool_decide_eq_true in Hid. destruct Hr. rewrite E, <- Hid.
    now apply in_map.
  - cbn [orb] in Hhas. now apply IH.
Qed.

Lemma defaults_of_app v l l' :
  defaults_of v (l ++ l') = defaults_of v l ++ defaults_of v l'.
Proof. unfold defaults_of. apply List.filter_app. Qed.

Lemma defaults_after_write self i rows :
  PaymentMethod.id self = Some i ->
  PaymentMethod.is_default self = true ->
  (forall r, In r rows ->
     (PaymentMethod.user r =? PaymentMethod.user self) && PaymentMethod.is_default r
       = true ->
     PaymentMethod.id r = Some i) ->
  defaults_of (PaymentMethod.user self)
    (map (fun r => if decide (PaymentMethod.id r = Some i) then self else r) rows)
  = map (fun _ => self)
        (List.filter (fun r => bool_decide (PaymentMethod.id r = Some i)) rows).
Proof.
  intros Hid Hd Hown. unfold defaults_of.
  induction rows as [|r l IH]; [reflexivity|].
  cbn [map List.filter].
  assert (IH' := IH (fun x Hx => Hown x (or_intror Hx))). clear IH.
  destruct (decide (PaymentMethod.id r = Some i)) as [E|E].
  - rewrite (bool_decide_eq_true_2 _ E), Z.eqb_refl, Hd. cbn [andb map].
    now rewrite IH'.
  - rewrite (bool_decide_eq_false_2 _ E).
    destruct ((PaymentMethod.user r =? PaymentMethod.user self)
              && PaymentMethod.is_default r) eqn:Hp; [|exact IH'].
    destruct E. apply Hown; [now left | exact Hp].
Qed.

Lemma write_back_default_is_the_only_one self i rows :
  PaymentMethod.id self = Some i ->
  PaymentMethod.is_default self = true ->
  List.NoDup (map PaymentMethod.id rows) ->
  has_method i rows = true ->
  defaults_of (PaymentMethod.user self)
    (map (fun r => if decide (PaymentMethod.id r = Some i) then self else r)
         (clear_other_defaults self rows))
  = [self].
Proof.
  intros Hid Hd Hnd Hhas.
  pose proof (clear_other_defaults_ids self rows) as Hids.
  rewrite (defaults_after_write self i _ Hid Hd).
  - pose proof (one_row_with_key i (clear_other_defaults self rows)) as H1.
    rewrite Hids in H1. specialize (H1 Hnd).
    rewrite (has_method_ids i _ rows Hids) in H1. specialize (H1 Hhas).
    destruct (List.filter _ (clear_other_defaults self rows)) as [|x [|y l]];
      try discriminate.
    reflexivity.
  - intros r Hr Hp.
    pose proof (clear_other_defaults_own_user self rows r Hd Hr Hp) as Hns.
    unfold not_self in Hns. rewrite Hid in Hns.
    apply negb_false_iff, bool_decide_eq_true in Hns. exact Hns.
Qed.

Lemma write_back_same_defaults v self i rows :
  (forall r, In r rows -> PaymentMethod.id r = Some i ->
     (PaymentMethod.user r =? v) && PaymentMethod.is_default r = false) ->
  (PaymentMethod.user self =? v) && PaymentMethod.is_default self = false ->
  defaults_of v
    (map (fun r => if decide (PaymentMethod.id r = Some i) then self else r) rows)
  = defaults_of v rows.
Proof.
  intros Hrow Hself. unfold defaults_of.
  induction rows as [|r l IH]; [reflexivity|].
  cbn [map List.filter].
  rewrite (IH (fun x Hx => Hrow x (or_intror Hx))).
  destruct (decide (PaymentMethod.id r = Some i)) as [E|E]; [|reflexivity].
  now rewrite Hself, (Hrow r (or_introl eq_refl) E).
Qed.

Lemma write_back_ids self i rows :
  PaymentMethod.id self = Some i ->
  map PaymentMethod.id
    (map (fun r => if decide (PaymentMethod.id r = Some i) then self else r) rows)
  = map PaymentMethod.id rows.
Proof.
  intros Hid. rewrite map_map. apply map_ext. intros r.
  destruct (decide _) as [E|E]; congruence.
Qed.

Lemma method_id_injective_on (rows : list PaymentMethod.t) (r s : PaymentMethod.t) :
  List.NoDup (map PaymentMethod.id rows) ->
  In r rows -> In s rows -> PaymentMethod.id r = PaymentMethod.id s -> r = s.
Proof.
  induction rows as [|x l IH]; intros Hnd Hr Hs E; [destruct Hr|].
  cbn [map] in Hnd. apply List.NoDup_cons_iff in Hnd. destruct Hnd as [Hx Hnd].
  destruct Hr as [<-|Hr], Hs as [<-|Hs]; auto.
  - destruct Hx. rewrite E. now apply in_map.
  - destruct Hx. rewrite <- E. now apply in_map.
Qed.

Lemma In_clear_other_defaults self rows r :
  In r (clear_other_defaults self rows) ->
  exists r0, In r0 rows
             /\ PaymentMethod.id r0 = PaymentMethod.id r
             /\ PaymentMethod.user r0 = PaymentMethod.user r.
Proof.
  unfold clear_other_defaults.
  destruct (PaymentMethod.is_default self); [|now exists r].
  intros Hin. apply in_map_iff in Hin. destruct Hin as (r0 & E & Hr0).
  exists r0. split; [exact Hr0|]. subst r. now destruct (_ && _ && _).
Qed.

Lemma stored_method_has_key pm table :
  methods_keyed table -> In pm (methods table) ->
  exists i, PaymentMethod.id pm = Some i /\ has_method i (methods table) = true.
Proof.
  intros [_ Hkeys] Hin. rewrite List.Forall_forall in Hkeys.
  destruct (Hkeys _ (in_map PaymentMethod.id _ _ Hin)) as (i & E & _).
  exists i. split; [exact E|].
  unfold has_method. apply existsb_exists. exists pm. split; [exact Hin|].
  now apply bool_decide_eq_true.
Qed.

Lemma sample_methods_keyed : methods_keyed sample_methods.
Proof.
  split; cbn.
  - repeat constructor; cbn; intuition discriminate.
  - repeat constructor; eexists; (split; [reflexivity | lia]).
Qed.

Lemma sample_methods_one_default_each : one_default_each sample_methods.
Proof.
  intros v. unfold defaults_of, sample_methods.
  cbn [methods List.filter PaymentMethod.user PaymentMethod.is_default andb].
  destruct (Z.eqb_spec 1 v), (Z.eqb_spec 2 v); cbn; lia.
Qed.

(** [PaymentMethod_save] keeps the table well keyed and keeps every
    user at one default method at most; and when the method saved is a
    default, it is, once saved, the one default of its user. *)
Theorem PaymentMethod_save_keeps_one_default
    (self : PaymentMethod.t) (table : MethodTable) :
  methods_keyed table -> one_default_each table -> saveable self table ->
  let '(self', table') := PaymentMethod_save self table in
  methods_keyed table'
  /\ one_default_each table'
  /\ In self' (methods table')
  /\ (if PaymentMethod.is_default self
      then defaults_of (PaymentMethod.user self) (methods table') = [self']
      else True).
Proof.
  intros [Hnd Hkeys] Hone Hsave. unfold PaymentMethod_save.
  set (C := clear_other_defaults self (methods table)).
  assert (Hids : map PaymentMethod.id C = map PaymentMethod.id (methods table))
    by apply clear_other_defaults_ids.
  assert (HleC : forall v, (length (defaults_of v C) <= 1)%nat).
  { intros v. etransitivity; [apply clear_other_defaults_le | apply Hone]. }
  unfold saveable in Hsave.
  destruct (PaymentMethod.id self) as [i|] eqn:Hid.
  - (* the row of [self] is written back *)
    rewrite (has_method_ids i C (methods table) Hids), Hsave.
    set (g := fun r => if decide (PaymentMethod.id r = Some i) then self else r).
    assert (Hg : map PaymentMethod.id (map g C) = map PaymentMethod.id C)
      by now apply write_back_ids.
    assert (Hin : In self (map g C)).
    { rewrite <- (has_method_ids i C (methods table) Hids) in Hsave.
      unfold has_method in Hsave. apply existsb_exists in Hsave.
      destruct Hsave as (r & Hr & E). apply bool_decide_eq_true in E.
      apply in_map_iff. exists r. split; [|exact Hr].
      unfold g. now rewrite decide_True. }
    assert (Hother : forall v,
              (PaymentMethod.user self =? v) && PaymentMethod.is_default self = false ->
              (length (defaults_of v (map g C)) <= 1)%nat).
    { intros v Hv. etransitivity; [|apply (HleC v)].
      unfold defaults_of. apply filter_map_le. intros r. unfold g.
      destruct (decide _); [|auto]. rewrite Hv. discriminate. }
    assert (Hown : PaymentMethod.is_default self = true ->
                   defaults_of (PaymentMethod.user self) (map g C) = [self]).
    { intros Hd. unfold g, C.
      now apply write_back_default_is_the_only_one. }
    unfold methods_keyed, one_default_each. cbn [methods method_seq].
    repeat split.
    + rewrite Hg, Hids. exact Hnd.
    + rewrite Hg, Hids. exact Hkeys.
    + intros v.
      destruct ((PaymentMethod.user self =? v) && PaymentMethod.is_default self)
        eqn:Hv; [|now apply Hother].
      apply andb_true_iff in Hv. destruct Hv as [Hv Hd].
      apply Z.eqb_eq in Hv. subst v. now rewrite Hown.
    + exact Hin.
    + destruct (PaymentMethod.is_default self) eqn:Hd; [now apply Hown | exact I].
  - (* a new row *)
    unfold methods_keyed, one_default_each. cbn [methods method_seq].
    assert (Hfresh : ~ In (Some (method_seq table + 1))
                       (map PaymentMethod.id (methods table))).
    { intros Hin. rewrite List.Forall_forall in Hkeys.
      destruct (Hkeys _ Hin) as (j & E & Hj). injection E as <-. lia. }
    assert (Hnone : PaymentMethod.is_default self = true ->
                    defaults_of (PaymentMethod.user self) C = []).
    { intros Hd. destruct (defaults_of _ C) as [|r l] eqn:E; [reflexivity|].
      assert (Hr : In r (r :: l)) by now left.
      rewrite <- E in Hr. apply filter_In in Hr. destruct Hr as [Hr Hp].
      pose proof (clear_other_defaults_own_user self (methods table) r Hd Hr Hp)
        as Hns.
      unfold not_self in Hns. rewrite Hid in Hns. discriminate. }
    repeat split.
    + rewrite map_app, Hids. cbn [map PaymentMethod.id PaymentMethod.set_id].
      apply List.NoDup_app; [exact Hnd | |].
      * constructor; [intros [] | constructor].
      * intros x Hx [<-|[]]. contradiction.
    + rewrite map_app, Hids. apply List.Forall_app. split.
      * eapply List.Forall_impl; [|exact Hkeys].
        cbn. intros key (j & E & Hj). exists j. split; [exact E | lia].
      * constructor; [|constructor]. eexists. split; [reflexivity | lia].
    + intros v. rewrite defaults_of_app, length_app.
      unfold defaults_of at 2. cbn [List.filter PaymentMethod.user
        PaymentMethod.is_default PaymentMethod.set_id].
      destruct ((PaymentMethod.user self =? v) && PaymentMethod.is_default self)
        eqn:Hv; cbn [length].
      * apply andb_true_iff in Hv. destruct Hv as [Hv Hd].
        apply Z.eqb_eq in Hv. subst v. now rewrite Hnone.
      * specialize (HleC v). lia.
    + apply in_or_app. right. now left.
    + destruct (PaymentMethod.is_default self) eqn:Hd; [|exact I].
      rewrite defaults_of_app, (Hnone eq_refl). unfold defaults_of.
      cbn [List.filter PaymentMethod.user PaymentMethod.is_default
        PaymentMethod.set_id app]. now rewrite Z.eqb_refl, Hd.
Qed.

Lemma PaymentMethod_save_keeps_one_default_witness :
  let self := PaymentMethod.Build (Some 2) 1 "card" true true in
  let '(self', table') := PaymentMethod_save self sample_methods in
  methods_keyed table'
  /\ one_default_each table'
  /\ In self' (methods table')
  /\ defaults_of 1 (methods table') = [self'].
Proof.
  apply (PaymentMethod_save_keeps_one_default
           (PaymentMethod.Build (Some 2) 1 "card" true true) sample_methods).
  - exact sample_methods_keyed.
  - exact sample_methods_one_default_each.
  - reflexivity.
Defined.

(** [PaymentMethodViewSet.set_default] on a stored method of a well
    keyed table: the answer is 200 with the method as a default; the
    method is afterwards the one default of its user, whatever that
    user's defaults were before; the defaults of every other user are
    those of before; and no row is created or deleted. *)
Theorem set_default_makes_it_the_only_default
    (payment_method : PaymentMethod.t) (table : MethodTable) :
  methods_keyed table -> In payment_method (methods table) ->
  let '(response, table') := payment_method_set_default payment_method table in
  let chosen := PaymentMethod.set_is_default true payment_method in
  response = Ok HTTP_200_OK chosen
  /\ defaults_of (PaymentMethod.user payment_method) (methods table') = [chosen]
  /\ (forall v, v <> PaymentMethod.user payment_method ->
        defaults_of v (methods table') = defaults_of v (methods table))
  /\ map PaymentMethod.id (methods table') = map PaymentMethod.id (methods table)
  /\ method_seq table' = method_seq table.
Proof.
  intros Hk Hin.
  destruct (stored_method_has_key _ _ Hk Hin) as (i & Hid & Hhas).
  destruct Hk as [Hnd _].
  unfold payment_method_set_default, PaymentMethod_save.
  set (self := PaymentMethod.set_is_default true payment_method).
  assert (Hid' : PaymentMethod.id self = Some i) by exact Hid.
  pose proof (clear_other_defaults_ids self (methods table)) as Hids.
  rewrite Hid', (has_method_ids i _ (methods table) Hids), Hhas.
  cbn [methods method_seq]. repeat split.
  - now apply (write_back_default_is_the_only_one self i).
  - intros v Hv. rewrite write_back_same_defaults.
    + now apply clear_other_defaults_other_user.
    + intros r Hr E.
      destruct (In_clear_other_defaults _ _ _ Hr) as (r0 & Hr0 & E1 & E2).
      assert (r0 = payment_method).
      { apply (method_id_injective_on (methods table)); auto. congruence. }
      subst r0. rewrite <- E2.
      destruct (Z.eqb_spec (PaymentMethod.user payment_method) v); [congruence|].
      reflexivity.
    + cbn. destruct (Z.eqb_spec (PaymentMethod.user payment_method) v);
        [congruence | reflexivity].
  - now rewrite write_back_ids.
Qed.

Lemma set_default_makes_it_the_only_default_witness :
  let card := PaymentMethod.Build (Some 2) 1 "card" false true in
  let '(response, table') := payment_method_set_default card sample_methods in
  let chosen := PaymentMethod.set_is_default true card in
  response = Ok HTTP_200_OK chosen
  /\ defaults_of 1 (methods table') = [chosen]
  /\ (forall v, v <> 1 ->
        defaults_of v (methods table') = defaults_of v (methods sample_methods))
  /\ map PaymentMethod.id (methods table')
     = map PaymentMethod.id (methods sample_methods)
  /\ method_seq table' = method_seq sample_methods.
Proof.
  apply (set_default_makes_it_the_only_default
           (PaymentMethod.Build (Some 2) 1 "card" false true) sample_methods).
  - exact sample_methods_keyed.
  - cbn. auto.
Defined.

(** [PaymentMethodViewSet.deactivate] on a stored method of a well keyed
    table.  A default method is refused with 400 and the table is left
    as it was.  Any other method is answered 200; afterwards every
    user's defaults are those of before, and the active methods are
    those of before without the one deactivated. *)
Theorem deactivate_spares_the_defaults
    (payment_method : PaymentMethod.t) (table : MethodTable) :
  methods_keyed table -> In payment_method (methods table) ->
  let '(response, table') := payment_method_deactivate payment_method table in
  if PaymentMethod.is_default payment_method then
    response
    = Err HTTP_400_BAD_REQUEST
        "Cannot deactivate default payment method. Set another as default first."
    /\ table' = table
  else
    response = Ok HTTP_200_OK "Payment method deactivated successfully"
    /\ (forall v, defaults_of v (methods table') = defaults_of v (methods table))
    /\ List.filter PaymentMethod.is_active (methods table')
       = List.filter
           (fun r => PaymentMethod.is_active r
                     && negb (bool_decide
                                (PaymentMethod.id r = PaymentMethod.id payment_method)))
           (methods table).
Proof.
  intros Hk Hin.
  destruct (stored_method_has_key _ _ Hk Hin) as (i & Hid & Hhas).
  destruct Hk as [Hnd _].
  unfold payment_method_deactivate.
  destruct (PaymentMethod.is_default payment_method) eqn:Hd; [now split|].
  unfold PaymentMethod_save, clear_other_defaults.
  cbn [PaymentMethod.is_default PaymentMethod.set_is_active PaymentMethod.id].
  rewrite Hd, Hid, Hhas. cbn [methods]. repeat split.
  - intros v. apply write_back_same_defaults.
    + intros r Hr E.
      assert (r = payment_method).
      { apply (method_id_injective_on (methods table)); auto. congruence. }
      subst r. rewrite Hd. apply andb_false_r.
    + cbn. rewrite Hd. apply andb_false_r.
  - clear Hin Hnd Hhas. induction (methods table) as [|r l IH]; [reflexivity|].
    cbn [map List.filter]. rewrite IH.
    destruct (decide (PaymentMethod.id r = Some i)) as [E|E].
    + rewrite (bool_decide_eq_true_2 _ E). cbn. now rewrite andb_false_r.
    + rewrite (bool_decide_eq_false_2 _ E). cbn. now rewrite andb_true_r.
Qed.

Lemma deactivate_spares_the_defaults_witness :
  let card := PaymentMethod.Build (Some 2) 1 "card" false true in
  let '(response, table') := payment_method_deactivate card sample_methods in
  response = Ok HTTP_200_OK "Payment method deactivated successfully"
  /\ (forall v, defaults_of v (methods table')
                = defaults_of v (methods sample_methods))
  /\ List.filter PaymentMethod.is_active (methods table')
     = List.filter
         (fun r => PaymentMethod.is_active r
                   && negb (bool_decide (PaymentMethod.id r = Some 2)))
         (methods sample_methods).
Proof.
  apply (deactivate_spares_the_defaults
           (PaymentMethod.Build (Some 2) 1 "card" false true) sample_methods).
  - exact sample_methods_keyed.
  - cbn. auto.
Defined.

(** ** The latest reading *)

Example calendar_examples :
  Calendar.ord2ymd 738886 = (2024, 1, 1)
  /\ Calendar.ord2ymd 738885 = (2023, 12, 31)
  /\ Calendar.ord2ymd 738945 = (2024, 2, 29)
  /\ Calendar.ord2ymd 730180 = (2000, 3, 1)
  /\ Calendar.strftime_a 738886 = "Mon"
  /\ Calendar.strftime_a 719163 = "Thu"
  /\ Calendar.strftime_md 738945 = "02/29".
Proof. vm_compute. repeat split. Qed.

(** From 1970-01-01 to 2099-12-31, the year, month and day printed for a
    day are those of the date with its ordinal. *)
Lemma calendar_round_trip_1970_2099 :
  days_round_trip (Z.to_nat 47482) Dates.epoch_ordinal = true.
Proof. vm_compute. reflexivity. Qed.






(** ** The charts of the last 7 and 30 days *)








(** [chart_data] answers 400 'Invalid period' exactly when the request
    names a period other than 'day', 'week' and 'month' (the empty one
    included); a request without a period gets the day chart.  Every
    chart it answers has as many labels as values: 24, 7 or 30. *)
Theorem chart_data_periods
    (period : option string) (request : ReadingsRequest) (now : Z) (db : DB) :
  match chart_data period request now db with
  | Ok status_code out =>
      status_code = HTTP_200_OK
      /\ length (labels out) = length (data out)
      /\ ((period = None \/ period = Some "day")
            /\ out = chart_data_day request now db
            /\ length (data out) = 24%nat
          \/ period = Some "week"
             /\ out = chart_data_week request now db
             /\ length (data out) = 7%nat
          \/ period = Some "month"
             /\ out = chart_data_month request now db
             /\ length (data out) = 30%nat)
  | Err status_code error =>
      status_code = HTTP_400_BAD_REQUEST
      /\ error = "Invalid period"
      /\ ~ In period [None; Some "day"; Some "week"; Some "month"]
  end.
Proof.
  assert (Hday : length (data (chart_data_day request now db)) = 24%nat)
    by (cbn [chart_data_day chart_data_week chart_data_month data];
        now rewrite !length_map).
  assert (Hweek : length (data (chart_data_week request now db)) = 7%nat)
    by (cbn [chart_data_day chart_data_week chart_data_month data];
        now rewrite !length_map).
  assert (Hmonth : length (data (chart_data_month request now db)) = 30%nat)
    by (cbn [chart_data_day chart_data_week chart_data_month data];
        now rewrite !length_map).
  unfold chart_data.
  destruct (String.eqb_spec (default "day" period) "day") as [Ed|Ed].
  { split; [reflexivity|]. split; [cbn [chart_data_day chart_data_week chart_data_month data labels];
             now rewrite !length_map|].
    left. split; [|now split].
    destruct period as [p|]; [right; cbn in Ed; now subst | now left]. }
  destruct (String.eqb_spec (default "day" period) "week") as [Ew|Ew].
  { split; [reflexivity|]. split; [cbn [chart_data_day chart_data_week chart_data_month data labels];
             now rewrite !length_map|].
    right. left. destruct period as [p|]; [|discriminate].
    cbn in Ew. subst p. now repeat split. }
  destruct (String.eqb_spec (default "day" period) "month") as [Em|Em].
  { split; [reflexivity|]. split; [cbn [chart_data_day chart_data_week chart_data_month data labels];
             now rewrite !length_map|].
    right. right. destruct period as [p|]; [|discriminate].
    cbn in Em. subst p. now repeat split. }
  split; [reflexivity|]. split; [reflexivity|].
  intros Hin. cbn in Hin.
  destruct Hin as [<-|[<-|[<-|[<-|[]]]]]; cbn in *; congruence.
Qed.

(** ** What [generate] leaves alone *)

(** Whatever the request, [generate] touches no user, reading, payment
    or notification.  When it answers an error the database is the one
    given; otherwise the summary it answers is the row stored under the
    key (user, period type, start date) of the request, every other
    summary is as before, and at most one primary key was handed out. *)
Theorem generate_touches_one_summary_row
    (request : GenerateRequest) (now : Z) (db : DB) :
  let '(response, db') := generate request now db in
  users db' = users db
  /\ readings db' = readings db /\ reading_seq db' = reading_seq db
  /\ payments db' = payments db /\ payment_seq db' = payment_seq db
  /\ notifications db' = notifications db
  /\ notification_seq db' = notification_seq db
  /\ summary_seq db <= summary_seq db' <= summary_seq db + 1
  /\ match response with
     | Err _ _ => db' = db
     | Ok _ (_, summary) =>
         exists start_date : Z,
           Dates.strptime (default "" (g_start_date request)) = Some start_date
           /\ let key := (User.id (g_user request),
                          default "daily" (g_period_type request), start_date) in
              summaries db' !! key = Some summary
              /\ forall key', key' <> key ->
                   summaries db' !! key' = summaries db !! key'
     end.
Proof.
  unfold generate.
  destruct (not_str (g_start_date request) || not_str (g_end_date request));
    [repeat split; lia|].
  destruct (Dates.strptime (default "" (g_start_date request))) as [sd|];
    [|repeat split; lia].
  destruct (Dates.strptime (default "" (g_end_date request))) as [ed|];
    [|repeat split; lia].
  destruct (readings_in_period _ sd ed db) as [|r rs]; [repeat split; lia|].
  unfold update_or_create.
  destruct (summaries db !! _) as [row|] eqn:E; cbn;
    (repeat split; try lia; exists sd; split; [reflexivity|]; split;
     [apply lookup_insert_eq | intros key' Hne; now apply lookup_insert_ne]).
Qed.

(** The sample meter on Monday 2024-01-01: the two readings of 0.004 kWh
    fall on the same day, and the week chart shows their sum, 0.008,
    as 0.01 (the float nearest to it). *)
Example chart_week_on_sample :
  let out := chart_data_week sample_chart_request sample_now sample_metered_db in
  labels out = ["Tue"; "Wed"; "Thu"; "Fri"; "Sat"; "Sun"; "Mon"]
  /\ data out = (repeat PrimFloat.zero 6 ++ [0x1.47ae147ae147bp-7])%float.
Proof. vm_compute. split; reflexivity. Qed.

Example chart_month_labels_on_sample :
  let out := chart_data_month sample_chart_request sample_now sample_metered_db in
  firstn 2 (labels out) = ["12/03"; "12/04"]
  /\ skipn 28 (labels out) = ["12/31"; "01/01"].
Proof. vm_compute. split; reflexivity. Qed.
